(** * Keycloak Terraform resource analyzer: a shallow embedding

    The development follows [keycloak_analyzer.py].  The analyzer works on the
    values that [json.loads] produces, so the embedding starts from a small
    model of those values and of the Python operations the analyzer applies
    to them ([dict.get], [in], [!=], truthiness, subscripting).  Operations
    that raise in Python return [Raise] here. *)

From Stdlib Require Import ZArith Floats.
From stdpp Require Import gmap strings list fin_maps.

Set Warnings "-register-all".

(** ** Values produced by [json.loads] *)

Inductive json :=
| JNull
| JBool (b : bool)
| JInt (z : Z)
| JFloat (f : float)
| JStr (s : string)
| JList (l : list json)
| JDict (m : gmap string json).

(** The exceptions that the modelled code can meet. *)
Inductive exn :=
| AttributeError
| TypeError
| KeyError
| CalledProcessError
| JSONDecodeError
| FileNotFoundError
| NotADirectoryError
| PermissionError.

Inductive result (A : Type) :=
| Ok (a : A)
| Raise (e : exn).
Arguments Ok {A} a.
Arguments Raise {A} e.

Definition bind {A B} (m : result A) (k : A -> result B) : result B :=
  match m with
  | Ok a => k a
  | Raise e => Raise e
  end.

Declare Scope py_scope.
Delimit Scope py_scope with py.
Notation "x <- m ;; k" := (bind m (fun x => k))
  (at level 100, m at next level, right associativity) : py_scope.
Open Scope py_scope.

(** Left fold of a loop body that may raise: [for x in l: acc = body acc x]. *)
Fixpoint for_each {A S} (body : S -> A -> result S) (acc : S) (l : list A) : result S :=
  match l with
  | [] => Ok acc
  | x :: rest => acc' <- body acc x;; for_each body acc' rest
  end.

(** A list comprehension [[f x for x in l]] whose body may raise. *)
Fixpoint comprehension {A B} (f : A -> result B) (l : list A) : result (list B) :=
  match l with
  | [] => Ok []
  | x :: rest => y <- f x;; ys <- comprehension f rest;; Ok (y :: ys)
  end.

(** ** Python operations on values *)

(** [s.startswith(p)]. *)
Fixpoint str_startswith (p s : string) : bool :=
  match p, s with
  | EmptyString, _ => true
  | String a p', String b s' => Ascii.eqb a b && str_startswith p' s'
  | String _ _, EmptyString => false
  end.

(** [sub in s] on two [str]: [sub] starts at some position of [s]. *)
Fixpoint str_contains (sub s : string) : bool :=
  str_startswith sub s ||
  match s with
  | EmptyString => false
  | String _ s' => str_contains sub s'
  end.

Definition json_is_str (s : string) (v : json) : bool :=
  match v with
  | JStr t => String.eqb t s
  | _ => false
  end.

(** [needle in c] for a [str] needle: substring of a [str], element of a
    [list], key of a [dict]; [TypeError] on [None], [bool] and numbers. *)
Definition py_in (needle : string) (c : json) : result bool :=
  match c with
  | JStr s => Ok (str_contains needle s)
  | JList l => Ok (existsb (json_is_str needle) l)
  | JDict m => Ok (bool_decide (is_Some (m !! needle)))
  | JNull | JBool _ | JInt _ | JFloat _ => Raise TypeError
  end.

(** [v != s] for a [str] literal [s]: never raises. *)
Definition py_ne_str (v : json) (s : string) : bool := negb (json_is_str s v).

(** [obj.get(key, dflt)]: only a [dict] has the method. *)
Definition py_get (obj : json) (key : string) (dflt : json) : result json :=
  match obj with
  | JDict m => Ok (default dflt (m !! key))
  | _ => Raise AttributeError
  end.

(** [x[key]] for a [str] key: the value of a [dict], [KeyError] when the key
    is missing; every other value rejects a [str] index with [TypeError]. *)
Definition py_getitem (obj : json) (key : string) : result json :=
  match obj with
  | JDict m => match m !! key with Some v => Ok v | None => Raise KeyError end
  | _ => Raise TypeError
  end.

(** [bool(v)]. *)
Definition py_truthy (v : json) : bool :=
  match v with
  | JNull => false
  | JBool b => b
  | JInt z => negb (z =? 0)%Z
  | JFloat f => negb (PrimFloat.eqb f PrimFloat.zero)
  | JStr s => negb (String.eqb s "")
  | JList l => negb (bool_decide (l = []))
  | JDict m => negb (bool_decide (m = ∅))
  end.

(** [for x in v]: the elements of a [list], the keys of a [dict], the
    characters of a [str]; other values are not iterable. *)
Definition py_iter (v : json) : result (list json) :=
  match v with
  | JList l => Ok l
  | JDict m => Ok (JStr <$> (map_to_list m).*1)
  | JStr s => Ok ((fun a => JStr (String a EmptyString)) <$> String.list_ascii_of_string s)
  | JNull | JBool _ | JInt _ | JFloat _ => Raise TypeError
  end.

(** [len(v)]. *)
Definition py_len (v : json) : result nat :=
  match v with
  | JList l => Ok (length l)
  | JDict m => Ok (size m)
  | JStr s => Ok (String.length s)
  | JNull | JBool _ | JInt _ | JFloat _ => Raise TypeError
  end.

(** ** Resource classifier ([categorize_keycloak_resources]) *)

(** The ten keys of the [categories] dict, in the order the dict literal
    inserts them. *)
Inductive category :=
| Realms | Users | Clients | Roles | Groups
| IdentityProviders | AuthenticationFlows | Scopes | Mappers | Other.

#[global] Instance category_eq_dec : EqDecision category.
Proof. solve_decision. Defined.

Definition all_categories : list category :=
  [Realms; Users; Clients; Roles; Groups;
   IdentityProviders; AuthenticationFlows; Scopes; Mappers; Other].

Definition category_key (k : category) : string :=
  match k with
  | Realms => "realms"
  | Users => "users"
  | Clients => "clients"
  | Roles => "roles"
  | Groups => "groups"
  | IdentityProviders => "identity_providers"
  | AuthenticationFlows => "authentication_flows"
  | Scopes => "scopes"
  | Mappers => "mappers"
  | Other => "other"
  end.

(** The [categories] dict: one list per key. *)
Record categories := Categories {
  realms : list json;
  users : list json;
  clients : list json;
  roles : list json;
  groups : list json;
  identity_providers : list json;
  authentication_flows : list json;
  scopes : list json;
  mappers : list json;
  other : list json
}.

Definition empty_categories : categories := Categories [] [] [] [] [] [] [] [] [] [].

(** [categories[k]]. *)
Definition cat_get (c : categories) (k : category) : list json :=
  match k with
  | Realms => realms c
  | Users => users c
  | Clients => clients c
  | Roles => roles c
  | Groups => groups c
  | IdentityProviders => identity_providers c
  | AuthenticationFlows => authentication_flows c
  | Scopes => scopes c
  | Mappers => mappers c
  | Other => other c
  end.

Definition cat_map (f : category -> list json -> list json) (c : categories) : categories :=
  {| realms := f Realms (realms c);
     users := f Users (users c);
     clients := f Clients (clients c);
     roles := f Roles (roles c);
     groups := f Groups (groups c);
     identity_providers := f IdentityProviders (identity_providers c);
     authentication_flows := f AuthenticationFlows (authentication_flows c);
     scopes := f Scopes (scopes c);
     mappers := f Mappers (mappers c);
     other := f Other (other c) |}.

(** [categories[k].append(resource)]. *)
Definition cat_append (k : category) (resource : json) (c : categories) : categories :=
  cat_map (fun k' l => if decide (k = k') then l ++ [resource] else l) c.

(** [categories.items()]. *)
Definition cat_items (c : categories) : list (string * list json) :=
  (fun k => (category_key k, cat_get c k)) <$> all_categories.

(** The [if]/[elif] chain of the loop body: the key whose list receives the
    resource.  [and] and [or] evaluate their right operand only when needed. *)
Definition classify (resource_type : json) : result category :=
  has_realm <- py_in "realm" resource_type;;
  if has_realm && py_ne_str resource_type "keycloak_user" then Ok Realms else
  has_user <- py_in "user" resource_type;;
  if has_user then Ok Users else
  has_client <- py_in "client" resource_type;;
  if has_client then Ok Clients else
  has_role <- py_in "role" resource_type;;
  if has_role then Ok Roles else
  has_group <- py_in "group" resource_type;;
  if has_group then Ok Groups else
  has_idp <- (b <- py_in "identity_provider" resource_type;;
              if b then Ok true else py_in "idp" resource_type);;
  if has_idp then Ok IdentityProviders else
  has_flow <- (b <- py_in "authentication" resource_type;;
               if b then Ok true else py_in "flow" resource_type);;
  if has_flow then Ok AuthenticationFlows else
  has_scope <- py_in "scope" resource_type;;
  if has_scope then Ok Scopes else
  has_mapper <- py_in "mapper" resource_type;;
  if has_mapper then Ok Mappers else
  Ok Other.

(** [resource.get('type', '')] followed by the chain. *)
Definition resource_category (resource : json) : result category :=
  resource_type <- py_get resource "type" (JStr "");;
  classify resource_type.

(** One iteration of [for resource in resources]. *)
Definition categorize_body (c : categories) (resource : json) : result categories :=
  k <- resource_category resource;;
  Ok (cat_append k resource c).

Definition categorize_keycloak_resources (resources : list json) : result categories :=
  for_each categorize_body empty_categories resources.

(** ** User security analysis ([analyze_user_security]) *)

(** The per-user [user_info] dict. *)
Record user_info := UserInfo {
  username : json;
  email : json;
  enabled : json;
  has_password : bool;
  temporary_password : bool;
  requires_password_change : bool
}.

(** The [security_analysis] dict. *)
Record security_analysis := SecurityAnalysis {
  total_users : nat;
  users_with_passwords : nat;
  users_without_passwords : nat;
  temporary_passwords : nat;
  enabled_users : nat;
  disabled_users : nat;
  users_requiring_password_change : nat;
  user_details : list user_info
}.

(** Assignments to single keys of the two dicts. *)
Definition set_has_password (b : bool) (u : user_info) : user_info :=
  UserInfo (username u) (email u) (enabled u) b
           (temporary_password u) (requires_password_change u).
Definition set_temporary_password (b : bool) (u : user_info) : user_info :=
  UserInfo (username u) (email u) (enabled u) (has_password u)
           b (requires_password_change u).
Definition set_enabled (v : json) (u : user_info) : user_info :=
  UserInfo (username u) (email u) v (has_password u)
           (temporary_password u) (requires_password_change u).

Definition incr_users_with_passwords (sa : security_analysis) : security_analysis :=
  SecurityAnalysis (total_users sa) (users_with_passwords sa + 1)
    (users_without_passwords sa) (temporary_passwords sa) (enabled_users sa)
    (disabled_users sa) (users_requiring_password_change sa) (user_details sa).
Definition incr_users_without_passwords (sa : security_analysis) : security_analysis :=
  SecurityAnalysis (total_users sa) (users_with_passwords sa)
    (users_without_passwords sa + 1) (temporary_passwords sa) (enabled_users sa)
    (disabled_users sa) (users_requiring_password_change sa) (user_details sa).
Definition incr_temporary_passwords (sa : security_analysis) : security_analysis :=
  SecurityAnalysis (total_users sa) (users_with_passwords sa)
    (users_without_passwords sa) (temporary_passwords sa + 1) (enabled_users sa)
    (disabled_users sa) (users_requiring_password_change sa) (user_details sa).
Definition incr_enabled_users (sa : security_analysis) : security_analysis :=
  SecurityAnalysis (total_users sa) (users_with_passwords sa)
    (users_without_passwords sa) (temporary_passwords sa) (enabled_users sa + 1)
    (disabled_users sa) (users_requiring_password_change sa) (user_details sa).
Definition incr_disabled_users (sa : security_analysis) : security_analysis :=
  SecurityAnalysis (total_users sa) (users_with_passwords sa)
    (users_without_passwords sa) (temporary_passwords sa) (enabled_users sa)
    (disabled_users sa + 1) (users_requiring_password_change sa) (user_details sa).
Definition append_user_details (u : user_info) (sa : security_analysis) : security_analysis :=
  SecurityAnalysis (total_users sa) (users_with_passwords sa)
    (users_without_passwords sa) (temporary_passwords sa) (enabled_users sa)
    (disabled_users sa) (users_requiring_password_change sa) (user_details sa ++ [u]).

Definition initial_security_analysis (n : nat) : security_analysis :=
  SecurityAnalysis n 0 0 0 0 0 0 [].

(** The [if 'initial_password' in values: ... else: ...] statement. *)
Definition password_step (values : json) (st : user_info * security_analysis)
  : result (user_info * security_analysis) :=
  let '(info, sa) := st in
  has_initial <- py_in "initial_password" values;;
  if has_initial then
    let info := set_has_password true info in
    let sa := incr_users_with_passwords sa in
    initial_password <- py_get values "initial_password" (JDict ∅);;
    temporary <- py_get initial_password "temporary" (JBool false);;
    if py_truthy temporary
    then Ok (set_temporary_password true info, incr_temporary_passwords sa)
    else Ok (info, sa)
  else Ok (info, incr_users_without_passwords sa).

(** The [if values.get('enabled', True): ... else: ...] statement. *)
Definition enabled_step (values : json) (st : user_info * security_analysis)
  : result (user_info * security_analysis) :=
  let '(info, sa) := st in
  flag <- py_get values "enabled" (JBool true);;
  if py_truthy flag
  then Ok (set_enabled (JBool true) info, incr_enabled_users sa)
  else Ok (set_enabled (JBool false) info, incr_disabled_users sa).

(** One iteration of [for user in users]. *)
Definition analyze_user_body (sa : security_analysis) (user : json) : result security_analysis :=
  values <- py_get user "values" (JDict ∅);;
  name <- py_get values "username" (JStr "unknown");;
  mail <- py_get values "email" (JStr "");;
  flag <- py_get values "enabled" (JBool true);;
  let info := UserInfo name mail flag false false false in
  st <- password_step values (info, sa);;
  st <- enabled_step values st;;
  Ok (append_user_details (fst st) (snd st)).

Definition analyze_user_security (users : list json) : result security_analysis :=
  for_each analyze_user_body (initial_security_analysis (length users)) users.

(** ** Realm, client and identity-provider projections *)

Record realm_info := RealmInfo {
  realm_name : json;
  realm_enabled : json;
  realm_display_name : json;
  realm_address : json
}.

Record client_info := ClientInfo {
  client_client_id : json;
  client_name : json;
  client_enabled : json;
  client_protocol : json;
  client_address : json
}.

Record idp_info := IdpInfo {
  idp_alias : json;
  idp_provider_id : json;
  idp_enabled : json;
  idp_address : json
}.

(** [r.get('values', {}).get(key, dflt)]. *)
Definition values_get (r : json) (key : string) (dflt : json) : result json :=
  values <- py_get r "values" (JDict ∅);;
  py_get values key dflt.

Definition realm_projection (r : json) : result realm_info :=
  n <- values_get r "realm" (JStr "unknown");;
  e <- values_get r "enabled" (JBool true);;
  d <- values_get r "display_name" (JStr "");;
  a <- py_get r "address" (JStr "");;
  Ok (RealmInfo n e d a).

Definition client_projection (c : json) : result client_info :=
  i <- values_get c "client_id" (JStr "unknown");;
  n <- values_get c "name" (JStr "");;
  e <- values_get c "enabled" (JBool true);;
  p <- values_get c "protocol" (JStr "");;
  a <- py_get c "address" (JStr "");;
  Ok (ClientInfo i n e p a).

Definition idp_projection (idp : json) : result idp_info :=
  al <- values_get idp "alias" (JStr "unknown");;
  p <- values_get idp "provider_id" (JStr "");;
  e <- values_get idp "enabled" (JBool true);;
  a <- py_get idp "address" (JStr "");;
  Ok (IdpInfo al p e a).

(** ** Workspaces and per-workspace summaries *)

(** The [TerraformWorkspace] dataclass.  [resources] and [outputs] hold
    whatever the state snapshot contains, so they are arbitrary values. *)
Module Workspace.
Record t := Make {
  path : string;
  name : string;
  has_state : bool;
  resources : json;
  outputs : json
}.
End Workspace.
Abbreviation TerraformWorkspace := Workspace.t.

(** The [detailed_analysis] dict: each key is present only if set. *)
Record detailed_analysis := DetailedAnalysis {
  user_security : option security_analysis;
  realm_details : option (list realm_info);
  client_details : option (list client_info);
  identity_provider_details : option (list idp_info)
}.

(** The summary dict returned by [generate_workspace_summary].  The keys
    [error], [detailed_analysis] and [outputs] are absent from some
    summaries; [categories] keeps the insertion order of the dict. *)
Module Summary.
Record t := Make {
  name : string;
  path : string;
  has_state : bool;
  resource_count : nat;
  categories : list (string * nat);
  error : option string;
  detailed_analysis : option detailed_analysis;
  outputs : option json
}.
End Summary.

(** The record returned when [workspace.resources] is falsy. *)
Definition no_resources_summary (workspace : TerraformWorkspace) : Summary.t :=
  {| Summary.name := Workspace.name workspace;
     Summary.path := Workspace.path workspace;
     Summary.has_state := Workspace.has_state workspace;
     Summary.resource_count := 0;
     Summary.categories := [];
     Summary.error := Some "No resources found or state not loaded";
     Summary.detailed_analysis := None;
     Summary.outputs := None |}.

Definition nonempty {A} (l : list A) : bool :=
  match l with [] => false | _ :: _ => true end.

(** [{k: len(v) for k, v in categories.items() if v}]. *)
Definition category_counts (c : categories) : list (string * nat) :=
  (fun kv => (kv.1, length kv.2)) <$> filter (fun kv => nonempty kv.2 = true) (cat_items c).

(** [if l: summary['detailed_analysis'][key] = f(l)]. *)
Definition when_nonempty {A B} (l : list A) (f : list A -> result B) : result (option B) :=
  if nonempty l then v <- f l;; Ok (Some v) else Ok None.

Section Aggregator.
(** [self.categorize_keycloak_resources], reached through [self]. *)
Variable categorize : list json -> result categories.

Definition generate_workspace_summary_with (workspace : TerraformWorkspace)
  : result Summary.t :=
  if negb (py_truthy (Workspace.resources workspace))
  then Ok (no_resources_summary workspace)
  else
    rs <- py_iter (Workspace.resources workspace);;
    cats <- categorize rs;;
    count <- py_len (Workspace.resources workspace);;
    us <- when_nonempty (users cats) analyze_user_security;;
    re <- when_nonempty (realms cats) (comprehension realm_projection);;
    cl <- when_nonempty (clients cats) (comprehension client_projection);;
    ip <- when_nonempty (identity_providers cats) (comprehension idp_projection);;
    Ok {| Summary.name := Workspace.name workspace;
          Summary.path := Workspace.path workspace;
          Summary.has_state := Workspace.has_state workspace;
          Summary.resource_count := count;
          Summary.categories := category_counts cats;
          Summary.error := None;
          Summary.detailed_analysis := Some (DetailedAnalysis us re cl ip);
          Summary.outputs := Some (Workspace.outputs workspace) |}.
End Aggregator.

Definition generate_workspace_summary : TerraformWorkspace -> result Summary.t :=
  generate_workspace_summary_with categorize_keycloak_resources.

(** ** State loader ([load_terraform_state]) *)

(** What the loader can observe and change outside the analyzer: the
    process's working directory, and the external commands run so far, each
    with the directory it ran in. *)
Record world := World {
  cwd : string;
  invoked : list (string * list string)
}.

(** The loader's state: the world and the workspace object it mutates. *)
Record loader_state := LoaderState {
  ls_world : world;
  ls_workspace : TerraformWorkspace
}.

(** Computations that thread a state and may raise; the state reached
    before a [raise] is kept, as the mutations of a Python object are. *)
Definition stm (S A : Type) : Type := S -> S * result A.

Definition st_ret {S A} (a : A) : stm S A := fun s => (s, Ok a).
Definition st_bind {S A B} (m : stm S A) (k : A -> stm S B) : stm S B :=
  fun s => match m s with
           | (s', Ok a) => k a s'
           | (s', Raise e) => (s', Raise e)
           end.
Definition st_lift {S A} (r : result A) : stm S A := fun s => (s, r).
Definition st_modify {S} (f : S -> S) : stm S unit := fun s => (f s, Ok tt).

Notation "x <~ m ;; k" := (st_bind m (fun x => k))
  (at level 100, m at next level, right associativity) : py_scope.

(** [try: body except (E1, ...): handler]. *)
Definition try_except {S A} (body : stm S A) (caught : exn -> bool)
    (handler : exn -> stm S A) : stm S A :=
  fun s => match body s with
           | (s', Raise e) => if caught e then handler e s' else (s', Raise e)
           | (s', Ok a) => (s', Ok a)
           end.

(** [try: body finally: cleanup]: the cleanup runs on every exit of the
    body; the body's value or exception survives unless the cleanup raises. *)
Definition try_finally {S A} (body : stm S A) (cleanup : stm S unit) : stm S A :=
  fun s => let '(s1, r) := body s in
           match cleanup s1 with
           | (s2, Ok _) => (s2, r)
           | (s2, Raise e) => (s2, Raise e)
           end.

Definition exn_in (es : list exn) (e : exn) : bool :=
  existsb (fun e' => match e, e' with
                     | AttributeError, AttributeError | TypeError, TypeError
                     | KeyError, KeyError | CalledProcessError, CalledProcessError
                     | JSONDecodeError, JSONDecodeError
                     | FileNotFoundError, FileNotFoundError
                     | NotADirectoryError, NotADirectoryError
                     | PermissionError, PermissionError => true
                     | _, _ => false
                     end) es.

Definition set_resources (v : json) (ws : TerraformWorkspace) : TerraformWorkspace :=
  Workspace.Make (Workspace.path ws) (Workspace.name ws) (Workspace.has_state ws)
                 v (Workspace.outputs ws).
Definition set_outputs (v : json) (ws : TerraformWorkspace) : TerraformWorkspace :=
  Workspace.Make (Workspace.path ws) (Workspace.name ws) (Workspace.has_state ws)
                 (Workspace.resources ws) v.

Definition on_workspace (f : TerraformWorkspace -> TerraformWorkspace) : stm loader_state unit :=
  st_modify (fun s => LoaderState (ls_world s) (f (ls_workspace s))).

Section Loader.
(** [os.chdir] as an oracle over the world it is called in: it succeeds, or
    it raises an [OSError] ([FileNotFoundError] when the directory is gone,
    [NotADirectoryError], [PermissionError]). *)
Variable os_chdir : world -> string -> result unit.
(** [subprocess.run(argv, capture_output=True, text=True, check=True)] as
    an oracle over the world the command starts in: the captured stdout,
    [FileNotFoundError] when the binary is missing, or
    [CalledProcessError] on a non-zero exit status. *)
Variable subprocess_run : world -> list string -> result string.
(** [json.loads]: a value, or [JSONDecodeError]. *)
Variable json_loads : string -> result json.

(** [os.chdir(dir)]: the working directory changes only when the call
    succeeds. *)
Definition chdir (dir : string) : stm loader_state unit :=
  fun s =>
    match os_chdir (ls_world s) dir with
    | Ok _ => (LoaderState (World dir (invoked (ls_world s))) (ls_workspace s), Ok tt)
    | Raise e => (s, Raise e)
    end.

Definition run_command (argv : list string) : stm loader_state string :=
  fun s =>
    let w := ls_world s in
    (LoaderState (World (cwd w) (invoked w ++ [(cwd w, argv)])) (ls_workspace s),
     subprocess_run w argv).

(** The body of the outer [try]. *)
Definition load_body (workspace : TerraformWorkspace) : stm loader_state bool :=
  _ <~ chdir (Workspace.path workspace);;
  stdout <~ run_command ["terraform"; "show"; "-json"];;
  state_data <~ st_lift (json_loads stdout);;
  has_values <~ st_lift (py_in "values" state_data);;
  has_root <~ (if has_values
               then st_lift (v <- py_getitem state_data "values";; py_in "root_module" v)
               else st_ret false);;
  _ <~ (if has_root
        then rs <~ st_lift (v <- py_getitem state_data "values";;
                            root <- py_getitem v "root_module";;
                            py_get root "resources" (JList []));;
             on_workspace (set_resources rs)
        else st_ret tt);;
  _ <~ try_except
         (out <~ run_command ["terraform"; "output"; "-json"];;
          parsed <~ st_lift (json_loads out);;
          on_workspace (set_outputs parsed))
         (exn_in [CalledProcessError; JSONDecodeError])
         (fun _ => on_workspace (set_outputs (JDict ∅)));;
  st_ret true.

(** [self.base_path] is the analyzer's scan root.  The message written by
    [self.log] in the handler is console output and is not modelled. *)
Definition load_terraform_state (base_path : string) : stm loader_state bool :=
  fun s =>
    if negb (Workspace.has_state (ls_workspace s)) then (s, Ok false)
    else
      try_finally
        (try_except (load_body (ls_workspace s))
           (exn_in [CalledProcessError; JSONDecodeError; FileNotFoundError])
           (fun _ => st_ret false))
        (chdir base_path) s.
End Loader.

(** ** Insertion-ordered dicts keyed by [str] *)

(** [d.get(k)]. *)
Definition od_get {V} (k : string) (d : list (string * V)) : option V :=
  snd <$> find (fun kv => String.eqb kv.1 k) d.

(** [d[k] = v]: an existing key keeps its position. *)
Fixpoint od_set {V} (k : string) (v : V) (d : list (string * V)) : list (string * V) :=
  match d with
  | [] => [(k, v)]
  | (k', v') :: d' =>
      if String.eqb k' k then (k', v) :: d' else (k', v') :: od_set k v d'
  end.

(** ** Workspace discovery ([find_terraform_workspaces]) *)

(** One step of [os.walk(self.base_path)], with what the loop body reads
    from the file system for that directory. *)
Record walk_entry := WalkEntry {
  we_root : string;         (* the directory *)
  we_relative : string;     (* its path relative to the scan root, as [str] *)
  we_files : list string;   (* the walk's [files] *)
  we_state_exists : bool    (* [(root / 'terraform.tfstate').exists()] *)
}.

(** [s.endswith(suffix)]. *)
Definition str_endswith (suffix s : string) : bool :=
  (String.length suffix <=? String.length s) &&
  String.eqb (String.substring (String.length s - String.length suffix)
                        (String.length suffix) s) suffix.

Definition is_workspace_dir (files : list string) : bool :=
  existsb (String.eqb "main.tf") files || existsb (str_endswith ".tf") files.

Definition new_workspace (e : walk_entry) : TerraformWorkspace :=
  {| Workspace.path := we_root e;
     Workspace.name := if String.eqb (we_relative e) "." then "root" else we_relative e;
     Workspace.has_state := we_state_exists e;
     Workspace.resources := JList [];
     Workspace.outputs := JDict ∅ |}.

Definition find_terraform_workspaces (walk : list walk_entry)
  : list (string * TerraformWorkspace) :=
  fold_left (fun workspaces e =>
               if is_workspace_dir (we_files e)
               then od_set (we_relative e) (new_workspace e) workspaces
               else workspaces)
            walk [].

(** ** The analysis run ([run_analysis]) *)

Record analyzer := Analyzer {
  base_path : string;
  workspaces : list (string * TerraformWorkspace);
  summary_data : list (string * Summary.t)
}.

Section Run.
Variable os_chdir : world -> string -> result unit.
Variable subprocess_run : world -> list string -> result string.
Variable json_loads : string -> result json.

(** [for workspace in self.workspaces.values(): if
    self.load_terraform_state(workspace): loaded_count += 1].  The
    workspace objects are updated in place, also when a later load raises. *)
Fixpoint load_all (base : string) (wss : list (string * TerraformWorkspace))
    (loaded_count : nat) (w : world)
  : world * list (string * TerraformWorkspace) * result nat :=
  match wss with
  | [] => (w, [], Ok loaded_count)
  | (k, ws) :: rest =>
      let '(s1, r) := load_terraform_state os_chdir subprocess_run json_loads base
                        (LoaderState w ws) in
      match r with
      | Raise e => (ls_world s1, (k, ls_workspace s1) :: rest, Raise e)
      | Ok loaded =>
          let '(w2, rest', r') :=
            load_all base rest (if loaded then loaded_count + 1 else loaded_count)
                     (ls_world s1) in
          (w2, (k, ls_workspace s1) :: rest', r')
      end
  end.

(** [for workspace in self.workspaces.values():
    self.summary_data[workspace.name] = self.generate_workspace_summary(workspace)]. *)
Fixpoint summarize_all (wss : list TerraformWorkspace)
    (data : list (string * Summary.t)) : list (string * Summary.t) * result unit :=
  match wss with
  | [] => (data, Ok tt)
  | ws :: rest =>
      match generate_workspace_summary ws with
      | Raise e => (data, Raise e)
      | Ok s => summarize_all rest (od_set (Workspace.name ws) s data)
      end
  end.

Definition run_analysis (walk : list walk_entry) (self : analyzer) (w : world)
  : world * analyzer * result bool :=
  let found := find_terraform_workspaces walk in
  if negb (nonempty found)
  then (w, Analyzer (base_path self) found (summary_data self), Ok false)
  else
    let '(w', loaded_wss, r) := load_all (base_path self) found 0 w in
    match r with
    | Raise e => (w', Analyzer (base_path self) loaded_wss (summary_data self), Raise e)
    | Ok _ =>
        let '(data, r') := summarize_all loaded_wss.*2 (summary_data self) in
        (w', Analyzer (base_path self) loaded_wss data, _ <- r';; Ok true)
    end.
End Run.

(** ** Run totals (overview table and JSON export) *)

(** [categories.get(key, 0)]. *)
Definition count_of (key : string) (counts : list (string * nat)) : nat :=
  default 0 (od_get key counts).

(** The running totals of [display_high_level_summary]. *)
Module Overview.
Record t := Make {
  total_resources : nat;
  total_realms : nat;
  total_users : nat;
  total_clients : nat;
  total_idps : nat
}.
End Overview.

(** One iteration of the loop over [self.summary_data.items()]. *)
Definition add_to_overview (t : Overview.t) (summary : Summary.t) : Overview.t :=
  let cats := Summary.categories summary in
  {| Overview.total_resources := Overview.total_resources t + Summary.resource_count summary;
     Overview.total_realms := Overview.total_realms t + count_of "realms" cats;
     Overview.total_users := Overview.total_users t + count_of "users" cats;
     Overview.total_clients := Overview.total_clients t + count_of "clients" cats;
     Overview.total_idps := Overview.total_idps t + count_of "identity_providers" cats |}.

Definition overview_totals (data : list (string * Summary.t)) : Overview.t :=
  fold_left add_to_overview data.*2 (Overview.Make 0 0 0 0 0).

(** The [analysis_summary] of [export_to_json]. *)
Module AnalysisSummary.
Record t := Make {
  total_workspaces : nat;
  total_resources : nat;
  workspaces_with_state : nat
}.
End AnalysisSummary.

Definition analysis_summary (data : list (string * Summary.t)) : AnalysisSummary.t :=
  {| AnalysisSummary.total_workspaces := length data;
     AnalysisSummary.total_resources := sum_list (Summary.resource_count <$> data.*2);
     AnalysisSummary.workspaces_with_state :=
       sum_list ((fun _ => 1) <$> filter (fun s => Summary.has_state s = true) data.*2) |}.

(** ** Reporter dispatch and the command line ([display_detailed_analysis], [main]) *)

(** The reporter methods that the class defines.  A value of this type
    says which one is entered; what it then prints is console output and is
    not modelled. *)
Inductive view :=
| HighLevelSummary      (* [display_high_level_summary] *)
| UserAnalysis          (* [_display_user_analysis] *)
| RealmAnalysis         (* [_display_realm_analysis] *)
| CompleteAnalysis.     (* [_display_complete_analysis] *)

(** [display_detailed_analysis].  The branches for ["clients"], ["idp"] and
    ["auth"] look up [self._display_client_analysis],
    [self._display_idp_analysis] and [self._display_auth_analysis]; the class
    has no attribute of these names. *)
Definition display_detailed_analysis (filter_type : string) : result view :=
  if String.eqb filter_type "users" then Ok UserAnalysis
  else if String.eqb filter_type "realms" then Ok RealmAnalysis
  else if String.eqb filter_type "clients" then Raise AttributeError
  else if String.eqb filter_type "idp" then Raise AttributeError
  else if String.eqb filter_type "auth" then Raise AttributeError
  else Ok CompleteAnalysis.

(** A [rich] console, by how it came to be: passed in by the caller of the
    constructor, or made by a call [Console()]. *)
Inductive console :=
| GivenConsole (tag : string)
| NewConsole.

(** [self.console = console or Console() if RICH_AVAILABLE else None] in
    [__init__]: the conditional expression binds weaker than [or], and a
    console object is truthy. *)
Definition init_console (rich_available : bool) (given : option console) : option console :=
  if rich_available
  then Some (match given with Some c => c | None => NewConsole end)
  else None.

(** The parsed command line. *)
Record cli_args := CliArgs {
  arg_path : string;
  arg_filter : option string;
  arg_detailed : bool;
  arg_export : option string;
  arg_no_color : bool
}.

(** What a run of [main] that raises no exception does up to its last
    line, as far as it is modelled: the exit status, the console of the
    analyzer, the reporter method entered, and the export started.
    Rendering and the writing of the file are taken to succeed. *)
Record main_result := MainResult {
  exit_status : nat;                         (* 1 for [sys.exit(1)], else 0 *)
  used_console : option console;             (* [analyzer.console] *)
  displayed : option view;
  exported : option (string * string * AnalysisSummary.t)
    (* the working directory when [open(output_file, 'w')] runs, the file
       name, and the [analysis_summary] written *)
}.


(** Truthiness of an optional [str] argument ([None] and [''] are falsy). *)
Definition arg_given (a : option string) : bool :=
  match a with
  | Some s => negb (String.eqb s "")
  | None => false
  end.

Section Main.
Variable os_chdir : world -> string -> result unit.
Variable subprocess_run : world -> list string -> result string.
Variable json_loads : string -> result json.
(** [RICH_AVAILABLE], and [Path(args.path).resolve()] from the working
    directory of the process. *)
Variable rich_available : bool.
Variable resolve : string -> string -> string.

Definition main (args : cli_args) (walk : list walk_entry) (w : world)
  : world * analyzer * result main_result :=
  let console := if rich_available && negb (arg_no_color args)
                 then Some NewConsole else None in
  let self := Analyzer (resolve (cwd w) (arg_path args)) [] [] in
  let self_console := init_console rich_available console in
  let '(w1, self1, r) := run_analysis os_chdir subprocess_run json_loads walk self w in
  match r with
  | Raise e => (w1, self1, Raise e)
  | Ok false => (w1, self1, Ok (MainResult 1 self_console None None))
  | Ok true =>
      let shown :=
        if arg_detailed args then display_detailed_analysis "all"
        else if arg_given (arg_filter args)
             then display_detailed_analysis (default ""%string (arg_filter args))
             else Ok HighLevelSummary in
      match shown with
      | Raise e => (w1, self1, Raise e)
      | Ok v =>
          let written :=
            if arg_given (arg_export args)
            then Some (cwd w1, default ""%string (arg_export args),
                       analysis_summary (summary_data self1))
            else None in
          (w1, self1, Ok (MainResult 0 self_console (Some v) written))
      end
  end.
End Main.

(** * Properties *)

(** ** Vocabulary of the statements *)

(** The resources on which the classifier's tests are defined: records
    whose [type] is missing, a [str], a [list] or a [dict]. *)
Definition classifiable (resource : json) : bool :=
  match resource with
  | JDict m =>
      match m !! "type" with
      | None | Some (JStr _) | Some (JList _) | Some (JDict _) => true
      | Some _ => false
      end
  | _ => false
  end.

(** The [type] of a resource is the string [s] (the default [''] included). *)
Definition has_type (resource : json) (s : string) : Prop :=
  py_get resource "type" (JStr "") = Ok (JStr s).

(** The classifier sends [resource] to the list of key [k]. *)
Definition in_category (k : category) (resource : json) : bool :=
  match resource_category resource with
  | Ok k' => bool_decide (k' = k)
  | Raise _ => false
  end.

(** The [values] dict that the analyzer reads from a resource: the value
    under ['values'], or the default [{}]; [None] when the resource is not a
    record or its ['values'] is not one (then [.get] raises). *)
Definition values_of (resource : json) : option (gmap string json) :=
  match resource with
  | JDict m =>
      match default (JDict ∅) (m !! "values") with
      | JDict values => Some values
      | _ => None
      end
  | _ => None
  end.

(** [initial_password] is missing or a record. *)
Definition password_ok (values : gmap string json) : bool :=
  match values !! "initial_password" with
  | None | Some (JDict _) => true
  | Some _ => false
  end.

(** The users on which [analyze_user_security] is defined. *)
Definition user_ok (user : json) : bool :=
  match values_of user with
  | Some values => password_ok values
  | None => false
  end.

(** What one loop iteration computes from the [values] of a user. *)
Definition user_has_initial (values : gmap string json) : bool :=
  bool_decide (is_Some (values !! "initial_password")).

Definition user_temporary (values : gmap string json) : bool :=
  match values !! "initial_password" with
  | Some (JDict ip) => py_truthy (default (JBool false) (ip !! "temporary"))
  | _ => false
  end.

Definition user_enabled (values : gmap string json) : bool :=
  py_truthy (default (JBool true) (values !! "enabled")).

Definition user_record (values : gmap string json) : user_info :=
  {| username := default (JStr "unknown") (values !! "username");
     email := default (JStr "") (values !! "email");
     enabled := JBool (user_enabled values);
     has_password := user_has_initial values;
     temporary_password := user_temporary values;
     requires_password_change := false |}.

Definition count_user (values : gmap string json) (sa : security_analysis)
  : security_analysis :=
  {| total_users := total_users sa;
     users_with_passwords :=
       if user_has_initial values
       then users_with_passwords sa + 1 else users_with_passwords sa;
     users_without_passwords :=
       if user_has_initial values
       then users_without_passwords sa else users_without_passwords sa + 1;
     temporary_passwords :=
       if user_temporary values
       then temporary_passwords sa + 1 else temporary_passwords sa;
     enabled_users :=
       if user_enabled values then enabled_users sa + 1 else enabled_users sa;
     disabled_users :=
       if user_enabled values then disabled_users sa else disabled_users sa + 1;
     users_requiring_password_change := users_requiring_password_change sa;
     user_details := user_details sa ++ [user_record values] |}.

(** The loop iteration for [user] in the run of [analyze_user_security] on
    [before ++ user :: after]: the loop reaches [sa] after the users before
    it, the iteration moves from [sa] to [sa'] and appends [info] to the
    detail list, and the loop ends in [final], the value returned, where
    [info] sits at the position of [user]. *)
Definition iteration_of (before : list json) (user : json) (after : list json)
    (sa sa' final : security_analysis) (info : user_info) : Prop :=
  for_each analyze_user_body
    (initial_security_analysis (length (before ++ user :: after))) before = Ok sa
  /\ analyze_user_body sa user = Ok sa'
  /\ for_each analyze_user_body sa' after = Ok final
  /\ analyze_user_security (before ++ user :: after) = Ok final
  /\ user_details sa' = user_details sa ++ [info]
  /\ user_details final !! length before = Some info.

(** The [address] a projection reports. *)
Definition address_of (resource : json) : json :=
  match resource with
  | JDict m => default (JStr "") (m !! "address")
  | _ => JStr ""
  end.

(** A computation that runs inside [dir]: started there it ends there, and
    every command it runs is run there. *)
Definition stays_in {A} (dir : string) (m : stm loader_state A) : Prop :=
  forall s, cwd (ls_world s) = dir ->
    cwd (ls_world (m s).1) = dir
    /\ exists calls,
         invoked (ls_world (m s).1) = invoked (ls_world s) ++ calls
         /\ Forall (fun c => c.1 = dir) calls.

(** A user as the Keycloak provider records it: [initial_password] is a
    block, which the state snapshot renders as a list of one record. *)
Definition user_with_password_block : json :=
  JDict {[ "type" := JStr "keycloak_user";
           "address" := JStr "keycloak_user.alice";
           "values" := JDict {[ "username" := JStr "alice";
                                "initial_password" :=
                                  JList [JDict {[ "temporary" := JBool true ]}] ]} ]}.

(** ** Sample data

    The scenario of a scan root [/infra] with two workspaces: [prod], whose
    state holds one realm and two users, and [staging], which has no state. *)

Definition demo_realm : json :=
  JDict {[ "type" := JStr "keycloak_realm";
           "address" := JStr "keycloak_realm.demo";
           "values" := JDict {[ "realm" := JStr "demo" ]} ]}.

Definition alice_values : gmap string json :=
  {[ "username" := JStr "alice";
     "initial_password" := JDict {[ "temporary" := JBool true ]} ]}.

Definition bob_values : gmap string json :=
  {[ "username" := JStr "bob"; "email" := JStr "bob@example.org" ]}.

Definition alice : json :=
  JDict {[ "type" := JStr "keycloak_user"; "values" := JDict alice_values ]}.

Definition bob : json :=
  JDict {[ "type" := JStr "keycloak_user"; "values" := JDict bob_values ]}.

Definition demo_resources : list json := [demo_realm; alice; bob].

Definition demo_categories : categories :=
  Categories [demo_realm] [alice; bob] [] [] [] [] [] [] [] [].

Definition federation_mapper : json :=
  JDict {[ "type" := JStr "keycloak_user_federation_mapper" ]}.

Definition prod_loaded : TerraformWorkspace :=
  Workspace.Make "/infra/prod" "prod" true (JList demo_resources) (JDict ∅).

Definition staging : TerraformWorkspace :=
  Workspace.Make "/infra/staging" "staging" false (JList []) (JDict ∅).

Definition demo_walk : list walk_entry :=
  [ WalkEntry "/infra/prod" "prod" ["main.tf"; "terraform.tfstate"] true;
    WalkEntry "/infra/staging" "staging" ["main.tf"] false ].

(** The external command of the scenario: it knows the state of [prod]
    only, and prints opaque text that the parser below understands. *)
Definition demo_terraform (w : world) (argv : list string) : result string :=
  if String.eqb (cwd w) "/infra/prod"
  then if existsb (String.eqb "show") argv then Ok "state"%string else Ok "outputs"%string
  else Raise CalledProcessError.

(** The directories of the scenarios exist; any other is missing. *)
Definition demo_chdir (w : world) (dir : string) : result unit :=
  if existsb (String.eqb dir)
       ["/infra"; "/infra/prod"; "/infra/staging"; "/infra/root"; "/home/operator"]%string
  then Ok tt else Raise FileNotFoundError.

(** The first scenario after [/infra/prod] has been removed between the
    walk and the load. *)
Definition prod_removed_chdir (w : world) (dir : string) : result unit :=
  if String.eqb dir "/infra/prod" then Raise FileNotFoundError else demo_chdir w dir.

(** A second scenario: the scan root [/infra] is itself a workspace, without
    state, and has a subdirectory [root] that is a workspace with state.
    [os.walk] lists the scan root first. *)
Definition clash_walk : list walk_entry :=
  [ WalkEntry "/infra" "." ["main.tf"] false;
    WalkEntry "/infra/root" "root" ["main.tf"; "terraform.tfstate"] true ].

Definition clash_terraform (w : world) (argv : list string) : result string :=
  if String.eqb (cwd w) "/infra/root"
  then if existsb (String.eqb "show") argv then Ok "state"%string else Ok "outputs"%string
  else Raise CalledProcessError.

(** The workspace that discovery makes of the scan root in that scenario. *)
Definition scan_root_workspace : TerraformWorkspace :=
  Workspace.Make "/infra" "root" false (JList []) (JDict ∅).

Definition demo_json_loads (text : string) : result json :=
  if String.eqb text "state"
  then Ok (JDict {[ "values" :=
                      JDict {[ "root_module" :=
                                 JDict {[ "resources" := JList demo_resources ]} ]} ]})
  else if String.eqb text "outputs" then Ok (JDict ∅)
  else Raise JSONDecodeError.

(** Two workspace records that differ at most in [resources] and
    [outputs]. *)
Definition same_identity (ws ws' : TerraformWorkspace) : Prop :=
  Workspace.path ws' = Workspace.path ws
  /\ Workspace.name ws' = Workspace.name ws
  /\ Workspace.has_state ws' = Workspace.has_state ws.

Definition keeps_identity {A} (m : stm loader_state A) : Prop :=
  forall s, same_identity (ls_workspace s) (ls_workspace (m s).1).

(** A computation that runs the commands [argvs], in this order, in the
    directory it starts in, and stays there: it runs a prefix of them when
    it raises and all of them when it returns. *)
Definition runs {A} (argvs : list (list string)) (m : stm loader_state A) : Prop :=
  forall s, exists done_argvs,
    ls_world (m s).1
    = World (cwd (ls_world s))
            (invoked (ls_world s) ++ ((fun a => (cwd (ls_world s), a)) <$> done_argvs))
    /\ done_argvs `prefix_of` argvs
    /\ (forall a, (m s).2 = Ok a -> done_argvs = argvs).

(** How the inner [try] around [terraform output -json] ends when it ends
    normally: with the parsed outputs, or with [{}] after a
    [CalledProcessError] or a [JSONDecodeError]; [None] when another
    exception leaves it. *)
Definition outputs_after (subprocess_run : world -> list string -> result string)
    (json_loads : string -> result json) (w : world) : option json :=
  match subprocess_run w ["terraform"; "output"; "-json"] with
  | Ok out =>
      match json_loads out with
      | Ok parsed => Some parsed
      | Raise e => if exn_in [CalledProcessError; JSONDecodeError] e
                   then Some (JDict ∅) else None
      end
  | Raise e => if exn_in [CalledProcessError; JSONDecodeError] e
               then Some (JDict ∅) else None
  end.

(** More of the scenario: [prod] as discovery creates it, the parts of its
    snapshot, and external tools that misbehave. *)
Definition prod_fresh : TerraformWorkspace :=
  Workspace.Make "/infra/prod" "prod" true (JList []) (JDict ∅).

Definition demo_root : gmap string json := {[ "resources" := JList demo_resources ]}.
Definition demo_snapshot_values : gmap string json := {[ "root_module" := JDict demo_root ]}.
Definition demo_snapshot : gmap string json := {[ "values" := JDict demo_snapshot_values ]}.

(** A [terraform] binary that disappears after its first run. *)
Definition vanishing_terraform (w : world) (argv : list string) : result string :=
  if existsb (String.eqb "show") argv then Ok "state"%string else Raise FileNotFoundError.

(** Parsers for a state without resources and for the snapshot [null]. *)
Definition empty_object_loads (text : string) : result json := Ok (JDict ∅).
Definition null_loads (text : string) : result json := Ok JNull.

(** [Path(path).resolve()] for the scenario: ["."] is the working
    directory, other paths are taken as absolute. *)
Definition demo_resolve (cwd path : string) : string :=
  if String.eqb path "." then cwd else path.

Definition demo_args (filter : option string) : cli_args :=
  CliArgs "." filter false (Some "report.json"%string) false.

(** ** Strings *)

Lemma prefix_spec (p s : string) :
  str_startswith p s = true <-> exists post, s = p +:+ post.
Proof.
  revert s. induction p as [|a p IH]; intros s; simpl.
  - split; [intros _; by exists s | done].
  - destruct s as [|b s].
    + split; [done | intros [post H]; discriminate H].
    + rewrite andb_true_iff, Ascii.eqb_eq, IH. split.
      * intros [-> [post ->]]. by exists post.
      * intros [post H]. injection H as -> ->. split; [done | by exists post].
Qed.

(** [str_contains] is Python's substring test. *)
Lemma str_contains_spec (sub s : string) :
  str_contains sub s = true <-> exists pre post, s = pre +:+ sub +:+ post.
Proof.
  induction s as [|a s IH]; simpl.
  - rewrite orb_false_r, prefix_spec. split.
    + intros [post H]. by exists ""%string, post.
    + intros ([|b pre] & post & H); [by exists post | discriminate H].
  - rewrite orb_true_iff, prefix_spec, IH. split.
    + intros [[post H] | (pre & post & H)].
      * by exists ""%string, post.
      * exists (String a pre), post. simpl. by rewrite H.
    + intros ([|b pre] & post & H).
      * left. by exists post.
      * right. exists pre, post. simpl in H. by injection H.
Qed.

(** ** The error monad and loops *)

Lemma bind_Ok {A B} (m : result A) (k : A -> result B) (b : B) :
  bind m k = Ok b <-> exists a, m = Ok a /\ k a = Ok b.
Proof.
  destruct m as [a|e]; simpl.
  - split; [by exists a | by intros (a' & [= <-] & H)].
  - split; [done | by intros (a & H & _)].
Qed.

Lemma for_each_app {A S} (body : S -> A -> result S) (acc : S) (l1 l2 : list A) :
  for_each body acc (l1 ++ l2) = (acc' <- for_each body acc l1;; for_each body acc' l2).
Proof.
  revert acc. induction l1 as [|x l1 IH]; intros acc; simpl; [done|].
  destruct (body acc x) as [acc'|e]; simpl; [apply IH | done].
Qed.

Lemma comprehension_total {A B} (f : A -> result B) (P : A -> Prop) (l : list A) :
  (forall x, P x -> exists y, f x = Ok y) ->
  Forall P l -> exists ys, comprehension f l = Ok ys.
Proof.
  intros Hf Hl. induction Hl as [|x l Hx _ [ys IH]]; simpl.
  - by exists [].
  - destruct (Hf x Hx) as [y ->]. simpl. rewrite IH. simpl. by exists (y :: ys).
Qed.

(** ** The classifier *)

Lemma cat_get_map f c k : cat_get (cat_map f c) k = f k (cat_get c k).
Proof. by destruct k. Qed.

Lemma cat_get_append k r c k' :
  cat_get (cat_append k r c) k' =
  if decide (k = k') then cat_get c k' ++ [r] else cat_get c k'.
Proof. unfold cat_append. by rewrite cat_get_map. Qed.

Lemma all_categories_NoDup : NoDup all_categories.
Proof. by apply (bool_decide_unpack _). Qed.

Lemma elem_of_all_categories k : k ∈ all_categories.
Proof. unfold all_categories. destruct k; set_solver. Qed.

(** The chain is defined exactly on the values that support [in]. *)
Lemma classify_defined (t : json) :
  (exists k, classify t = Ok k) <->
  match t with JStr _ | JList _ | JDict _ => True | _ => False end.
Proof.
  destruct t; unfold classify; simpl;
    try (split; [by intros [k H] | done]);
    (split; [done | intros _]);
    repeat (match goal with
            | |- context [if ?b then _ else _] => destruct b; simpl
            end); eauto.
Qed.

Lemma classifiable_spec (r : json) :
  classifiable r = true <-> exists k, resource_category r = Ok k.
Proof.
  unfold resource_category. destruct r; simpl;
    try (split; [done | by intros [k H]]).
  destruct (m !! "type") as [t|]; simpl.
  - rewrite classify_defined. by destruct t.
  - rewrite classify_defined. done.
Qed.

Lemma in_category_unique k1 k2 r :
  in_category k1 r = true -> in_category k2 r = true -> k1 = k2.
Proof.
  unfold in_category. destruct (resource_category r) as [k|e]; [|done].
  intros H1%bool_decide_eq_true H2%bool_decide_eq_true. congruence.
Qed.

Lemma in_category_iff k r : in_category k r = true <-> resource_category r = Ok k.
Proof.
  unfold in_category. destruct (resource_category r) as [k'|e].
  - rewrite bool_decide_eq_true. split; congruence.
  - split; done.
Qed.

Lemma categorize_body_Ok c r c' :
  categorize_body c r = Ok c' <->
  exists k, resource_category r = Ok k /\ c' = cat_append k r c.
Proof.
  unfold categorize_body. rewrite bind_Ok.
  split; intros (k & Hk & H); exists k; split; congruence.
Qed.

(** The loop appends to each list the resources of its category, in input
    order. *)
Lemma for_each_categorize (rs : list json) : forall c c',
  for_each categorize_body c rs = Ok c' ->
  forall k, cat_get c' k = cat_get c k ++ filter (fun r => in_category k r = true) rs.
Proof.
  induction rs as [|r rs IH]; intros c c' H k; simpl in H.
  - injection H as <-. by rewrite app_nil_r.
  - apply bind_Ok in H as (c1 & Hbody & Hrest).
    apply categorize_body_Ok in Hbody as (k0 & Hk0 & ->).
    rewrite (IH _ _ Hrest k), cat_get_append, filter_cons.
    apply in_category_iff in Hk0 as Hin.
    destruct (decide (k0 = k)) as [->|Hne].
    + rewrite decide_True by done. by rewrite <- app_assoc.
    + rewrite decide_False; [done|].
      intros Hk. apply Hne. by apply (in_category_unique _ _ r).
Qed.

Lemma categorize_filters (rs : list json) (c : categories) :
  categorize_keycloak_resources rs = Ok c ->
  forall k, cat_get c k = filter (fun r => in_category k r = true) rs.
Proof.
  intros H k. rewrite (for_each_categorize _ _ _ H k). by destruct k.
Qed.

Lemma categorize_defined (rs : list json) :
  Forall (fun r => classifiable r = true) rs <->
  exists c, categorize_keycloak_resources rs = Ok c.
Proof.
  unfold categorize_keycloak_resources. generalize empty_categories.
  induction rs as [|r rs IH]; intros c; simpl.
  - split; [by exists c | constructor].
  - rewrite Forall_cons, classifiable_spec. split.
    + intros [[k Hk] Hrs]. unfold categorize_body. rewrite Hk. simpl.
      by apply IH.
    + intros [c' H]. apply bind_Ok in H as (c1 & Hbody & Hrest).
      apply categorize_body_Ok in Hbody as (k & Hk & ->).
      split; [by exists k | apply (IH (cat_append k r c)); by exists c'].
Qed.

Section concat_filter.
Context {K A : Type} (P : K -> A -> bool).

Lemma concat_filter_cons_absent (ks : list K) (r : A) (rs : list A) :
  (forall k, k ∈ ks -> P k r = false) ->
  concat ((fun k => filter (fun x => P k x = true) (r :: rs)) <$> ks) =
  concat ((fun k => filter (fun x => P k x = true) rs) <$> ks).
Proof.
  induction ks as [|k ks IH]; intros Hks; csimpl; [done|].
  rewrite filter_cons_False, IH; [done | set_solver |].
  rewrite (Hks k); [done | set_solver].
Qed.

Lemma concat_filter_cons_present (ks : list K) (k0 : K) (r : A) (rs : list A) :
  NoDup ks -> k0 ∈ ks -> (forall k, P k r = true <-> k = k0) ->
  concat ((fun k => filter (fun x => P k x = true) (r :: rs)) <$> ks) ≡ₚ
  r :: concat ((fun k => filter (fun x => P k x = true) rs) <$> ks).
Proof.
  intros Hnd Hin Hk0. induction Hnd as [|k ks Hk Hnd IH]; csimpl.
  - by apply elem_of_nil in Hin.
  - destruct (P k r) eqn:Hkr.
    + apply Hk0 in Hkr as Heq. subst k.
      rewrite filter_cons_True by done.
      rewrite concat_filter_cons_absent; [done|].
      intros k Hkin. apply not_true_is_false. rewrite Hk0. by intros ->.
    + assert (k <> k0) as Hne.
      { intros ->. assert (P k0 r = true) by by apply Hk0. congruence. }
      assert (k0 ∈ ks) as Hin' by (apply elem_of_cons in Hin as [?|?]; congruence).
      rewrite filter_cons_False by congruence.
      by rewrite (IH Hin'), Permutation_middle.
Qed.
End concat_filter.

Lemma length_concat_sum {A} (ls : list (list A)) :
  length (concat ls) = sum_list (length <$> ls).
Proof. induction ls as [|l ls IH]; csimpl; [done|]. by rewrite length_app, IH. Qed.

(** The ten filters together hold every classifiable resource once. *)
Lemma category_filters_perm (rs : list json) :
  Forall (fun r => classifiable r = true) rs ->
  concat ((fun k => filter (fun r => in_category k r = true) rs) <$> all_categories) ≡ₚ rs.
Proof.
  induction 1 as [|r rs Hr _ IH].
  - by vm_compute.
  - apply classifiable_spec in Hr as [k0 Hk0].
    rewrite (concat_filter_cons_present in_category all_categories k0).
    + by rewrite IH.
    + apply all_categories_NoDup.
    + apply elem_of_all_categories.
    + intros k. rewrite in_category_iff, Hk0. split; congruence.
Qed.

Lemma category_lengths_sum (rs : list json) (c : categories) :
  categorize_keycloak_resources rs = Ok c ->
  sum_list (length <$> (cat_get c <$> all_categories)) = length rs.
Proof.
  intros H. rewrite <- length_concat_sum.
  assert (cat_get c <$> all_categories =
          (fun k => filter (fun r => in_category k r = true) rs) <$> all_categories) as ->.
  { apply list_fmap_ext. intros _ k _. by apply categorize_filters. }
  apply Permutation_length, category_filters_perm, categorize_defined. by exists c.
Qed.

(** Dropping the empty lists from the counts does not change their sum. *)
Lemma sum_counts_nonempty {K} (items : list (K * list json)) :
  sum_list (((fun kv : K * list json => (kv.1, length kv.2)) <$>
             filter (fun kv => nonempty kv.2 = true) items).*2) =
  sum_list (length <$> items.*2).
Proof.
  induction items as [|[k l] items IH]; [done|].
  destruct l as [|x l].
  - rewrite filter_cons_False by done. csimpl. by rewrite IH.
  - rewrite filter_cons_True by done. csimpl. by rewrite IH.
Qed.

Lemma category_counts_sum (c : categories) :
  sum_list (category_counts c).*2 = sum_list (length <$> (cat_get c <$> all_categories)).
Proof.
  unfold category_counts. rewrite sum_counts_nonempty.
  unfold cat_items. by rewrite <- list_fmap_compose.
Qed.

(** [len(v)] counts what [for x in v] visits. *)
Lemma py_len_iter (v : json) (rs : list json) (n : nat) :
  py_iter v = Ok rs -> py_len v = Ok n -> n = length rs.
Proof.
  destruct v; simpl; try done; intros [= <-] [= <-].
  - rewrite length_fmap. induction s as [|a s IH]; simpl; [done | by rewrite IH].
  - done.
  - by rewrite !length_fmap, length_map_to_list.
Qed.

(** Every summary that is produced records counts that add up to its
    [resource_count]. *)
Lemma summary_counts_sum (ws : TerraformWorkspace) (s : Summary.t) :
  generate_workspace_summary ws = Ok s ->
  sum_list (Summary.categories s).*2 = Summary.resource_count s.
Proof.
  unfold generate_workspace_summary, generate_workspace_summary_with.
  destruct (py_truthy (Workspace.resources ws)); simpl.
  - intros H.
    apply bind_Ok in H as (rs & Hrs & H). apply bind_Ok in H as (c & Hc & H).
    apply bind_Ok in H as (n & Hn & H). apply bind_Ok in H as (us & _ & H).
    apply bind_Ok in H as (re & _ & H). apply bind_Ok in H as (cl & _ & H).
    apply bind_Ok in H as (ip & _ & H). injection H as <-. simpl.
    rewrite category_counts_sum, (category_lengths_sum rs c Hc).
    symmetry. by apply (py_len_iter (Workspace.resources ws)).
  - by intros [= <-].
Qed.

(** C1.  On every resource list the classifier accepts (records whose
    [type] supports the containment tests), [categorize_keycloak_resources]
    returns ten lists that are pairwise disjoint, that hold every input
    resource in exactly one of them, that together are a rearrangement of
    the input, and whose lengths add up to the input length; and the counts
    recorded in any workspace summary add up to its [resource_count]. *)
Theorem categorize_partitions_resources (resources : list json) :
  Forall (fun r => classifiable r = true) resources ->
  exists cats,
    categorize_keycloak_resources resources = Ok cats
    /\ (forall k1 k2 r, r ∈ cat_get cats k1 -> r ∈ cat_get cats k2 -> k1 = k2)
    /\ (forall r, r ∈ resources ->
          exists k, r ∈ cat_get cats k /\ forall k', r ∈ cat_get cats k' -> k' = k)
    /\ concat (cat_get cats <$> all_categories) ≡ₚ resources
    /\ sum_list (length <$> (cat_get cats <$> all_categories)) = length resources
    /\ (forall ws s,
          Workspace.resources ws = JList resources ->
          generate_workspace_summary ws = Ok s ->
          Summary.resource_count s = length resources
          /\ sum_list (Summary.categories s).*2 = Summary.resource_count s).
Proof.
  intros Hok. destruct (proj1 (categorize_defined resources) Hok) as [cats Hcats].
  pose proof (categorize_filters resources cats Hcats) as Hget.
  assert (forall k1 k2 r, r ∈ cat_get cats k1 -> r ∈ cat_get cats k2 -> k1 = k2) as Hdisj.
  { intros k1 k2 r. rewrite !Hget, !list_elem_of_filter.
    intros [H1 _] [H2 _]. by apply (in_category_unique _ _ r). }
  exists cats. split; [done|]. split; [done|].
  split; [|split; [|split; [by apply category_lengths_sum|]]].
  - intros r Hr. rewrite Forall_forall in Hok.
    assert (classifiable r = true) as Hc by by apply Hok.
    apply classifiable_spec in Hc as [k Hk].
    assert (r ∈ cat_get cats k) as Hin.
    { rewrite Hget, list_elem_of_filter, in_category_iff. by split. }
    exists k. split; [done|]. intros k' Hin'. by apply (Hdisj _ _ r).
  - assert (cat_get cats <$> all_categories =
            (fun k => filter (fun r => in_category k r = true) resources) <$> all_categories)
      as -> by (apply list_fmap_ext; intros _ k _; apply Hget).
    by apply category_filters_perm.
  - intros ws s Hres Hs. split; [|by apply (summary_counts_sum ws)].
    unfold generate_workspace_summary, generate_workspace_summary_with in Hs.
    rewrite Hres in Hs. destruct resources as [|r rs]; simpl in Hs.
    + by injection Hs as <-.
    + apply bind_Ok in Hs as (c & _ & Hs). apply bind_Ok in Hs as (us & _ & Hs).
      apply bind_Ok in Hs as (re & _ & Hs). apply bind_Ok in Hs as (cl & _ & Hs).
      apply bind_Ok in Hs as (ip & _ & Hs). by injection Hs as <-.
Qed.

Lemma elem_of_category (rs : list json) (cats : categories) (k : category) (r : json) :
  categorize_keycloak_resources rs = Ok cats ->
  r ∈ cat_get cats k <-> resource_category r = Ok k /\ r ∈ rs.
Proof.
  intros H. by rewrite (categorize_filters rs cats H), list_elem_of_filter, in_category_iff.
Qed.

Lemma resource_category_typed (r : json) (s : string) :
  has_type r s -> resource_category r = classify (JStr s).
Proof. unfold has_type, resource_category. by intros ->. Qed.

(** The first test of the chain on a [str] type. *)
Lemma classify_realms_str (s : string) :
  classify (JStr s) = Ok Realms <->
  str_contains "realm" s = true /\ s <> "keycloak_user"%string.
Proof.
  unfold classify, py_ne_str. simpl.
  rewrite <- String.eqb_neq, <- negb_true_iff, <- andb_true_iff.
  destruct (str_contains "realm" s && negb (s =? "keycloak_user")%string); simpl.
  - done.
  - split; [|done].
    repeat (match goal with
            | |- context [if ?b then _ else _] => destruct b; simpl
            end); done.
Qed.

(** The second test decides as soon as the first one fails. *)
Lemma classify_users_str (s : string) :
  str_contains "realm" s = false -> str_contains "user" s = true ->
  classify (JStr s) = Ok Users.
Proof. unfold classify. simpl. by intros -> ->. Qed.

(** C2.  A resource of type ["keycloak_user_federation_mapper"] goes to
    [users] and not to [mappers]: alone it yields exactly one user, and in
    any input it is found in the [users] list and in no other list.  The
    rule behind it is first-match: a type string that contains ["user"] and
    not ["realm"] is decided by the second test, whatever later keywords it
    also contains. *)
Theorem user_federation_mapper_is_user (r : json) :
  has_type r "keycloak_user_federation_mapper" ->
  str_contains "user" "keycloak_user_federation_mapper" = true
  /\ str_contains "mapper" "keycloak_user_federation_mapper" = true
  /\ categorize_keycloak_resources [r] = Ok (Categories [] [r] [] [] [] [] [] [] [] [])
  /\ (forall rs cats,
        categorize_keycloak_resources rs = Ok cats -> r ∈ rs ->
        r ∈ users cats /\ (r ∉ mappers cats)
        /\ forall k, r ∈ cat_get cats k -> k = Users)
  /\ (forall r' s,
        has_type r' s -> str_contains "realm" s = false ->
        str_contains "user" s = true -> resource_category r' = Ok Users).
Proof.
  intros Hty. pose proof (resource_category_typed r _ Hty) as Hcat.
  assert (resource_category r = Ok Users) as Hu by by rewrite Hcat.
  split; [done|]. split; [done|]. split; [|split].
  - unfold categorize_keycloak_resources, categorize_body. simpl. by rewrite Hu.
  - intros rs cats Hcats Hin.
    assert (forall k, r ∈ cat_get cats k -> k = Users) as Honly.
    { intros k [Hk _]%(elem_of_category rs cats k r Hcats). congruence. }
    split; [by apply (elem_of_category rs cats Users r Hcats)|].
    split; [|done]. intros Hm. by specialize (Honly Mappers Hm).
  - intros r' s Hs Hrealm Huser.
    rewrite (resource_category_typed r' s Hs). by apply classify_users_str.
Qed.

(** C3.  In the result of [categorize_keycloak_resources], a resource with
    type string [s] is in [realms] exactly when [s] contains ["realm"] and
    is not ["keycloak_user"]; a resource of type ["keycloak_realm"] is in
    [realms]. *)
Theorem realms_iff_type_contains_realm (rs : list json) (cats : categories) :
  categorize_keycloak_resources rs = Ok cats ->
  (forall r s, r ∈ rs -> has_type r s ->
     (r ∈ realms cats <->
      str_contains "realm" s = true /\ s <> "keycloak_user"%string))
  /\ (forall r, r ∈ rs -> has_type r "keycloak_realm" -> r ∈ realms cats).
Proof.
  intros Hcats.
  assert (forall r s, r ∈ rs -> has_type r s ->
            (r ∈ realms cats <->
             str_contains "realm" s = true /\ s <> "keycloak_user"%string)) as Hiff.
  { intros r s Hin Hs.
    rewrite (elem_of_category rs cats Realms r Hcats).
    rewrite (resource_category_typed r s Hs), classify_realms_str. tauto. }
  split; [done|].
  intros r Hin Hs. by apply (Hiff r "keycloak_realm"%string Hin Hs).
Qed.

(** ** The user security analysis *)

(** One iteration, in closed form: it raises [AttributeError] when the user
    or its [values] is not a record, or when [initial_password] is present
    and not a record; otherwise it counts the user. *)
Lemma analyze_user_body_spec (sa : security_analysis) (user : json) :
  analyze_user_body sa user =
  match values_of user with
  | Some values =>
      if password_ok values then Ok (count_user values sa) else Raise AttributeError
  | None => Raise AttributeError
  end.
Proof.
  unfold analyze_user_body, values_of.
  destruct user as [| | | | |l|m]; try done. simpl.
  destruct (default (JDict ∅) (m !! "values")) as [| | | | |l|values]; try done.
  simpl. unfold password_ok, count_user, user_record, user_has_initial,
    user_temporary, user_enabled, enabled_step.
  destruct (values !! "initial_password") as [ip|] eqn:Hip; simpl.
  - destruct ip as [| | | | |l|ip]; try done. simpl.
    by destruct (py_truthy (default (JBool false) (ip !! "temporary"))); simpl;
       destruct (py_truthy (default (JBool true) (values !! "enabled"))).
  - by destruct (py_truthy (default (JBool true) (values !! "enabled"))).
Qed.

Lemma analyze_user_body_Ok (sa sa' : security_analysis) (user : json) :
  analyze_user_body sa user = Ok sa' <->
  exists values, values_of user = Some values /\ password_ok values = true
                 /\ sa' = count_user values sa.
Proof.
  rewrite analyze_user_body_spec. destruct (values_of user) as [values|].
  - destruct (password_ok values) eqn:Hp; split.
    + intros [= <-]. by exists values.
    + intros (v & Hv & _ & ->). by injection Hv as ->.
    + done.
    + intros (v & Hv & Hv' & _). injection Hv as ->. congruence.
  - split; [done | by intros (v & ? & _)].
Qed.

(** The loop is defined exactly on the lists of analysable users. *)
Lemma analyze_loop_defined (users : list json) : forall sa,
  Forall (fun u => user_ok u = true) users <->
  exists sa', for_each analyze_user_body sa users = Ok sa'.
Proof.
  induction users as [|u users IH]; intros sa; simpl.
  - split; [by exists sa | constructor].
  - rewrite Forall_cons. split.
    + intros [Hu Hrest]. unfold user_ok in Hu.
      rewrite analyze_user_body_spec.
      destruct (values_of u) as [values|]; [|done]. rewrite Hu. simpl.
      by apply IH.
    + intros [sa' H]. apply bind_Ok in H as (sa1 & Hbody & Hrest).
      apply analyze_user_body_Ok in Hbody as (values & Hv & Hp & ->).
      split; [unfold user_ok; by rewrite Hv|].
      apply (IH (count_user values sa)). by exists sa'.
Qed.

(** What the loop never changes, and how the detail list grows. *)
Lemma analyze_loop_frame (users : list json) : forall sa sa',
  for_each analyze_user_body sa users = Ok sa' ->
  total_users sa' = total_users sa
  /\ users_requiring_password_change sa' = users_requiring_password_change sa
  /\ exists infos,
       user_details sa' = user_details sa ++ infos
       /\ length infos = length users
       /\ Forall (fun info => requires_password_change info = false) infos.
Proof.
  induction users as [|u users IH]; intros sa sa' H; simpl in H.
  - injection H as <-. repeat split. exists []. by rewrite app_nil_r.
  - apply bind_Ok in H as (sa1 & Hbody & Hrest).
    apply analyze_user_body_Ok in Hbody as (values & _ & _ & ->).
    destruct (IH _ _ Hrest) as (Ht & Hr & infos & Hd & Hl & Hf).
    split; [done|]. split; [done|].
    exists (user_record values :: infos). simpl in Hd.
    rewrite Hd, <- app_assoc. simpl. rewrite Hl. repeat split.
    by constructor.
Qed.

(** The iteration for the user at any position of the input: the state
    [sa] the loop has reached before it, the state [count_user values sa]
    after it, from which the loop finishes; the user's detail record sits at
    the user's position in the result. *)
Lemma analyze_iteration (before after : list json) (user : json)
    (final : security_analysis) :
  analyze_user_security (before ++ user :: after) = Ok final ->
  exists sa values,
    for_each analyze_user_body
      (initial_security_analysis (length (before ++ user :: after))) before = Ok sa
    /\ values_of user = Some values
    /\ analyze_user_body sa user = Ok (count_user values sa)
    /\ for_each analyze_user_body (count_user values sa) after = Ok final
    /\ user_details final !! length before = Some (user_record values).
Proof.
  unfold analyze_user_security. rewrite for_each_app. intros H.
  apply bind_Ok in H as (sa & Hbefore & H). simpl in H.
  apply bind_Ok in H as (sa1 & Hbody & Hafter).
  pose proof Hbody as Hbody'.
  apply analyze_user_body_Ok in Hbody' as (values & Hv & Hp & ->).
  exists sa, values. repeat split; try done.
  destruct (analyze_loop_frame _ _ _ Hbefore) as (_ & _ & pre & Hpre & Hlpre & _).
  destruct (analyze_loop_frame _ _ _ Hafter) as (_ & _ & post & Hpost & _ & _).
  simpl in Hpre, Hpost. rewrite Hpost, Hpre, <- app_assoc. simpl.
  rewrite <- Hlpre. by rewrite list_lookup_middle.
Qed.

Lemma analyze_iteration_exists (before after : list json) (user : json)
    (values : gmap string json) :
  Forall (fun u => user_ok u = true) before ->
  Forall (fun u => user_ok u = true) after ->
  values_of user = Some values -> password_ok values = true ->
  exists sa final,
    iteration_of before user after sa (count_user values sa) final (user_record values).
Proof.
  intros Hb Ha Hv Hp.
  assert (Forall (fun u => user_ok u = true) (before ++ user :: after)) as Hall.
  { apply Forall_app. split; [done|]. constructor; [|done].
    unfold user_ok. by rewrite Hv. }
  apply (analyze_loop_defined _
           (initial_security_analysis (length (before ++ user :: after)))) in Hall
    as [final Hfinal].
  destruct (analyze_iteration before after user final Hfinal)
    as (sa & values' & Hsa & Hv' & Hbody & Hafter & Hinfo).
  assert (values' = values) as -> by congruence.
  exists sa, final. by repeat split.
Qed.

(** C4.  In a run of [analyze_user_security], consider the iteration for a
    user whose [values] is the record [values].  If [values] has an
    [initial_password] record whose [temporary] is [True], the iteration
    adds one to [users_with_passwords] and to [temporary_passwords], leaves
    [users_without_passwords] alone, and the user's detail record has
    [has_password] and [temporary_password] set.  If [values] has no
    [initial_password] key, the iteration adds one to
    [users_without_passwords], leaves the other two password counters alone,
    and the detail record has both flags unset. *)
Theorem password_counters (before after : list json) (user : json)
    (values : gmap string json) :
  Forall (fun u => user_ok u = true) before ->
  Forall (fun u => user_ok u = true) after ->
  values_of user = Some values ->
  (forall ip,
     values !! "initial_password" = Some (JDict ip) ->
     ip !! "temporary" = Some (JBool true) ->
     exists sa sa' final info,
       iteration_of before user after sa sa' final info
       /\ users_with_passwords sa' = users_with_passwords sa + 1
       /\ temporary_passwords sa' = temporary_passwords sa + 1
       /\ users_without_passwords sa' = users_without_passwords sa
       /\ has_password info = true
       /\ temporary_password info = true)
  /\ (values !! "initial_password" = None ->
      exists sa sa' final info,
        iteration_of before user after sa sa' final info
        /\ users_without_passwords sa' = users_without_passwords sa + 1
        /\ users_with_passwords sa' = users_with_passwords sa
        /\ temporary_passwords sa' = temporary_passwords sa
        /\ has_password info = false
        /\ temporary_password info = false).
Proof.
  intros Hb Ha Hv. split.
  - intros ip Hip Htmp.
    assert (password_ok values = true) as Hp by (unfold password_ok; by rewrite Hip).
    destruct (analyze_iteration_exists before after user values Hb Ha Hv Hp)
      as (sa & final & Hit).
    exists sa, (count_user values sa), final, (user_record values).
    split; [done|]. unfold count_user, user_record, user_has_initial, user_temporary.
    simpl. by rewrite Hip, Htmp.
  - intros Hip.
    assert (password_ok values = true) as Hp by (unfold password_ok; by rewrite Hip).
    destruct (analyze_iteration_exists before after user values Hb Ha Hv Hp)
      as (sa & final & Hit).
    exists sa, (count_user values sa), final, (user_record values).
    split; [done|]. unfold count_user, user_record, user_has_initial, user_temporary.
    simpl. by rewrite Hip.
Qed.

(** C5.  In a run of [analyze_user_security], the iteration for a user whose
    [values] has no [enabled] key adds one to [enabled_users], leaves
    [disabled_users] alone, and the user's detail record has [enabled] set
    to [True]. *)
Theorem missing_enabled_counts_as_enabled (before after : list json) (user : json)
    (values : gmap string json) :
  Forall (fun u => user_ok u = true) before ->
  Forall (fun u => user_ok u = true) after ->
  values_of user = Some values -> password_ok values = true ->
  values !! "enabled" = None ->
  exists sa sa' final info,
    iteration_of before user after sa sa' final info
    /\ enabled_users sa' = enabled_users sa + 1
    /\ disabled_users sa' = disabled_users sa
    /\ enabled info = JBool true.
Proof.
  intros Hb Ha Hv Hp Hen.
  destruct (analyze_iteration_exists before after user values Hb Ha Hv Hp)
    as (sa & final & Hit).
  exists sa, (count_user values sa), final, (user_record values).
  split; [done|]. unfold count_user, user_record, user_enabled. simpl.
  by rewrite Hen.
Qed.

(** C10.  Whenever [analyze_user_security] returns, the aggregate has
    [users_requiring_password_change = 0], it has one detail record per
    user, and every detail record has [requires_password_change = False];
    and it does return on every list of analysable users. *)
Theorem requires_password_change_never_set (users : list json) :
  (Forall (fun u => user_ok u = true) users ->
   exists sa, analyze_user_security users = Ok sa)
  /\ (forall sa,
        analyze_user_security users = Ok sa ->
        users_requiring_password_change sa = 0
        /\ length (user_details sa) = length users
        /\ Forall (fun info => requires_password_change info = false) (user_details sa)).
Proof.
  split.
  - intros H. by apply analyze_loop_defined.
  - intros sa H. destruct (analyze_loop_frame _ _ _ H) as (_ & Hr & infos & Hd & Hl & Hf).
    simpl in Hr, Hd. rewrite Hd. by repeat split.
Qed.

(** The loop raises nothing but [AttributeError]. *)
Lemma analyze_loop_raises (users : list json) : forall sa e,
  for_each analyze_user_body sa users = Raise e -> e = AttributeError.
Proof.
  induction users as [|u users IH]; intros sa e; simpl; [done|].
  rewrite analyze_user_body_spec.
  destruct (values_of u) as [values|]; simpl; [|congruence].
  destruct (password_ok values); simpl; [apply IH | congruence].
Qed.

(** ** The projections *)

Lemma values_get_spec (r : json) (values : gmap string json) (key : string) (dflt : json) :
  values_of r = Some values -> values_get r key dflt = Ok (default dflt (values !! key)).
Proof.
  unfold values_of, values_get. destruct r as [| | | | |l|m]; try done. simpl.
  destruct (default (JDict ∅) (m !! "values")); try done. by intros [= ->].
Qed.

Lemma address_spec (r : json) (values : gmap string json) :
  values_of r = Some values -> py_get r "address" (JStr "") = Ok (address_of r).
Proof. by destruct r. Qed.

(** Each projection reads its fields with the documented defaults. *)
Lemma realm_projection_spec (r : json) (values : gmap string json) :
  values_of r = Some values ->
  realm_projection r =
  Ok (RealmInfo (default (JStr "unknown") (values !! "realm"))
                (default (JBool true) (values !! "enabled"))
                (default (JStr "") (values !! "display_name"))
                (address_of r)).
Proof.
  intros H. unfold realm_projection.
  by rewrite !(values_get_spec r values) , (address_spec r values).
Qed.

Lemma client_projection_spec (c : json) (values : gmap string json) :
  values_of c = Some values ->
  client_projection c =
  Ok (ClientInfo (default (JStr "unknown") (values !! "client_id"))
                 (default (JStr "") (values !! "name"))
                 (default (JBool true) (values !! "enabled"))
                 (default (JStr "") (values !! "protocol"))
                 (address_of c)).
Proof.
  intros H. unfold client_projection.
  by rewrite !(values_get_spec c values), (address_spec c values).
Qed.

Lemma idp_projection_spec (idp : json) (values : gmap string json) :
  values_of idp = Some values ->
  idp_projection idp =
  Ok (IdpInfo (default (JStr "unknown") (values !! "alias"))
              (default (JStr "") (values !! "provider_id"))
              (default (JBool true) (values !! "enabled"))
              (address_of idp)).
Proof.
  intros H. unfold idp_projection.
  by rewrite !(values_get_spec idp values), (address_spec idp values).
Qed.

Lemma projections_total (rs : list json) :
  Forall (fun r => is_Some (values_of r)) rs ->
  (exists l, comprehension realm_projection rs = Ok l)
  /\ (exists l, comprehension client_projection rs = Ok l)
  /\ (exists l, comprehension idp_projection rs = Ok l).
Proof.
  intros H. repeat split;
    (apply (comprehension_total _ (fun r => is_Some (values_of r))); [|done]);
    intros r [values Hv].
  - rewrite (realm_projection_spec r values Hv). eauto.
  - rewrite (client_projection_spec r values Hv). eauto.
  - rewrite (idp_projection_spec r values Hv). eauto.
Qed.

Lemma user_ok_has_values (r : json) : user_ok r = true -> is_Some (values_of r).
Proof. unfold user_ok. destruct (values_of r); [eauto | done]. Qed.

Lemma when_nonempty_total {A B} (l : list A) (f : list A -> result B) :
  (exists v, f l = Ok v) -> exists o, when_nonempty l f = Ok o.
Proof.
  intros [v Hv]. unfold when_nonempty. destruct (nonempty l); [|eauto].
  rewrite Hv. simpl. eauto.
Qed.

(** The aggregator returns on every list of records that the classifier
    and the user analysis accept. *)
Lemma generate_workspace_summary_total (ws : TerraformWorkspace) (rs : list json) :
  Workspace.resources ws = JList rs ->
  Forall (fun r => classifiable r = true /\ user_ok r = true) rs ->
  exists s, generate_workspace_summary ws = Ok s.
Proof.
  intros Hres Hok.
  unfold generate_workspace_summary, generate_workspace_summary_with.
  rewrite Hres. destruct (py_truthy (JList rs)); simpl; [|eauto].
  assert (Forall (fun r => classifiable r = true) rs) as Hc
    by (eapply Forall_impl; [done | by intros r [? ?]]).
  apply categorize_defined in Hc as [cats Hcats]. rewrite Hcats. simpl.
  assert (forall k, Forall (fun r => user_ok r = true) (cat_get cats k)) as Hsub.
  { intros k. rewrite (categorize_filters rs cats Hcats k).
    apply Forall_forall. intros r [_ Hr]%list_elem_of_filter.
    rewrite Forall_forall in Hok. by apply Hok. }
  assert (forall k, Forall (fun r => is_Some (values_of r)) (cat_get cats k)) as Hval.
  { intros k. eapply Forall_impl; [apply Hsub | apply user_ok_has_values]. }
  destruct (when_nonempty_total (users cats) analyze_user_security) as [us ->].
  { apply analyze_loop_defined, (Hsub Users). }
  destruct (projections_total _ (Hval Realms)) as (Hre & _ & _).
  destruct (projections_total _ (Hval Clients)) as (_ & Hcl & _).
  destruct (projections_total _ (Hval IdentityProviders)) as (_ & _ & Hip).
  destruct (when_nonempty_total (realms cats) _ Hre) as [re ->].
  destruct (when_nonempty_total (clients cats) _ Hcl) as [cl ->].
  destruct (when_nonempty_total (identity_providers cats) _ Hip) as [ip ->].
  simpl. eauto.
Qed.

(** The aggregator as far as the contents of [values] go.  The user
    analysis is the first step after the classifier and reads only the
    resources that the classifier has put among the users; the projections
    read only the realms, clients and identity providers. *)
Lemma generate_workspace_summary_raises (ws : TerraformWorkspace) (rs : list json)
    (cats : categories) :
  Workspace.resources ws = JList rs ->
  categorize_keycloak_resources rs = Ok cats ->
  Exists (fun u => user_ok u = false) (users cats) ->
  generate_workspace_summary ws = Raise AttributeError.
Proof.
  intros Hres Hcats Hbad.
  unfold generate_workspace_summary, generate_workspace_summary_with. rewrite Hres.
  destruct rs as [|r rs].
  { injection Hcats as <-. by apply Exists_nil in Hbad. }
  change (py_truthy (JList (r :: rs))) with true. cbn [negb py_iter bind].
  rewrite Hcats. cbn [bind py_len]. unfold when_nonempty at 1.
  destruct (users cats) as [|u us]; [by apply Exists_nil in Hbad|]. cbn [nonempty].
  destruct (analyze_user_security (u :: us)) as [sa|e] eqn:Han.
  - assert (Forall (fun u => user_ok u = true) (u :: us)) as Hall
      by (apply (analyze_loop_defined _ (initial_security_analysis (length (u :: us))));
          by exists sa).
    apply Exists_exists in Hbad as (x & Hx & Hno). rewrite Forall_forall in Hall.
    rewrite (Hall x Hx) in Hno. done.
  - apply analyze_loop_raises in Han as ->. done.
Qed.

Lemma generate_workspace_summary_returns (ws : TerraformWorkspace) (rs : list json)
    (cats : categories) :
  Workspace.resources ws = JList rs ->
  categorize_keycloak_resources rs = Ok cats ->
  Forall (fun u => user_ok u = true) (users cats) ->
  Forall (fun r => is_Some (values_of r))
         (realms cats ++ clients cats ++ identity_providers cats) ->
  exists s, generate_workspace_summary ws = Ok s.
Proof.
  intros Hres Hcats Husers [Hre [Hcl Hip]%Forall_app]%Forall_app.
  unfold generate_workspace_summary, generate_workspace_summary_with.
  rewrite Hres. destruct (py_truthy (JList rs)); simpl; [|eauto].
  rewrite Hcats. simpl.
  destruct (when_nonempty_total (users cats) analyze_user_security) as [us ->].
  { by apply analyze_loop_defined. }
  destruct (projections_total _ Hre) as (Hre' & _ & _).
  destruct (projections_total _ Hcl) as (_ & Hcl' & _).
  destruct (projections_total _ Hip) as (_ & _ & Hip').
  destruct (when_nonempty_total (realms cats) _ Hre') as [re ->].
  destruct (when_nonempty_total (clients cats) _ Hcl') as [cl ->].
  destruct (when_nonempty_total (identity_providers cats) _ Hip') as [ip ->].
  simpl. eauto.
Qed.

(** C6, as stated, fails: an [initial_password] that is not a record makes
    [analyze_user_security], and with it [generate_workspace_summary],
    raise [AttributeError]. *)
Lemma non_record_initial_password_raises :
  analyze_user_security [user_with_password_block] = Raise AttributeError
  /\ generate_workspace_summary
       (Workspace.Make "/infra/prod" "prod" true
                       (JList [user_with_password_block]) (JDict ∅))
     = Raise AttributeError.
Proof. split; by vm_compute. Qed.

Lemma values_of_insert (m values : gmap string json) :
  values_of (JDict (<["values" := JDict values]> m)) = Some values.
Proof. unfold values_of. by rewrite lookup_insert_eq. Qed.

(** C6, amended.  Missing fields are defaulted and the contents of
    [values] are otherwise free, with one exception.  The realm, client and
    identity-provider projections return on every list of records whose
    [values] is missing or a record; [categorize_keycloak_resources] returns
    exactly on the classifiable resources and does not read [values];
    [analyze_user_security] returns exactly when, in addition to [values],
    every [initial_password] is missing or a record, and raises
    [AttributeError] otherwise.  [generate_workspace_summary] returns when
    the classifier accepts the resources, those it puts among the users are
    such users, and those it puts among the realms, clients and identity
    providers have a [values] that is missing or a record (so on every list
    of classifiable records that are such users); and it raises
    [AttributeError] when the classifier accepts the resources and puts
    among the users one that is not such a user. *)
Theorem values_defaulting_total :
  (forall users,
     (exists sa, analyze_user_security users = Ok sa) <->
     Forall (fun u => user_ok u = true) users)
  /\ (forall users e, analyze_user_security users = Raise e -> e = AttributeError)
  /\ (forall users,
        Exists (fun u => user_ok u = false) users ->
        analyze_user_security users = Raise AttributeError)
  /\ (forall rs,
        Forall (fun r => is_Some (values_of r)) rs ->
        (exists l, comprehension realm_projection rs = Ok l)
        /\ (exists l, comprehension client_projection rs = Ok l)
        /\ (exists l, comprehension idp_projection rs = Ok l))
  /\ (forall rs,
        (exists c, categorize_keycloak_resources rs = Ok c) <->
        Forall (fun r => classifiable r = true) rs)
  /\ (forall ws rs,
        Workspace.resources ws = JList rs ->
        Forall (fun r => classifiable r = true /\ user_ok r = true) rs ->
        exists s, generate_workspace_summary ws = Ok s)
  /\ (forall ws rs cats,
        Workspace.resources ws = JList rs ->
        categorize_keycloak_resources rs = Ok cats ->
        Forall (fun u => user_ok u = true) (users cats) ->
        Forall (fun r => is_Some (values_of r))
               (realms cats ++ clients cats ++ identity_providers cats) ->
        exists s, generate_workspace_summary ws = Ok s)
  /\ (forall ws rs cats,
        Workspace.resources ws = JList rs ->
        categorize_keycloak_resources rs = Ok cats ->
        Exists (fun u => user_ok u = false) (users cats) ->
        generate_workspace_summary ws = Raise AttributeError)
  /\ (forall m v,
        resource_category (JDict (<["values" := v]> m)) = resource_category (JDict m))
  /\ (forall m values,
        let r := JDict (<["values" := JDict values]> m) in
        values_of r = Some values /\ user_ok r = password_ok values).
Proof.
  split; [|split; [|split; [|split; [|split; [|split; [|split; [|split; [|split]]]]]]]].
  - intros users. symmetry. apply analyze_loop_defined.
  - intros users e. apply analyze_loop_raises.
  - intros users Hbad.
    destruct (analyze_user_security users) as [sa|e] eqn:Han.
    + assert (Forall (fun u => user_ok u = true) users) as Hall
        by (apply (analyze_loop_defined _ (initial_security_analysis (length users)));
            by exists sa).
      apply Exists_exists in Hbad as (x & Hx & Hno). rewrite Forall_forall in Hall.
      rewrite (Hall x Hx) in Hno. done.
    + by apply analyze_loop_raises in Han as ->.
  - apply projections_total.
  - intros rs. symmetry. apply categorize_defined.
  - apply generate_workspace_summary_total.
  - apply generate_workspace_summary_returns.
  - apply generate_workspace_summary_raises.
  - intros m v. unfold resource_category, py_get. by rewrite lookup_insert_ne.
  - intros m values r. subst r. split; [apply values_of_insert|].
    unfold user_ok. by rewrite values_of_insert.
Qed.

(** ** Ordered dicts *)

Lemma od_get_set_eq {V} (k : string) (v : V) (d : list (string * V)) :
  od_get k (od_set k v d) = Some v.
Proof.
  unfold od_get. induction d as [|[k' v'] d IH]; simpl.
  - by rewrite String.eqb_refl.
  - destruct (String.eqb k' k) eqn:E; simpl; rewrite E; [done | apply IH].
Qed.

Lemma od_get_set_ne {V} (k k' : string) (v : V) (d : list (string * V)) :
  k <> k' -> od_get k' (od_set k v d) = od_get k' d.
Proof.
  intros Hne. unfold od_get. induction d as [|[k0 v0] d IH]; simpl.
  - apply String.eqb_neq in Hne. by rewrite Hne.
  - destruct (String.eqb k0 k) eqn:E; simpl.
    + apply String.eqb_eq in E as ->. apply String.eqb_neq in Hne. by rewrite Hne.
    + destruct (String.eqb k0 k'); [done | apply IH].
Qed.

Lemma od_get_set_is_Some {V} (k k' : string) (v : V) (d : list (string * V)) :
  is_Some (od_get k' d) -> is_Some (od_get k' (od_set k v d)).
Proof.
  intros H. destruct (decide (k = k')) as [->|Hne].
  - rewrite od_get_set_eq. eauto.
  - by rewrite od_get_set_ne.
Qed.

Lemma elem_of_od_set {V} (k k' : string) (v v' : V) (d : list (string * V)) :
  (k', v') ∈ od_set k v d -> (k', v') ∈ d \/ v' = v.
Proof.
  induction d as [|[k0 v0] d IH]; simpl.
  - intros [= _ ->]%list_elem_of_singleton. by right.
  - destruct (String.eqb k0 k).
    + intros [[= _ ->]|H]%elem_of_cons; [by right | left; by apply elem_of_cons; right].
    + intros [[= -> ->]|H]%elem_of_cons; [left; apply elem_of_cons; by left|].
      destruct (IH H) as [?|?]; [left; apply elem_of_cons; by right | by right].
Qed.

(** ** The aggregator and the run-level summary mapping *)

(** A falsy [resources] ends [generate_workspace_summary] before any use of
    the classifier, whatever the classifier is. *)
Lemma generate_falsy (categorize : list json -> result categories)
    (ws : TerraformWorkspace) :
  py_truthy (Workspace.resources ws) = false ->
  generate_workspace_summary_with categorize ws = Ok (no_resources_summary ws).
Proof. unfold generate_workspace_summary_with. by intros ->. Qed.

Lemma summarize_all_app (l1 l2 : list TerraformWorkspace) : forall data,
  summarize_all (l1 ++ l2) data =
  match summarize_all l1 data with
  | (data1, Ok _) => summarize_all l2 data1
  | (data1, Raise e) => (data1, Raise e)
  end.
Proof.
  induction l1 as [|ws l1 IH]; intros data; simpl; [done|].
  destruct (generate_workspace_summary ws); [apply IH | done].
Qed.

Lemma summarize_all_is_Some (wss : list TerraformWorkspace) (k : string) :
  forall data data' r,
    summarize_all wss data = (data', r) ->
    is_Some (od_get k data) -> is_Some (od_get k data').
Proof.
  induction wss as [|ws wss IH]; intros data data' r; simpl.
  - by intros [= <- _].
  - destruct (generate_workspace_summary ws) as [s|e].
    + intros H Hk. apply (IH _ _ _ H). by apply od_get_set_is_Some.
    + by intros [= <- _].
Qed.

Lemma summarize_all_other (wss : list TerraformWorkspace) (k : string) :
  Forall (fun o => Workspace.name o <> k) wss ->
  forall data data' r,
    summarize_all wss data = (data', r) -> od_get k data' = od_get k data.
Proof.
  induction 1 as [|ws wss Hne _ IH]; intros data data' r; simpl.
  - by intros [= <- _].
  - destruct (generate_workspace_summary ws) as [s|e].
    + intros H. rewrite (IH _ _ _ H). by apply od_get_set_ne.
    + by intros [= <- _].
Qed.

(** The entry of a workspace after the summary loop. *)
Lemma summarize_all_entry (before after : list TerraformWorkspace)
    (ws : TerraformWorkspace) (s : Summary.t) (data data' : list (string * Summary.t)) :
  generate_workspace_summary ws = Ok s ->
  summarize_all (before ++ ws :: after) data = (data', Ok tt) ->
  is_Some (od_get (Workspace.name ws) data')
  /\ (Forall (fun o => Workspace.name o <> Workspace.name ws) after ->
      od_get (Workspace.name ws) data' = Some s).
Proof.
  intros Hs. rewrite summarize_all_app.
  destruct (summarize_all before data) as [data1 [[]|e]]; [|done].
  simpl. rewrite Hs. intros Hafter. split.
  - apply (summarize_all_is_Some _ _ _ _ _ Hafter). rewrite od_get_set_eq. eauto.
  - intros Hne. rewrite (summarize_all_other _ _ Hne _ _ _ Hafter).
    apply od_get_set_eq.
Qed.

(** A run that returns [True] has run the summary loop to its end over the
    workspaces it holds. *)
Lemma run_analysis_summaries os_chdir subprocess_run json_loads walk self w w' self' :
  run_analysis os_chdir subprocess_run json_loads walk self w = (w', self', Ok true) ->
  summarize_all (workspaces self').*2 (summary_data self) = (summary_data self', Ok tt).
Proof.
  unfold run_analysis. destruct (nonempty (find_terraform_workspaces walk)); simpl; [|done].
  destruct (load_all _ _ _ _ _ _ _) as [[w1 wss] [n|e]]; [|done].
  destruct (summarize_all wss.*2 (summary_data self)) as [data [[]|e]] eqn:Hsum; simpl.
  - by intros [= _ <- ]. 
  - done.
Qed.

(** A returned summary carries the path of its workspace. *)
Lemma summary_path (ws : TerraformWorkspace) (s : Summary.t) :
  generate_workspace_summary ws = Ok s -> Summary.path s = Workspace.path ws.
Proof.
  unfold generate_workspace_summary, generate_workspace_summary_with.
  destruct (py_truthy (Workspace.resources ws)); simpl; [|by intros [= <-]].
  intros H. repeat (apply bind_Ok in H as (? & _ & H)). by injection H as <-.
Qed.

(** C7, at the failing input.  The scan root [/infra] is a workspace
    without state and its subdirectory [root] is a workspace with state.
    Both get the name ["root"].  The run completes and holds two
    workspaces, the first with no resources; the summary mapping has one
    entry, which is the summary of [/infra/root], and the no-resources record
    of the scan root is not in it. *)
Lemma scan_root_entry_overwritten :
  let '(w, self, r) :=
    run_analysis demo_chdir clash_terraform demo_json_loads clash_walk
                 (Analyzer "/infra" [] []) (World "/infra" []) in
  r = Ok true
  /\ (workspaces self).*2 !! 0 = Some scan_root_workspace
  /\ length (workspaces self) = 2
  /\ (summary_data self).*1 = ["root"%string]
  /\ Forall (fun kv => Summary.path kv.2 = "/infra/root"%string
                       /\ Summary.resource_count kv.2 = 3
                       /\ Summary.error kv.2 = None
                       /\ kv.2 <> no_resources_summary scan_root_workspace)
            (summary_data self).
Proof.
  vm_compute. repeat split. constructor; [|constructor]. repeat split. discriminate.
Qed.

(** C7.  For a workspace whose resource list is empty,
    [generate_workspace_summary] returns the no-resources record
    ([resource_count = 0], no categories, the [error] marker) whatever the
    classifier is, that is, without consulting it.  After a completed run
    the summary mapping has an entry under the workspace's name.  That
    entry is the workspace's record when no later workspace has the same
    name; when one has, the entry is the summary of the last workspace of
    that name, and the record of the empty workspace is lost. *)
Theorem empty_workspace_gets_marker (categorize : list json -> result categories)
    (ws : TerraformWorkspace) :
  Workspace.resources ws = JList [] ->
  generate_workspace_summary_with categorize ws = Ok (no_resources_summary ws)
  /\ generate_workspace_summary ws = Ok (no_resources_summary ws)
  /\ Summary.resource_count (no_resources_summary ws) = 0
  /\ Summary.categories (no_resources_summary ws) = []
  /\ Summary.error (no_resources_summary ws)
     = Some "No resources found or state not loaded"%string
  /\ (forall os_chdir subprocess_run json_loads walk self w w' self' before after,
        run_analysis os_chdir subprocess_run json_loads walk self w = (w', self', Ok true) ->
        (workspaces self').*2 = before ++ ws :: after ->
        is_Some (od_get (Workspace.name ws) (summary_data self'))
        /\ (Forall (fun o => Workspace.name o <> Workspace.name ws) after ->
            od_get (Workspace.name ws) (summary_data self')
            = Some (no_resources_summary ws))
        /\ (forall between o rest,
              after = between ++ o :: rest ->
              Workspace.name o = Workspace.name ws ->
              Forall (fun o' => Workspace.name o' <> Workspace.name ws) rest ->
              exists s,
                generate_workspace_summary o = Ok s
                /\ od_get (Workspace.name ws) (summary_data self') = Some s
                /\ (Workspace.path o <> Workspace.path ws ->
                    s <> no_resources_summary ws))).
Proof.
  intros Hres.
  assert (forall c, generate_workspace_summary_with c ws = Ok (no_resources_summary ws))
    as Hgen by (intros c; apply generate_falsy; by rewrite Hres).
  split; [apply Hgen|]. split; [apply Hgen|]. repeat (split; [done|]).
  intros oc sr jl walk self w w' self' before after Hrun Hwss.
  apply run_analysis_summaries in Hrun. rewrite Hwss in Hrun.
  destruct (summarize_all_entry before after ws _ _ _ (Hgen _) Hrun) as [Hsome Hlast].
  split; [done|]. split; [done|].
  intros between o rest -> Hname Hrest.
  assert (exists s, generate_workspace_summary o = Ok s) as [s Hs].
  { change (before ++ ws :: between ++ o :: rest)
      with (before ++ (ws :: between) ++ o :: rest) in Hrun.
    rewrite app_assoc, summarize_all_app in Hrun.
    destruct (summarize_all (before ++ ws :: between) (summary_data self))
      as [data1 [[]|e]]; [|done].
    simpl in Hrun. destruct (generate_workspace_summary o) as [s|e]; [eauto | done]. }
  exists s. split; [done|].
  change (before ++ ws :: between ++ o :: rest)
    with (before ++ (ws :: between) ++ o :: rest) in Hrun.
  rewrite app_assoc in Hrun.
  destruct (summarize_all_entry _ rest o s _ _ Hs Hrun) as [_ Hentry].
  rewrite <- Hname. split.
  - apply Hentry. by rewrite Hname.
  - intros Hpath Heq. apply summary_path in Hs. rewrite Heq in Hs. simpl in Hs.
    congruence.
Qed.

(** ** Discovery, loading without state, and the totals *)

(** Discovery creates every workspace with no resources and no outputs. *)
Lemma find_terraform_workspaces_fresh (walk : list walk_entry) (k : string)
    (ws : TerraformWorkspace) :
  (k, ws) ∈ find_terraform_workspaces walk -> exists e, ws = new_workspace e.
Proof.
  unfold find_terraform_workspaces.
  assert (forall acc : list (string * TerraformWorkspace),
            (forall k' ws', (k', ws') ∈ acc -> exists e, ws' = new_workspace e) ->
            (k, ws) ∈ fold_left
              (fun workspaces e =>
                 if is_workspace_dir (we_files e)
                 then od_set (we_relative e) (new_workspace e) workspaces
                 else workspaces) walk acc ->
            exists e, ws = new_workspace e) as Hgen.
  { induction walk as [|e walk IH]; intros acc Hacc; simpl; [apply Hacc|].
    apply IH. destruct (is_workspace_dir (we_files e)); [|done].
    intros k' ws' [H| ->]%elem_of_od_set; [by apply (Hacc k') | by exists e]. }
  apply Hgen. intros k' ws' H. by apply elem_of_nil in H.
Qed.

Lemma load_without_state os_chdir subprocess_run json_loads (base : string)
    (ws : TerraformWorkspace) (w : world) :
  Workspace.has_state ws = false ->
  load_terraform_state os_chdir subprocess_run json_loads base (LoaderState w ws)
  = (LoaderState w ws, Ok false).
Proof. unfold load_terraform_state. simpl. by intros ->. Qed.

(** The loading loop leaves a workspace without state where and as it was. *)
Lemma load_all_no_state os_chdir subprocess_run json_loads (base : string)
    (wss : list (string * TerraformWorkspace)) :
  forall n w w' wss' r i k ws,
    load_all os_chdir subprocess_run json_loads base wss n w = (w', wss', r) ->
    wss !! i = Some (k, ws) -> Workspace.has_state ws = false ->
    wss' !! i = Some (k, ws).
Proof.
  induction wss as [|[k0 ws0] wss IH]; intros n w w' wss' r i k ws; simpl; [done|].
  destruct (load_terraform_state _ _ _ _ _) as [s1 [loaded|e]] eqn:Hload.
  - destruct (load_all _ _ _ _ _ _ _) as [[w2 rest'] r'] eqn:Hrest.
    intros [= <- <- <-]. destruct i as [|i]; simpl.
    + intros [= -> ->] Hstate.
      rewrite (load_without_state _ _ _ _ _ _ Hstate) in Hload. by injection Hload as <- _.
    + intros Hi Hstate. by apply (IH _ _ _ _ _ _ _ _ Hrest Hi).
  - intros [= <- <- <-]. destruct i as [|i]; simpl; [|done].
    intros [= -> ->] Hstate.
    rewrite (load_without_state _ _ _ _ _ _ Hstate) in Hload. by injection Hload as <- _.
Qed.

Lemma run_analysis_loads os_chdir subprocess_run json_loads walk self w w' self' :
  run_analysis os_chdir subprocess_run json_loads walk self w = (w', self', Ok true) ->
  exists n, load_all os_chdir subprocess_run json_loads (base_path self)
              (find_terraform_workspaces walk) 0 w = (w', workspaces self', Ok n).
Proof.
  unfold run_analysis. destruct (nonempty (find_terraform_workspaces walk)); simpl; [|done].
  destruct (load_all _ _ _ _ _ _ _) as [[w1 wss] [n|e]]; [|done].
  destruct (summarize_all wss.*2 (summary_data self)) as [data r].
  intros [= <- <- _]. by exists n.
Qed.

(** The no-resources record adds nothing to the totals. *)
Lemma add_to_overview_marker (t : Overview.t) (ws : TerraformWorkspace) :
  add_to_overview t (no_resources_summary ws) = t.
Proof.
  destruct t. unfold add_to_overview, count_of. simpl. by rewrite !Nat.add_0_r.
Qed.

Lemma overview_totals_marker k ws (d1 d2 : list (string * Summary.t)) :
  overview_totals (d1 ++ (k, no_resources_summary ws) :: d2) = overview_totals (d1 ++ d2).
Proof.
  unfold overview_totals. rewrite !fmap_app, !fold_left_app. simpl.
  by rewrite add_to_overview_marker.
Qed.

Lemma analysis_summary_marker k ws (d1 d2 : list (string * Summary.t)) :
  Workspace.has_state ws = false ->
  let with_marker := analysis_summary (d1 ++ (k, no_resources_summary ws) :: d2) in
  let without := analysis_summary (d1 ++ d2) in
  AnalysisSummary.total_resources with_marker = AnalysisSummary.total_resources without
  /\ AnalysisSummary.workspaces_with_state with_marker
     = AnalysisSummary.workspaces_with_state without.
Proof.
  intros Hstate. simpl. rewrite !fmap_app, !filter_app. csimpl.
  rewrite filter_cons_False by (simpl; congruence).
  rewrite !fmap_app. split; [|done].
  induction d1 as [|x d1 IH]; csimpl; [done | by rewrite IH].
Qed.

(** C8.  For a workspace without local state, [load_terraform_state]
    returns [False] and leaves the world (working directory and commands
    run) and the workspace record as they were.  In a completed run such a
    discovered workspace is therefore still the record that discovery
    created, its summary is the no-resources record, which is its entry in
    the summary mapping (unless a later workspace of the same name replaced
    it), and that record adds nothing to the overview totals, to the
    exported resource total or to the count of workspaces with state. *)
Theorem no_state_workspace_is_skipped os_chdir subprocess_run json_loads (base : string)
    (ws : TerraformWorkspace) (w : world) :
  Workspace.has_state ws = false ->
  load_terraform_state os_chdir subprocess_run json_loads base (LoaderState w ws)
  = (LoaderState w ws, Ok false)
  /\ (forall walk self w0 w' self' i k,
        run_analysis os_chdir subprocess_run json_loads walk self w0 = (w', self', Ok true) ->
        find_terraform_workspaces walk !! i = Some (k, ws) ->
        workspaces self' !! i = Some (k, ws)
        /\ generate_workspace_summary ws = Ok (no_resources_summary ws)
        /\ (Forall (fun o => Workspace.name o <> Workspace.name ws)
                   (drop (S i) (workspaces self').*2) ->
            od_get (Workspace.name ws) (summary_data self')
            = Some (no_resources_summary ws)))
  /\ (forall k d1 d2,
        overview_totals (d1 ++ (k, no_resources_summary ws) :: d2)
        = overview_totals (d1 ++ d2)
        /\ AnalysisSummary.total_resources
             (analysis_summary (d1 ++ (k, no_resources_summary ws) :: d2))
           = AnalysisSummary.total_resources (analysis_summary (d1 ++ d2))
        /\ AnalysisSummary.workspaces_with_state
             (analysis_summary (d1 ++ (k, no_resources_summary ws) :: d2))
           = AnalysisSummary.workspaces_with_state (analysis_summary (d1 ++ d2))).
Proof.
  intros Hstate. split; [by apply load_without_state|]. split.
  - intros walk self w0 w' self' i k Hrun Hfound.
    assert (generate_workspace_summary ws = Ok (no_resources_summary ws)) as Hgen.
    { apply list_elem_of_lookup_2, find_terraform_workspaces_fresh in Hfound as [e ->].
      by apply generate_falsy. }
    destruct (run_analysis_loads _ _ _ _ _ _ _ _ Hrun) as [n Hload].
    pose proof (load_all_no_state _ _ _ _ _ _ _ _ _ _ _ _ _ Hload Hfound Hstate) as Hi.
    split; [done|]. split; [done|]. intros Hlater.
    apply run_analysis_summaries in Hrun.
    assert ((workspaces self').*2 !! i = Some ws) as Hi2
      by (by rewrite list_lookup_fmap, Hi).
    rewrite <- (take_drop_middle _ _ _ Hi2) in Hrun.
    by apply (summarize_all_entry _ _ ws _ _ _ Hgen Hrun).
  - intros k d1 d2. split; [apply overview_totals_marker|].
    by apply (analysis_summary_marker k ws d1 d2).
Qed.

(** ** The loader's use of the working directory *)

Section stays_in.
Context (dir : string).

Lemma stays_in_lift {A} (r : result A) : stays_in dir (st_lift r).
Proof. intros s Hs. split; [done|]. exists []. by rewrite app_nil_r. Qed.

Lemma stays_in_ret {A} (a : A) : stays_in dir (st_ret a).
Proof. apply (stays_in_lift (Ok a)). Qed.

Lemma stays_in_on_workspace f : stays_in dir (on_workspace f).
Proof. intros s Hs. split; [done|]. exists []. by rewrite app_nil_r. Qed.

Lemma stays_in_run_command subprocess_run argv :
  stays_in dir (run_command subprocess_run argv).
Proof.
  intros s Hs. split; [done|]. exists [(cwd (ls_world s), argv)].
  split; [done|]. by constructor.
Qed.

Lemma stays_in_bind {A B} (m : stm loader_state A) (k : A -> stm loader_state B) :
  stays_in dir m -> (forall a, stays_in dir (k a)) -> stays_in dir (st_bind m k).
Proof.
  intros Hm Hk s Hs. unfold st_bind.
  destruct (Hm s Hs) as (Hcwd & calls & Hinv & Hcalls).
  destruct (m s) as [s1 [a|e]]; simpl in *.
  - destruct (Hk a s1 Hcwd) as (Hcwd2 & calls2 & Hinv2 & Hcalls2).
    split; [done|]. exists (calls ++ calls2).
    rewrite Hinv2, Hinv, <- app_assoc. split; [done | by apply Forall_app].
  - split; [done|]. by exists calls.
Qed.

Lemma stays_in_try_except {A} (body : stm loader_state A) caught handler :
  stays_in dir body -> (forall e, stays_in dir (handler e)) ->
  stays_in dir (try_except body caught handler).
Proof.
  intros Hm Hk s Hs. unfold try_except.
  destruct (Hm s Hs) as (Hcwd & calls & Hinv & Hcalls).
  destruct (body s) as [s1 [a|e]]; simpl in *.
  - split; [done|]. by exists calls.
  - destruct (caught e); simpl; [|split; [done | by exists calls]].
    destruct (Hk e s1 Hcwd) as (Hcwd2 & calls2 & Hinv2 & Hcalls2).
    split; [done|]. exists (calls ++ calls2).
    rewrite Hinv2, Hinv, <- app_assoc. split; [done | by apply Forall_app].
Qed.
End stays_in.

Ltac solve_stays_in :=
  repeat first
    [ apply stays_in_ret
    | apply stays_in_lift
    | apply stays_in_on_workspace
    | apply stays_in_run_command
    | apply stays_in_try_except
    | apply stays_in_bind
    | match goal with
      | |- stays_in _ (if ?b then _ else _) => destruct b
      | |- forall _, stays_in _ _ => intro
      end ].

(** The body of the [try]: when the move to the workspace directory
    fails, nothing else happens; otherwise [terraform show -json] is run in
    that directory and whatever follows stays there. *)
Lemma load_body_world os_chdir subprocess_run json_loads (ws : TerraformWorkspace)
    (s : loader_state) :
  let out := load_body os_chdir subprocess_run json_loads ws s in
  match os_chdir (ls_world s) (Workspace.path ws) with
  | Ok _ =>
      cwd (ls_world out.1) = Workspace.path ws
      /\ exists more,
           invoked (ls_world out.1) =
           invoked (ls_world s) ++ (Workspace.path ws, ["terraform"; "show"; "-json"]) :: more
           /\ Forall (fun c => c.1 = Workspace.path ws) more
  | Raise e => out = (s, Raise e)
  end.
Proof.
  intros out. assert (out = load_body os_chdir subprocess_run json_loads ws s) as Hout by done.
  clearbody out. unfold load_body in Hout.
  match type of Hout with
  | context [st_bind (run_command _ _) ?k] => set (rest := k) in Hout
  end.
  assert (forall stdout, stays_in (Workspace.path ws) (rest stdout)) as Hrest
    by (subst rest; solve_stays_in).
  unfold st_bind at 1 in Hout. unfold chdir in Hout.
  destruct (os_chdir (ls_world s) (Workspace.path ws)) as [[]|e]; [|done].
  unfold st_bind at 1 in Hout. unfold run_command in Hout.
  simpl in Hout. destruct (subprocess_run _ _) as [stdout|e]; simpl in Hout.
  - match type of Hout with
    | context [rest stdout ?s1] =>
        destruct (Hrest stdout s1) as (Hcwd & calls & Hinv & Hcalls); [done|]
    end.
    rewrite <- Hout in Hcwd, Hinv. split; [done|]. exists calls.
    simpl in Hinv. by rewrite Hinv, <- app_assoc.
  - subst out. split; [done|]. by exists [].
Qed.

Lemma try_except_state {S A} (body : stm S A) caught (a : A) (s : S) :
  (try_except body caught (fun _ => st_ret a) s).1 = (body s).1.
Proof.
  unfold try_except. destruct (body s) as [s1 [x|e]]; [done|].
  by destruct (caught e).
Qed.

(** After [load_terraform_state] on a workspace with state, on every
    outcome.  The working directory is the scan root unless the
    [os.chdir(self.base_path)] of the [finally] block itself raised, in
    which case that exception leaves the call.  When the first [os.chdir]
    succeeded, the commands run were run in the workspace directory,
    [terraform show -json] first; when it raised, no command was run. *)
Lemma load_with_state_world os_chdir subprocess_run json_loads (base : string)
    (ws : TerraformWorkspace) (w : world) :
  Workspace.has_state ws = true ->
  let out := load_terraform_state os_chdir subprocess_run json_loads base
               (LoaderState w ws) in
  (cwd (ls_world out.1) = base
   \/ exists e, out.2 = Raise e /\ os_chdir (ls_world out.1) base = Raise e)
  /\ (forall b, out.2 = Ok b -> cwd (ls_world out.1) = base)
  /\ match os_chdir w (Workspace.path ws) with
     | Ok _ =>
         exists more,
           invoked (ls_world out.1) =
           invoked w ++ (Workspace.path ws, ["terraform"; "show"; "-json"]) :: more
           /\ Forall (fun c => c.1 = Workspace.path ws) more
     | Raise _ => invoked (ls_world out.1) = invoked w
     end.
Proof.
  intros Hstate. unfold load_terraform_state. simpl. rewrite Hstate. simpl.
  unfold try_finally.
  pose proof (try_except_state
                (load_body os_chdir subprocess_run json_loads ws)
                (exn_in [CalledProcessError; JSONDecodeError; FileNotFoundError])
                false (LoaderState w ws)) as Hst.
  pose proof (load_body_world os_chdir subprocess_run json_loads ws (LoaderState w ws))
    as Hbody.
  destruct (try_except _ _ _ _) as [s1 r]. simpl in Hst. subst s1.
  set (s1 := (load_body os_chdir subprocess_run json_loads ws (LoaderState w ws)).1) in *.
  assert (match os_chdir w (Workspace.path ws) with
          | Ok _ =>
              exists more,
                invoked (ls_world s1) =
                invoked w ++ (Workspace.path ws, ["terraform"; "show"; "-json"]) :: more
                /\ Forall (fun c => c.1 = Workspace.path ws) more
          | Raise _ => invoked (ls_world s1) = invoked w
          end) as Hcalls.
  { simpl in Hbody. destruct (os_chdir w (Workspace.path ws)) as [[]|e].
    - apply Hbody.
    - subst s1. by rewrite Hbody. }
  clearbody s1. unfold chdir.
  destruct (os_chdir (ls_world s1) base) as [[]|e] eqn:Hcleanup; simpl.
  - split; [by left|]. split; [done|]. done.
  - split; [right; by exists e|]. split; [done|]. done.
Qed.

(** The failures that the handler swallows: a workspace directory that is
    gone, a missing binary or a failed [terraform show -json], and output
    that is not JSON.  When the [os.chdir] of the [finally] block succeeds,
    the call returns [False], the workspace is as it was, and the process is
    in the scan root. *)
Lemma load_failure_outcomes os_chdir subprocess_run json_loads (base : string)
    (ws : TerraformWorkspace) (w : world) :
  Workspace.has_state ws = true ->
  let show := ["terraform"; "show"; "-json"]%string in
  let started := World (Workspace.path ws) (invoked w) in
  let stopped := World (Workspace.path ws) (invoked w ++ [(Workspace.path ws, show)]) in
  let ended := World base (invoked w ++ [(Workspace.path ws, show)]) in
  (os_chdir w (Workspace.path ws) = Raise FileNotFoundError ->
   os_chdir w base = Ok tt ->
   load_terraform_state os_chdir subprocess_run json_loads base (LoaderState w ws)
   = (LoaderState (World base (invoked w)) ws, Ok false))
  /\ (forall e,
        os_chdir w (Workspace.path ws) = Ok tt ->
        os_chdir stopped base = Ok tt ->
        subprocess_run started show = Raise e ->
        e = CalledProcessError \/ e = FileNotFoundError ->
        load_terraform_state os_chdir subprocess_run json_loads base (LoaderState w ws)
        = (LoaderState ended ws, Ok false))
  /\ (forall stdout,
        os_chdir w (Workspace.path ws) = Ok tt ->
        os_chdir stopped base = Ok tt ->
        subprocess_run started show = Ok stdout ->
        json_loads stdout = Raise JSONDecodeError ->
        load_terraform_state os_chdir subprocess_run json_loads base (LoaderState w ws)
        = (LoaderState ended ws, Ok false)).
Proof.
  intros Hstate show started stopped ended. subst show started stopped ended.
  unfold load_terraform_state, try_finally, try_except, load_body, st_bind,
    run_command, chdir. simpl. rewrite Hstate. simpl. split; [|split].
  - intros -> . simpl. by intros ->.
  - intros e -> Hcleanup Hshow [-> | ->]; simpl; rewrite Hshow; simpl;
      by rewrite Hcleanup.
  - intros stdout -> Hcleanup Hshow Hjson. simpl. rewrite Hshow. simpl.
    unfold st_lift. rewrite Hjson. simpl. by rewrite Hcleanup.
Qed.

(** An [os.chdir(workspace.path)] that raises another [OSError] is caught
    by no handler: the exception leaves the call, after the [finally]
    block. *)
Lemma load_uncaught_chdir os_chdir subprocess_run json_loads (base : string)
    (ws : TerraformWorkspace) (w : world) (e : exn) :
  Workspace.has_state ws = true ->
  os_chdir w (Workspace.path ws) = Raise e ->
  e = NotADirectoryError \/ e = PermissionError ->
  os_chdir w base = Ok tt ->
  load_terraform_state os_chdir subprocess_run json_loads base (LoaderState w ws)
  = (LoaderState (World base (invoked w)) ws, Raise e).
Proof.
  intros Hstate Hfirst He Hcleanup.
  unfold load_terraform_state, try_finally, try_except, load_body, st_bind, chdir.
  simpl. rewrite Hstate, Hfirst. simpl.
  destruct He as [-> | ->]; simpl; by rewrite Hcleanup.
Qed.

(** C9, at the failing input.  The analyzer scans [/infra] while the
    process is in [/home/operator]; every [os.chdir] succeeds.  After the
    load of [/infra/prod] the process is in [/infra], not where it was. *)
Lemma working_directory_not_restored :
  let always := fun (_ : world) (_ : string) => Ok tt in
  let oracle := fun (_ : world) (_ : list string) => Raise (A:=string) CalledProcessError in
  let parser := fun (_ : string) => Raise (A:=json) JSONDecodeError in
  let before := World "/home/operator" [] in
  let ws := Workspace.Make "/infra/prod" "prod" true (JList []) (JDict ∅) in
  let out := load_terraform_state always oracle parser "/infra" (LoaderState before ws) in
  out.2 = Ok false
  /\ cwd (ls_world out.1) = "/infra"%string
  /\ cwd (ls_world out.1) <> cwd before.
Proof. by vm_compute. Qed.

(** C9.  What the code does about the working directory.  For a workspace
    with local state, on every outcome of the external commands and of the
    JSON parsing, the [finally] block calls [os.chdir(self.base_path)]: the
    process is left in the analyzer's scan root, unless that call itself
    raises, and then its exception leaves the call.  The directory the
    process was in before the call is not recorded anywhere, so it is
    restored exactly when the process was in the scan root already.  When
    the first [os.chdir] succeeds the commands are run in the workspace
    directory, [terraform show -json] first; when it raises, none is run. *)
Theorem load_leaves_process_in_base_path os_chdir subprocess_run json_loads
    (base : string) (ws : TerraformWorkspace) (w : world) :
  Workspace.has_state ws = true ->
  let out := load_terraform_state os_chdir subprocess_run json_loads base
               (LoaderState w ws) in
  (cwd (ls_world out.1) = base
   \/ exists e, out.2 = Raise e /\ os_chdir (ls_world out.1) base = Raise e)
  /\ (forall b, out.2 = Ok b -> cwd (ls_world out.1) = base)
  /\ ((forall w1, os_chdir w1 base = Ok tt) ->
      cwd (ls_world out.1) = base
      /\ (cwd (ls_world out.1) = cwd w <-> cwd w = base))
  /\ match os_chdir w (Workspace.path ws) with
     | Ok _ =>
         exists more,
           invoked (ls_world out.1) =
           invoked w ++ (Workspace.path ws, ["terraform"; "show"; "-json"]) :: more
           /\ Forall (fun c => c.1 = Workspace.path ws) more
     | Raise _ => invoked (ls_world out.1) = invoked w
     end.
Proof.
  intros Hstate out.
  destruct (load_with_state_world os_chdir subprocess_run json_loads base ws w Hstate)
    as (Hcwd & Hok & Hcalls).
  fold out in Hcwd, Hok, Hcalls.
  split; [done|]. split; [done|]. split; [|done].
  intros Halways.
  assert (cwd (ls_world out.1) = base) as Hbase.
  { destruct Hcwd as [?|(e & _ & He)]; [done|]. by rewrite Halways in He. }
  split; [done|]. rewrite Hbase. split; congruence.
Qed.

(** * The sample scenario *)

(** The scenario end to end: both workspaces are discovered, [prod] is
    loaded and summarised, [staging] gets the no-resources record, and the
    process ends in the scan root. *)
Example scenario_run :
  let '(w, self, r) :=
    run_analysis demo_chdir demo_terraform demo_json_loads demo_walk
                 (Analyzer "/infra" [] []) (World "/infra" []) in
  r = Ok true
  /\ cwd w = "/infra"%string
  /\ invoked w = [("/infra/prod", ["terraform"; "show"; "-json"]);
                  ("/infra/prod", ["terraform"; "output"; "-json"])]%string
  /\ (workspaces self).*2 = [prod_loaded; staging]
  /\ od_get "staging" (summary_data self) = Some (no_resources_summary staging)
  /\ (exists s sa,
        od_get "prod" (summary_data self) = Some s
        /\ Summary.resource_count s = 3
        /\ Summary.categories s = [("realms", 1); ("users", 2)]%string
        /\ user_security <$> Summary.detailed_analysis s = Some (Some sa)
        /\ total_users sa = 2 /\ users_with_passwords sa = 1
        /\ temporary_passwords sa = 1 /\ users_without_passwords sa = 1
        /\ enabled_users sa = 2 /\ users_requiring_password_change sa = 0)
  /\ overview_totals (summary_data self) = Overview.Make 3 1 2 0 0
  /\ analysis_summary (summary_data self) = AnalysisSummary.Make 2 3 1.
Proof.
  vm_compute. repeat split. eexists _, _. repeat split.
Qed.

(** * Instances of the theorems on the sample data *)

Lemma categorize_partitions_resources_witness :
  (exists cats,
     categorize_keycloak_resources demo_resources = Ok cats
     /\ sum_list (length <$> (cat_get cats <$> all_categories)) = 3)
  /\ (exists s,
        generate_workspace_summary prod_loaded = Ok s
        /\ sum_list (Summary.categories s).*2 = 3).
Proof.
  destruct (categorize_partitions_resources demo_resources)
    as (cats & Hcats & _ & _ & _ & Hsum & Hsummary).
  { repeat (constructor; [by vm_compute|]). constructor. }
  split; [by exists cats|].
  destruct (generate_workspace_summary prod_loaded) as [s|e] eqn:Hs; [|by vm_compute in Hs].
  exists s. split; [done|].
  destruct (Hsummary prod_loaded s eq_refl Hs) as [Hcount ->]. exact Hcount.
Defined.

Lemma user_federation_mapper_is_user_witness :
  categorize_keycloak_resources [federation_mapper]
  = Ok (Categories [] [federation_mapper] [] [] [] [] [] [] [] []).
Proof.
  assert (has_type federation_mapper "keycloak_user_federation_mapper") as Hty
    by (by vm_compute).
  exact (proj1 (proj2 (proj2 (user_federation_mapper_is_user federation_mapper Hty)))).
Defined.

Lemma realms_iff_type_contains_realm_witness :
  demo_realm ∈ realms demo_categories /\ alice ∉ realms demo_categories.
Proof.
  assert (categorize_keycloak_resources demo_resources = Ok demo_categories) as Hcats
    by (by vm_compute).
  destruct (realms_iff_type_contains_realm demo_resources demo_categories Hcats)
    as [Hiff Hrealm].
  split.
  - apply Hrealm; [apply elem_of_cons; by left | by vm_compute].
  - intros Hin.
    apply (Hiff alice "keycloak_user"%string) in Hin as [Hc _].
    + by vm_compute in Hc.
    + apply elem_of_cons. right. apply elem_of_cons. by left.
    + by vm_compute.
Defined.

Lemma password_counters_witness :
  (exists sa sa' final info,
     iteration_of [] alice [bob] sa sa' final info
     /\ users_with_passwords sa' = users_with_passwords sa + 1
     /\ temporary_passwords sa' = temporary_passwords sa + 1
     /\ users_without_passwords sa' = users_without_passwords sa
     /\ has_password info = true
     /\ temporary_password info = true)
  /\ (exists sa sa' final info,
        iteration_of [alice] bob [] sa sa' final info
        /\ users_without_passwords sa' = users_without_passwords sa + 1
        /\ users_with_passwords sa' = users_with_passwords sa
        /\ temporary_passwords sa' = temporary_passwords sa
        /\ has_password info = false
        /\ temporary_password info = false).
Proof.
  split.
  - apply (proj1 (password_counters [] [bob] alice alice_values
                    (Forall_nil_2 _)
                    (Forall_cons_2 _ bob [] eq_refl (Forall_nil_2 _))
                    eq_refl)
             {[ "temporary" := JBool true ]}); by vm_compute.
  - apply (proj2 (password_counters [alice] [] bob bob_values
                    (Forall_cons_2 _ alice [] eq_refl (Forall_nil_2 _))
                    (Forall_nil_2 _)
                    eq_refl)); by vm_compute.
Defined.

Lemma missing_enabled_counts_as_enabled_witness :
  exists sa sa' final info,
    iteration_of [alice] bob [] sa sa' final info
    /\ enabled_users sa' = enabled_users sa + 1
    /\ disabled_users sa' = disabled_users sa
    /\ enabled info = JBool true.
Proof.
  apply (missing_enabled_counts_as_enabled [alice] [] bob bob_values).
  - constructor; [by vm_compute | constructor].
  - constructor.
  - by vm_compute.
  - by vm_compute.
  - by vm_compute.
Defined.

Lemma requires_password_change_never_set_witness :
  exists sa,
    analyze_user_security [alice; bob] = Ok sa
    /\ users_requiring_password_change sa = 0
    /\ Forall (fun info => requires_password_change info = false) (user_details sa).
Proof.
  destruct (requires_password_change_never_set [alice; bob]) as [Hreturns Hzero].
  destruct Hreturns as [sa Hsa].
  { repeat (constructor; [by vm_compute|]). constructor. }
  exists sa. destruct (Hzero sa Hsa) as (H0 & _ & Hall). by repeat split.
Defined.

Lemma values_defaulting_total_witness :
  (exists sa, analyze_user_security [alice; bob] = Ok sa)
  /\ (exists s, generate_workspace_summary prod_loaded = Ok s).
Proof.
  destruct values_defaulting_total as (Husers & _ & _ & _ & _ & Hgen & _).
  split.
  - apply Husers. repeat (constructor; [by vm_compute|]). constructor.
  - apply (Hgen prod_loaded demo_resources eq_refl).
    repeat (constructor; [by vm_compute|]). constructor.
Defined.

Lemma empty_workspace_gets_marker_witness :
  generate_workspace_summary_with (fun _ => Raise TypeError) staging
  = Ok (no_resources_summary staging).
Proof.
  exact (proj1 (empty_workspace_gets_marker (fun _ => Raise TypeError) staging eq_refl)).
Defined.

Lemma no_state_workspace_is_skipped_witness :
  load_terraform_state demo_chdir demo_terraform demo_json_loads "/infra"
    (LoaderState (World "/infra" []) staging)
  = (LoaderState (World "/infra" []) staging, Ok false).
Proof.
  exact (proj1 (no_state_workspace_is_skipped demo_chdir demo_terraform demo_json_loads "/infra"
                  staging (World "/infra" []) eq_refl)).
Defined.

Lemma load_leaves_process_in_base_path_witness :
  let out := load_terraform_state demo_chdir demo_terraform demo_json_loads "/infra"
               (LoaderState (World "/home/operator" []) prod_fresh) in
  out.2 = Ok true
  /\ cwd (ls_world out.1) = "/infra"%string
  /\ cwd (ls_world out.1) <> "/home/operator"%string.
Proof.
  intros out.
  destruct (load_leaves_process_in_base_path demo_chdir demo_terraform demo_json_loads
              "/infra" prod_fresh (World "/home/operator" []) eq_refl)
    as (_ & Hok & _).
  fold out in Hok. assert (out.2 = Ok true) as Hres by (by vm_compute).
  split; [done|]. rewrite (Hok true Hres). split; [done|]. by vm_compute.
Defined.


(** * Further properties of the code *)

(** ** Workspace discovery *)

Lemma string_length_app (a b : string) :
  String.length (a +:+ b) = String.length a + String.length b.
Proof. induction a as [|c a IH]; simpl; [done | by rewrite IH]. Qed.

Lemma substring_whole (s : string) : String.substring 0 (String.length s) s = s.
Proof. induction s as [|c s IH]; simpl; [done | by rewrite IH]. Qed.

Lemma substring_after (pre suf : string) (n : nat) :
  String.substring (String.length pre) n (pre +:+ suf) = String.substring 0 n suf.
Proof. induction pre as [|c pre IH]; simpl; [done | apply IH]. Qed.

Lemma substring_split (s : string) : forall n,
  n <= String.length s ->
  s = String.substring 0 n s +:+ String.substring n (String.length s - n) s.
Proof.
  induction s as [|c s IH]; intros n Hn; simpl in *.
  - by destruct n.
  - destruct n as [|n]; simpl.
    + by rewrite substring_whole.
    + change (String c s = String c (String.substring 0 n s +:+
                                     String.substring n (String.length s - n) s)).
      f_equal. apply IH. lia.
Qed.

(** [str_endswith] is Python's [endswith]. *)
Lemma str_endswith_spec (suffix s : string) :
  str_endswith suffix s = true <-> exists pre, s = pre +:+ suffix.
Proof.
  unfold str_endswith. rewrite andb_true_iff, Nat.leb_le, String.eqb_eq. split.
  - intros [Hle Heq]. exists (String.substring 0 (String.length s - String.length suffix) s).
    pose proof (substring_split s (String.length s - String.length suffix)) as Hsplit.
    replace (String.length s - (String.length s - String.length suffix))
      with (String.length suffix) in Hsplit by lia.
    rewrite Heq in Hsplit. apply Hsplit. lia.
  - intros [pre ->]. rewrite string_length_app. split; [lia|].
    replace (String.length pre + String.length suffix - String.length suffix)
      with (String.length pre) by lia.
    by rewrite substring_after, substring_whole.
Qed.

(** X1.  A directory is taken as a workspace exactly when one of its files
    has a name that ends in [.tf]; the separate test for [main.tf] never
    decides. *)
Theorem workspace_dir_iff_tf_file (files : list string) :
  (is_workspace_dir files = true <->
   exists f stem, f ∈ files /\ f = stem +:+ ".tf")
  /\ is_workspace_dir files = existsb (str_endswith ".tf") files.
Proof.
  assert (is_workspace_dir files = existsb (str_endswith ".tf") files) as Heq.
  { unfold is_workspace_dir.
    destruct (existsb (String.eqb "main.tf") files) eqn:Hmain; [|done].
    apply existsb_exists in Hmain as (f & Hin & Hf%String.eqb_eq). subst f.
    symmetry. apply existsb_exists. by exists "main.tf"%string. }
  split; [|done]. rewrite Heq. split.
  - intros (f & Hin & [stem Hf]%str_endswith_spec)%existsb_exists.
    exists f, stem. by rewrite list_elem_of_In.
  - intros (f & stem & Hin & Hf). apply existsb_exists. exists f.
    split; [by apply list_elem_of_In|]. apply str_endswith_spec. by exists stem.
Qed.

Lemma od_set_fresh {V} (k : string) (v : V) (d : list (string * V)) :
  k ∉ d.*1 -> od_set k v d = d ++ [(k, v)].
Proof.
  induction d as [|[k' v'] d IH]; simpl; [done|].
  intros Hk. apply not_elem_of_cons in Hk as [Hne Hk].
  destruct (String.eqb k' k) eqn:E; [apply String.eqb_eq in E; congruence|].
  by rewrite IH.
Qed.

Lemma od_set_keys {V} (k : string) (v : V) (d : list (string * V)) :
  (od_set k v d).*1 = if decide (k ∈ d.*1) then d.*1 else d.*1 ++ [k].
Proof.
  induction d as [|[k' v'] d IH]; csimpl.
  - done.
  - destruct (String.eqb k' k) eqn:E; csimpl.
    + apply String.eqb_eq in E as ->.
      rewrite decide_True; [done | apply elem_of_cons; by left].
    + apply String.eqb_neq in E. rewrite IH.
      destruct (decide (k ∈ d.*1)) as [Hin|Hnin].
      * rewrite decide_True; [done | apply elem_of_cons; by right].
      * rewrite decide_False; [done|]. intros [?|?]%elem_of_cons; congruence.
Qed.

Lemma od_set_NoDup {V} (k : string) (v : V) (d : list (string * V)) :
  NoDup d.*1 -> NoDup (od_set k v d).*1.
Proof.
  intros Hd. rewrite od_set_keys. destruct (decide (k ∈ d.*1)); [done|].
  apply NoDup_app. split; [done|]. split; [|apply NoDup_singleton].
  intros x Hx ->%list_elem_of_singleton. done.
Qed.

Lemma elem_of_od_set_key {V} (k k' : string) (v v' : V) (d : list (string * V)) :
  (k', v') ∈ od_set k v d -> (k', v') ∈ d \/ (k' = k /\ v' = v).
Proof.
  induction d as [|[k0 v0] d IH]; simpl.
  - intros [= -> ->]%list_elem_of_singleton. by right.
  - destruct (String.eqb k0 k) eqn:E.
    + apply String.eqb_eq in E as ->.
      intros [[= -> ->]|H]%elem_of_cons; [by right | left; by apply elem_of_cons; right].
    + intros [[= -> ->]|H]%elem_of_cons; [left; apply elem_of_cons; by left|].
      destruct (IH H) as [?|?]; [left; apply elem_of_cons; by right | by right].
Qed.

(** The discovery loop from any accumulated dict: keys stay distinct, and
    each entry was made from a qualifying directory of that relative path. *)
Lemma find_loop_invariant (walk : list walk_entry) :
  forall (acc : list (string * TerraformWorkspace)) (P : string -> TerraformWorkspace -> Prop),
    NoDup acc.*1 ->
    (forall k ws, (k, ws) ∈ acc -> P k ws) ->
    (forall e, e ∈ walk -> is_workspace_dir (we_files e) = true ->
               P (we_relative e) (new_workspace e)) ->
    let found := fold_left
                   (fun workspaces e =>
                      if is_workspace_dir (we_files e)
                      then od_set (we_relative e) (new_workspace e) workspaces
                      else workspaces) walk acc in
    NoDup found.*1 /\ forall k ws, (k, ws) ∈ found -> P k ws.
Proof.
  induction walk as [|e walk IH]; intros acc P Hnd Hacc Hnew; simpl; [done|].
  apply IH.
  - destruct (is_workspace_dir (we_files e)); [by apply od_set_NoDup | done].
  - destruct (is_workspace_dir (we_files e)) eqn:Hq; [|done].
    intros k ws [Hold | [-> ->]]%elem_of_od_set_key; [by apply Hacc|].
    apply Hnew; [apply elem_of_cons; by left | done].
  - intros e' He'. apply Hnew, elem_of_cons. by right.
Qed.

Lemma find_loop_keys_grow (walk : list walk_entry) :
  forall (acc : list (string * TerraformWorkspace)) (k : string),
    k ∈ acc.*1
    \/ (exists e, e ∈ walk /\ is_workspace_dir (we_files e) = true /\ we_relative e = k) ->
    k ∈ (fold_left
           (fun workspaces e =>
              if is_workspace_dir (we_files e)
              then od_set (we_relative e) (new_workspace e) workspaces
              else workspaces) walk acc).*1.
Proof.
  induction walk as [|e walk IH]; intros acc k H; simpl.
  - destruct H as [H | (e & He & _)]; [done | by apply elem_of_nil in He].
  - apply IH. destruct H as [H | (e' & [-> | He']%elem_of_cons & Hq & Hk)].
    + left. destruct (is_workspace_dir (we_files e)); [|done].
      rewrite od_set_keys. case_decide; [done | apply elem_of_app; by left].
    + left. rewrite Hq, od_set_keys, Hk.
      case_decide; [done | apply elem_of_app; right; by apply list_elem_of_singleton].
    + right. by exists e'.
Qed.

Lemma find_loop_distinct (walk : list walk_entry) :
  forall acc : list (string * TerraformWorkspace),
    NoDup (acc.*1 ++ (we_relative <$> walk)) ->
    fold_left
      (fun workspaces e =>
         if is_workspace_dir (we_files e)
         then od_set (we_relative e) (new_workspace e) workspaces
         else workspaces) walk acc
    = acc ++ ((fun e => (we_relative e, new_workspace e)) <$>
              filter (fun e => is_workspace_dir (we_files e) = true) walk).
Proof.
  induction walk as [|e walk IH]; intros acc Hnd; simpl.
  - by rewrite app_nil_r.
  - rewrite fmap_cons in Hnd.
    assert ((we_relative e ∉ acc.*1) /\ NoDup (acc.*1 ++ (we_relative <$> walk))) as [Hfresh Hrest].
    { rewrite <- Permutation_middle in Hnd. apply NoDup_cons in Hnd as [Hnot Hnd].
      split; [|done]. intros Hin. apply Hnot, elem_of_app. by left. }
    destruct (is_workspace_dir (we_files e)) eqn:Hq.
    + rewrite filter_cons_True by done. rewrite od_set_fresh by done.
      rewrite IH.
      * by rewrite <- app_assoc.
      * rewrite fmap_app, <- app_assoc. simpl.
        rewrite <- Permutation_middle in Hnd. by rewrite <- Permutation_middle.
    + rewrite filter_cons_False by congruence. by apply IH.
Qed.

(** X2.  [find_terraform_workspaces] returns a dict with pairwise distinct
    keys; its entries are exactly the workspaces made from the walked
    directories that qualify, keyed by their relative path; and when the
    walk visits no relative path twice, the entries are the qualifying
    directories in walk order. *)
Theorem find_terraform_workspaces_spec (walk : list walk_entry) :
  NoDup (find_terraform_workspaces walk).*1
  /\ (forall k ws,
        (k, ws) ∈ find_terraform_workspaces walk ->
        exists e, e ∈ walk /\ is_workspace_dir (we_files e) = true
                  /\ we_relative e = k /\ ws = new_workspace e)
  /\ (forall e,
        e ∈ walk -> is_workspace_dir (we_files e) = true ->
        we_relative e ∈ (find_terraform_workspaces walk).*1)
  /\ (NoDup (we_relative <$> walk) ->
      find_terraform_workspaces walk
      = (fun e => (we_relative e, new_workspace e)) <$>
        filter (fun e => is_workspace_dir (we_files e) = true) walk).
Proof.
  unfold find_terraform_workspaces.
  destruct (find_loop_invariant walk []
              (fun k ws => exists e, e ∈ walk /\ is_workspace_dir (we_files e) = true
                                     /\ we_relative e = k /\ ws = new_workspace e))
    as [Hnd Hfrom].
  { constructor. }
  { intros k ws H. by apply elem_of_nil in H. }
  { intros e He Hq. by exists e. }
  split; [done|]. split; [done|]. split.
  - intros e He Hq. apply find_loop_keys_grow. right. by exists e.
  - intros Hwalk. by rewrite (find_loop_distinct walk []).
Qed.

(** ** The state loader *)

(** The three ways in which the inner [try] ends normally. *)
Ltac finish_outputs run loads Houts Hcleanup :=
  let out := fresh "out" in
  let e := fresh "e" in
  destruct (run _ ["terraform"; "output"; "-json"]%string) as [out|e];
    simpl in Houts |- *;
  [ destruct (loads out) as [?|e]; simpl in Houts |- * | ];
  try (destruct e; simpl in Houts |- *; try discriminate Houts);
  injection Houts as <-; rewrite <- app_assoc; simpl; rewrite Hcleanup;
  unfold set_outputs, set_resources; simpl;
  repeat match goal with H : Workspace.has_state _ = _ |- _ => rewrite H end;
  done.

Section loader_outcomes.
Context (os_chdir : world -> string -> result unit)
        (subprocess_run : world -> list string -> result string)
        (json_loads : string -> result json)
        (base : string) (ws : TerraformWorkspace) (w : world).

Let show : list string := ["terraform"; "show"; "-json"].
Let output : list string := ["terraform"; "output"; "-json"].
Let in_workspace : world := World (Workspace.path ws) (invoked w).
Let after_show : world :=
  World (Workspace.path ws) (invoked w ++ [(Workspace.path ws, show)]).
Let after_both : list (string * list string) :=
  invoked w ++ [(Workspace.path ws, show); (Workspace.path ws, output)].

(** The outcomes of this section are those of a load in which the two
    calls of [os.chdir] succeed: the one that enters the workspace
    directory, and the one of the [finally] block. *)

(** X3.  A successful load.  When both calls of [os.chdir] succeed and
    [terraform show -json] prints a JSON
    object whose [values.root_module] is an object, the workspace gets the
    [resources] of that object ([[]] when it has none), and its outputs are
    the parsed output of [terraform output -json], or [{}] when that command
    fails or prints no JSON; the call returns [True] and leaves the process
    in the scan root after both commands. *)
Theorem load_success (stdout : string) (state values root : gmap string json)
    (outs : json) :
  Workspace.has_state ws = true ->
  os_chdir w (Workspace.path ws) = Ok tt ->
  os_chdir (World (Workspace.path ws) after_both) base = Ok tt ->
  subprocess_run in_workspace show = Ok stdout ->
  json_loads stdout = Ok (JDict state) ->
  state !! "values" = Some (JDict values) ->
  values !! "root_module" = Some (JDict root) ->
  outputs_after subprocess_run json_loads after_show = Some outs ->
  load_terraform_state os_chdir subprocess_run json_loads base (LoaderState w ws)
  = (LoaderState (World base after_both)
       (Workspace.Make (Workspace.path ws) (Workspace.name ws) (Workspace.has_state ws)
                       (default (JList []) (root !! "resources")) outs),
     Ok true).
Proof.
  intros Hstate Hfirst Hcleanup Hshow Hparse Hvalues Hroot Houts.
  subst show output in_workspace after_show after_both.
  unfold outputs_after in Houts.
  unfold load_terraform_state, load_body, try_finally, try_except, st_bind,
    st_lift, st_ret, run_command, chdir, on_workspace, st_modify. simpl.
  rewrite Hstate. simpl. rewrite Hfirst. simpl. rewrite Hshow. simpl.
  rewrite Hparse. simpl.
  rewrite bool_decide_eq_true_2 by eauto. rewrite Hvalues. simpl.
  rewrite bool_decide_eq_true_2 by eauto. rewrite Hroot. simpl.
  finish_outputs subprocess_run json_loads Houts Hcleanup.
Qed.

(** X4.  A snapshot without root module.  When both calls of [os.chdir]
    succeed and the JSON object printed by
    [terraform show -json] has no [values], or its [values] is an object
    without [root_module], the resources of the workspace stay as they were;
    the outputs are still fetched and the call returns [True]. *)
Theorem load_without_root_module (stdout : string) (state : gmap string json)
    (outs : json) :
  Workspace.has_state ws = true ->
  os_chdir w (Workspace.path ws) = Ok tt ->
  os_chdir (World (Workspace.path ws) after_both) base = Ok tt ->
  subprocess_run in_workspace show = Ok stdout ->
  json_loads stdout = Ok (JDict state) ->
  state !! "values" = None
  \/ (exists values, state !! "values" = Some (JDict values)
                     /\ values !! "root_module" = None) ->
  outputs_after subprocess_run json_loads after_show = Some outs ->
  load_terraform_state os_chdir subprocess_run json_loads base (LoaderState w ws)
  = (LoaderState (World base after_both)
       (Workspace.Make (Workspace.path ws) (Workspace.name ws) (Workspace.has_state ws)
                       (Workspace.resources ws) outs),
     Ok true).
Proof.
  intros Hstate Hfirst Hcleanup Hshow Hparse Hmissing Houts.
  subst show output in_workspace after_show after_both.
  unfold outputs_after in Houts.
  unfold load_terraform_state, load_body, try_finally, try_except, st_bind,
    st_lift, st_ret, run_command, chdir, on_workspace, st_modify. simpl.
  rewrite Hstate. simpl. rewrite Hfirst. simpl. rewrite Hshow. simpl.
  rewrite Hparse. simpl.
  destruct Hmissing as [Hv | (values & Hv & Hr)].
  - rewrite bool_decide_eq_false_2 by (rewrite Hv; by intros [? ?]). simpl.
    finish_outputs subprocess_run json_loads Houts Hcleanup.
  - rewrite bool_decide_eq_true_2 by eauto. rewrite Hv. simpl.
    rewrite bool_decide_eq_false_2 by (rewrite Hr; by intros [? ?]). simpl.
    finish_outputs subprocess_run json_loads Houts Hcleanup.
Qed.

(** X5.  A load that fails after it has stored resources.  When both
    calls of [os.chdir] succeed, the
    snapshot was read and [terraform output -json] then cannot be started
    ([FileNotFoundError]), the inner handler does not catch the exception
    and the outer one does: the call returns [False], but the workspace
    keeps the resources it was given from the snapshot. *)
Theorem load_fails_after_resources (stdout : string)
    (state values root : gmap string json) :
  Workspace.has_state ws = true ->
  os_chdir w (Workspace.path ws) = Ok tt ->
  os_chdir (World (Workspace.path ws) after_both) base = Ok tt ->
  subprocess_run in_workspace show = Ok stdout ->
  json_loads stdout = Ok (JDict state) ->
  state !! "values" = Some (JDict values) ->
  values !! "root_module" = Some (JDict root) ->
  subprocess_run after_show output = Raise FileNotFoundError ->
  load_terraform_state os_chdir subprocess_run json_loads base (LoaderState w ws)
  = (LoaderState (World base after_both)
       (Workspace.Make (Workspace.path ws) (Workspace.name ws) (Workspace.has_state ws)
                       (default (JList []) (root !! "resources"))
                       (Workspace.outputs ws)),
     Ok false).
Proof.
  intros Hstate Hfirst Hcleanup Hshow Hparse Hvalues Hroot Hout.
  subst show output in_workspace after_show after_both.
  unfold load_terraform_state, load_body, try_finally, try_except, st_bind,
    st_lift, st_ret, run_command, chdir, on_workspace, st_modify. simpl.
  rewrite Hstate. simpl. rewrite Hfirst. simpl. rewrite Hshow. simpl.
  rewrite Hparse. simpl.
  rewrite bool_decide_eq_true_2 by eauto. rewrite Hvalues. simpl.
  rewrite bool_decide_eq_true_2 by eauto. rewrite Hroot. simpl.
  rewrite Hout. simpl. rewrite <- app_assoc. simpl. rewrite Hcleanup.
  unfold set_resources. simpl. by rewrite Hstate.
Qed.

(** X6.  A snapshot that is no container.  When both calls of [os.chdir]
    succeed and [terraform show -json]
    prints JSON that is [null], a boolean or a number, the test
    ['values' in state_data] raises [TypeError], which no handler of
    [load_terraform_state] catches: the exception leaves the call, after the
    working directory has been set to the scan root, and the workspace is
    as it was. *)
Theorem load_raises_on_scalar_snapshot (stdout : string) (state_data : json) :
  Workspace.has_state ws = true ->
  os_chdir w (Workspace.path ws) = Ok tt ->
  os_chdir after_show base = Ok tt ->
  subprocess_run in_workspace show = Ok stdout ->
  json_loads stdout = Ok state_data ->
  match state_data with JNull | JBool _ | JInt _ | JFloat _ => True | _ => False end ->
  load_terraform_state os_chdir subprocess_run json_loads base (LoaderState w ws)
  = (LoaderState (World base (invoked w ++ [(Workspace.path ws, show)])) ws,
     Raise TypeError).
Proof.
  intros Hstate Hfirst Hcleanup Hshow Hparse Hscalar.
  subst show output in_workspace after_show after_both.
  unfold load_terraform_state, load_body, try_finally, try_except, st_bind,
    st_lift, st_ret, run_command, chdir, on_workspace, st_modify. simpl.
  rewrite Hstate. simpl. rewrite Hfirst. simpl. rewrite Hshow. simpl.
  rewrite Hparse. simpl.
  destruct state_data; try done; simpl; by rewrite Hcleanup.
Qed.
End loader_outcomes.

Section runs.
Lemma runs_lift {A} (r : result A) : runs [] (st_lift r).
Proof.
  intros s. exists []. simpl. rewrite app_nil_r. by destruct (ls_world s).
Qed.

Lemma runs_ret {A} (a : A) : runs [] (st_ret a).
Proof. apply (runs_lift (Ok a)). Qed.

Lemma runs_on_workspace f : runs [] (on_workspace f).
Proof.
  intros s. exists []. simpl. rewrite app_nil_r. by destruct (ls_world s).
Qed.

Lemma runs_run_command subprocess_run argv : runs [argv] (run_command subprocess_run argv).
Proof. intros s. by exists [argv]. Qed.

Lemma runs_bind {A B} (l1 l2 : list (list string)) (m : stm loader_state A)
    (k : A -> stm loader_state B) :
  runs l1 m -> (forall a, runs l2 (k a)) -> runs (l1 ++ l2) (st_bind m k).
Proof.
  intros Hm Hk s. unfold st_bind.
  destruct (Hm s) as (d1 & Hw1 & Hp1 & Hfull1).
  destruct (m s) as [s1 [a|e]]; simpl in *.
  - rewrite (Hfull1 a eq_refl) in Hw1.
    destruct (Hk a s1) as (d2 & Hw2 & Hp2 & Hfull2).
    exists (l1 ++ d2). rewrite Hw2, Hw1. simpl. rewrite fmap_app, app_assoc.
    split; [done|]. split; [by apply prefix_app|].
    intros b Hb. by rewrite (Hfull2 b Hb).
  - exists d1. split; [done|]. split; [by apply prefix_app_r | done].
Qed.

(** The inner [try] runs its one command whether or not the handler is
    entered. *)
Lemma runs_output_block subprocess_run (json_loads : string -> result json) :
  runs [["terraform"; "output"; "-json"]%string]
    (try_except
       (out <~ run_command subprocess_run ["terraform"; "output"; "-json"];;
        parsed <~ st_lift (json_loads out);;
        on_workspace (set_outputs parsed))
       (exn_in [CalledProcessError; JSONDecodeError])
       (fun _ => on_workspace (set_outputs (JDict ∅)))).
Proof.
  intros s. exists [["terraform"; "output"; "-json"]%string].
  unfold try_except, st_bind, run_command, st_lift, on_workspace, st_modify. simpl.
  split; [|split; [done|done]].
  destruct (subprocess_run _ _) as [out|e]; simpl.
  - destruct (json_loads out) as [parsed|e]; simpl; [done|]. by destruct e.
  - by destruct e.
Qed.
End runs.

Section keeps_identity.
Lemma same_identity_refl ws : same_identity ws ws.
Proof. by repeat split. Qed.

Lemma same_identity_trans ws1 ws2 ws3 :
  same_identity ws1 ws2 -> same_identity ws2 ws3 -> same_identity ws1 ws3.
Proof. intros (? & ? & ?) (? & ? & ?). repeat split; congruence. Qed.

Lemma keeps_identity_lift {A} (r : result A) : keeps_identity (st_lift r).
Proof. intros s. apply same_identity_refl. Qed.

Lemma keeps_identity_ret {A} (a : A) : keeps_identity (st_ret a).
Proof. intros s. apply same_identity_refl. Qed.

Lemma keeps_identity_chdir os_chdir dir : keeps_identity (chdir os_chdir dir).
Proof.
  intros s. unfold chdir. destruct (os_chdir _ _) as [[]|e]; apply same_identity_refl.
Qed.

Lemma keeps_identity_run_command subprocess_run argv :
  keeps_identity (run_command subprocess_run argv).
Proof. intros s. apply same_identity_refl. Qed.

Lemma keeps_identity_set_resources v : keeps_identity (on_workspace (set_resources v)).
Proof. intros s. by repeat split. Qed.

Lemma keeps_identity_set_outputs v : keeps_identity (on_workspace (set_outputs v)).
Proof. intros s. by repeat split. Qed.

Lemma keeps_identity_bind {A B} (m : stm loader_state A) (k : A -> stm loader_state B) :
  keeps_identity m -> (forall a, keeps_identity (k a)) -> keeps_identity (st_bind m k).
Proof.
  intros Hm Hk s. unfold st_bind. specialize (Hm s).
  destruct (m s) as [s1 [a|e]]; simpl in *; [|done].
  eapply same_identity_trans; [done | apply Hk].
Qed.

Lemma keeps_identity_try_except {A} (body : stm loader_state A) caught handler :
  keeps_identity body -> (forall e, keeps_identity (handler e)) ->
  keeps_identity (try_except body caught handler).
Proof.
  intros Hm Hk s. unfold try_except. specialize (Hm s).
  destruct (body s) as [s1 [a|e]]; simpl in *; [done|].
  destruct (caught e); simpl; [|done].
  eapply same_identity_trans; [done | apply Hk].
Qed.

Lemma keeps_identity_try_finally {A} (body : stm loader_state A) cleanup :
  keeps_identity body -> keeps_identity cleanup ->
  keeps_identity (try_finally body cleanup).
Proof.
  intros Hm Hk s. unfold try_finally. specialize (Hm s).
  destruct (body s) as [s1 r]. specialize (Hk s1).
  destruct (cleanup s1) as [s2 [[]|e]]; simpl in *;
    by eapply same_identity_trans.
Qed.
End keeps_identity.

Ltac solve_keeps_identity :=
  repeat first
    [ apply keeps_identity_ret
    | apply keeps_identity_lift
    | apply keeps_identity_chdir
    | apply keeps_identity_run_command
    | apply keeps_identity_set_resources
    | apply keeps_identity_set_outputs
    | apply keeps_identity_try_except
    | apply keeps_identity_try_finally
    | apply keeps_identity_bind
    | match goal with
      | |- keeps_identity (if ?b then _ else _) => destruct b
      | |- forall _, keeps_identity _ => intro
      end ].

Lemma load_keeps_identity os_chdir subprocess_run json_loads (base : string) :
  keeps_identity (load_terraform_state os_chdir subprocess_run json_loads base).
Proof.
  intros s. unfold load_terraform_state.
  destruct (Workspace.has_state (ls_workspace s)); simpl; [|apply same_identity_refl].
  assert (keeps_identity
            (try_finally
               (try_except (load_body os_chdir subprocess_run json_loads (ls_workspace s))
                  (exn_in [CalledProcessError; JSONDecodeError; FileNotFoundError])
                  (fun _ => st_ret false))
               (chdir os_chdir base))) as H
    by (unfold load_body; solve_keeps_identity).
  apply H.
Qed.

(** After a successful change of directory, the body of the [try] runs
    [terraform show -json] and then [terraform output -json]. *)
Lemma load_body_runs os_chdir subprocess_run json_loads (ws : TerraformWorkspace)
    (s : loader_state) :
  os_chdir (ls_world s) (Workspace.path ws) = Ok tt ->
  exists done_argvs,
    ls_world (load_body os_chdir subprocess_run json_loads ws s).1
    = World (Workspace.path ws)
            (invoked (ls_world s) ++ ((fun a => (Workspace.path ws, a)) <$> done_argvs))
    /\ done_argvs `prefix_of` [["terraform"; "show"; "-json"]; ["terraform"; "output"; "-json"]]
    /\ (forall a, (load_body os_chdir subprocess_run json_loads ws s).2 = Ok a ->
        a = true /\ length done_argvs = 2).
Proof.
  intros Hfirst. unfold load_body.
  match goal with
  | |- context [st_bind (chdir _ _) ?k] => set (rest := k tt)
  end.
  assert (runs ([["terraform"; "show"; "-json"]] ++ [["terraform"; "output"; "-json"]]) rest)
    as Hruns.
  { subst rest. cbv beta. apply runs_bind; [apply runs_run_command|]. intros stdout.
    apply (runs_bind [] _); [apply runs_lift|]. intros state_data.
    apply (runs_bind [] _); [apply runs_lift|]. intros has_values.
    apply (runs_bind [] _); [destruct has_values; [apply runs_lift | apply runs_ret]|].
    intros has_root.
    apply (runs_bind [] _).
    { destruct has_root; [|apply runs_ret].
      apply (runs_bind [] []); [apply runs_lift|]. intros rs. apply runs_on_workspace. }
    intros _.
    apply (runs_bind [["terraform"; "output"; "-json"]] []);
      [apply runs_output_block|]. intros _. apply runs_ret. }
  assert (forall a, (rest (LoaderState (World (Workspace.path ws) (invoked (ls_world s)))
                                       (ls_workspace s))).2 = Ok a -> a = true) as Htrue.
  { subst rest. cbv beta. intros a. unfold st_bind, st_ret.
    repeat (match goal with
            | |- context [match ?x with _ => _ end] => destruct x; simpl
            end); congruence. }
  unfold st_bind, chdir. rewrite Hfirst. simpl.
  destruct (Hruns (LoaderState (World (Workspace.path ws) (invoked (ls_world s)))
                               (ls_workspace s))) as (d & Hw & Hp & Hfull).
  exists d. split; [done|]. split; [done|].
  intros a Ha. split; [by apply Htrue|]. by rewrite (Hfull a Ha).
Qed.

Lemma try_except_result {S A} (body : stm S A) caught (a b : A) (s : S) :
  a <> b ->
  (try_except body caught (fun _ => st_ret a) s).2 = Ok b -> (body s).2 = Ok b.
Proof.
  unfold try_except. destruct (body s) as [s1 [x|e]]; [done|].
  destruct (caught e); simpl; congruence.
Qed.

(** The [finally] block changes neither the list of commands run nor a
    result [True] into anything else. *)
Lemma load_through_body os_chdir subprocess_run json_loads (base : string)
    (ws : TerraformWorkspace) (w : world) :
  Workspace.has_state ws = true ->
  let out := load_terraform_state os_chdir subprocess_run json_loads base
               (LoaderState w ws) in
  let body := load_body os_chdir subprocess_run json_loads ws (LoaderState w ws) in
  invoked (ls_world out.1) = invoked (ls_world body.1)
  /\ (out.2 = Ok true -> body.2 = Ok true).
Proof.
  intros Hstate out body. subst out body.
  unfold load_terraform_state. simpl. rewrite Hstate. simpl. unfold try_finally.
  pose proof (try_except_state
                (load_body os_chdir subprocess_run json_loads ws)
                (exn_in [CalledProcessError; JSONDecodeError; FileNotFoundError])
                false (LoaderState w ws)) as Hst.
  pose proof (try_except_result
                (load_body os_chdir subprocess_run json_loads ws)
                (exn_in [CalledProcessError; JSONDecodeError; FileNotFoundError])
                false true (LoaderState w ws)) as Hr.
  destruct (try_except _ _ _ _) as [s1 r]. simpl in *. subst s1.
  unfold chdir. destruct (os_chdir _ base) as [[]|e]; simpl.
  - split; [done|]. intros ->. by apply Hr.
  - split; done.
Qed.

(** X7.  What a load does to the world and to the workspace, on every
    outcome.  The workspace keeps its path, name and state flag.  Without
    local state no command is run.  With local state, when
    [os.chdir(workspace.path)] raises no command is run either; when it
    succeeds the commands run are [terraform show -json] alone or followed
    by [terraform output -json], each in the workspace directory.  The call
    returns [True] only after both have been run. *)
Theorem load_commands_and_identity os_chdir subprocess_run json_loads (base : string)
    (ws : TerraformWorkspace) (w : world) :
  let out := load_terraform_state os_chdir subprocess_run json_loads base (LoaderState w ws) in
  let show := ["terraform"; "show"; "-json"] in
  let output := ["terraform"; "output"; "-json"] in
  same_identity ws (ls_workspace out.1)
  /\ exists argvs,
       invoked (ls_world out.1)
       = invoked w ++ ((fun a => (Workspace.path ws, a)) <$> argvs)
       /\ (if Workspace.has_state ws
           then match os_chdir w (Workspace.path ws) with
                | Ok _ => argvs = [show] \/ argvs = [show; output]
                | Raise _ => argvs = []
                end
           else argvs = [])
       /\ (out.2 = Ok true -> argvs = [show; output]).
Proof.
  intros out show output. split.
  { apply (load_keeps_identity os_chdir subprocess_run json_loads base (LoaderState w ws)). }
  destruct (Workspace.has_state ws) eqn:Hstate.
  - destruct (load_through_body os_chdir subprocess_run json_loads base ws w Hstate)
      as [Hworld Hres].
    fold out in Hworld, Hres.
    pose proof (load_body_world os_chdir subprocess_run json_loads ws (LoaderState w ws))
      as Hbody.
    pose proof (load_body_runs os_chdir subprocess_run json_loads ws (LoaderState w ws))
      as Hruns.
    simpl in Hbody, Hruns.
    destruct (os_chdir w (Workspace.path ws)) as [[]|e].
    + destruct Hbody as (_ & more & Hmore & _).
      destruct (Hruns eq_refl) as (d & Hw & Hp & Hfull).
      exists d. rewrite Hworld, Hw. simpl. split; [done|].
      assert (d <> []) as Hne.
      { intros ->. rewrite Hw in Hmore. simpl in Hmore.
        rewrite app_nil_r in Hmore. apply (f_equal length) in Hmore.
        rewrite length_app in Hmore. simpl in Hmore. lia. }
      destruct Hp as [k Hk].
      destruct d as [|x [|y [|z d]]]; simpl in Hk; simplify_eq; simpl in *.
      * split; [by left|]. intros Hok. apply Hres, Hfull in Hok as [_ Hlen]. done.
      * split; [by right | done].
    + exists []. rewrite Hworld, Hbody. simpl. rewrite app_nil_r.
      split; [done|]. split; [done|]. intros Hok%Hres. by rewrite Hbody in Hok.
  - subst out. rewrite (load_without_state _ _ _ _ _ _ Hstate). simpl.
    exists []. by rewrite app_nil_r.
Qed.

(** ** The loading loop *)

Lemma load_all_identity os_chdir subprocess_run json_loads (base : string)
    (wss : list (string * TerraformWorkspace)) :
  forall n w w' wss' r,
    load_all os_chdir subprocess_run json_loads base wss n w = (w', wss', r) ->
    Forall2 (fun a b => same_identity a.2 b.2) wss wss'.
Proof.
  induction wss as [|[k0 ws0] wss IH]; intros n w w' wss' r; simpl.
  - intros [= <- <- <-]. constructor.
  - pose proof (load_keeps_identity os_chdir subprocess_run json_loads base (LoaderState w ws0)) as Hid.
    destruct (load_terraform_state _ _ _ _ _) as [s1 [loaded|e]]; simpl in Hid.
    + destruct (load_all _ _ _ _ _ _ _) as [[w2 rest'] r'] eqn:Hrest.
      intros [= <- <- <-]. constructor; [done | by eapply IH].
    + intros [= <- <- <-]. constructor; [done|].
      apply Forall2_same_length_lookup. split; [done|].
      intros i a b Ha Hb. assert (a = b) as -> by congruence.
      apply same_identity_refl.
Qed.

(** X8.  The loading loop keeps the workspace dict in shape: same keys in
    the same order, every workspace with the path, name and state flag that
    discovery gave it; workspaces without state are untouched; and the
    count of loaded workspaces never exceeds the number of workspaces with
    local state. *)
Theorem load_all_shape os_chdir subprocess_run json_loads (base : string)
    (wss : list (string * TerraformWorkspace)) :
  forall n w w' wss' r,
    load_all os_chdir subprocess_run json_loads base wss n w = (w', wss', r) ->
    wss'.*1 = wss.*1
    /\ Forall2 (fun a b => same_identity a.2 b.2) wss wss'
    /\ (forall i k ws, wss !! i = Some (k, ws) -> Workspace.has_state ws = false ->
                       wss' !! i = Some (k, ws))
    /\ (forall m, r = Ok m ->
          n <= m <= n + length (filter (fun kv => Workspace.has_state kv.2 = true) wss)).
Proof.
  induction wss as [|[k0 ws0] wss IH]; intros n w w' wss' r; simpl.
  - intros [= <- <- <-]. split; [done|]. split; [constructor|]. split; [done|].
    intros m [= <-]. simpl. lia.
  - pose proof (load_keeps_identity os_chdir subprocess_run json_loads base (LoaderState w ws0)) as Hid.
    pose proof (load_without_state os_chdir subprocess_run json_loads base ws0 w) as Hskip.
    destruct (load_terraform_state _ _ _ _ _) as [s1 [loaded|e]] eqn:Hload; simpl in Hid.
    + destruct (load_all _ _ _ _ _ _ _) as [[w2 rest'] r'] eqn:Hrest.
      intros [= <- <- <-].
      destruct (IH _ _ _ _ _ Hrest) as (Hkeys & Hids & Hkeep & Hcount).
      split; [csimpl; by rewrite Hkeys|]. split; [by constructor|]. split.
      * intros [|i] k ws; simpl; [|apply Hkeep].
        intros [= -> ->] Hstate. specialize (Hskip Hstate). by simplify_eq.
      * intros m ->. specialize (Hcount m eq_refl).
        destruct (Workspace.has_state ws0) eqn:Hstate.
        -- rewrite filter_cons_True by done. simpl. destruct loaded; lia.
        -- rewrite filter_cons_False by (simpl; congruence).
           specialize (Hskip eq_refl). simplify_eq. lia.
    + intros [= <- <- <-]. split; [done|]. split.
      { constructor; [done|]. apply Forall2_same_length_lookup. split; [done|].
        intros i a b Ha Hb. assert (a = b) as -> by congruence.
        apply same_identity_refl. }
      split; [|done].
      intros [|i] k ws; simpl; [|done].
      intros [= -> ->] Hstate. specialize (Hskip Hstate). by simplify_eq.
Qed.

(** ** The analysis run *)

Lemma find_nothing_iff (walk : list walk_entry) :
  find_terraform_workspaces walk = [] <->
  Forall (fun e => is_workspace_dir (we_files e) = false) walk.
Proof.
  unfold find_terraform_workspaces. split.
  - intros Hnil. apply Forall_forall. intros e He.
    destruct (is_workspace_dir (we_files e)) eqn:Hq; [|done].
    pose proof (find_loop_keys_grow walk [] (we_relative e)
                  (or_intror (ex_intro _ e (conj He (conj Hq eq_refl))))) as Hkey.
    rewrite Hnil in Hkey. by apply elem_of_nil in Hkey.
  - intros Hnone.
    destruct (find_loop_invariant walk []
                (fun _ _ => exists e, e ∈ walk /\ is_workspace_dir (we_files e) = true))
      as [_ Hfrom].
    { constructor. }
    { intros k ws H. by apply elem_of_nil in H. }
    { intros e He Hq. by exists e. }
    destruct (fold_left _ walk []) as [|[k ws] found]; [done|].
    destruct (Hfrom k ws) as (e & He & Hq); [apply elem_of_cons; by left|].
    rewrite Forall_forall in Hnone. rewrite (Hnone e He) in Hq. done.
Qed.

Lemma run_analysis_nothing os_chdir subprocess_run json_loads
    (walk : list walk_entry) (self : analyzer) (w : world) :
  find_terraform_workspaces walk = [] ->
  run_analysis os_chdir subprocess_run json_loads walk self w
  = (w, Analyzer (base_path self) [] (summary_data self), Ok false).
Proof. intros Hnone. unfold run_analysis. by rewrite Hnone. Qed.

Lemma run_analysis_false os_chdir subprocess_run json_loads
    (walk : list walk_entry) (self : analyzer) (w w' : world) (self' : analyzer) :
  run_analysis os_chdir subprocess_run json_loads walk self w = (w', self', Ok false) ->
  find_terraform_workspaces walk = [].
Proof.
  intros Hrun. unfold run_analysis in Hrun.
  destruct (find_terraform_workspaces walk) as [|kv found]; [done|]. exfalso.
  change (negb (nonempty (kv :: found))) with false in Hrun. cbv iota in Hrun.
  destruct (load_all _ _ _ _ _ _ _) as [[w1 wss] [n|e]]; [|done].
  destruct (summarize_all _ _) as [data [[]|e]]; simpl in Hrun; congruence.
Qed.

(** X9.  [run_analysis] returns [False] exactly when no walked directory
    has a [.tf] file; then it has run no command, left the working
    directory and the summary mapping alone, and holds no workspace. *)
Theorem run_analysis_without_workspaces os_chdir subprocess_run json_loads
    (walk : list walk_entry) (self : analyzer) (w : world) :
  (Forall (fun e => is_workspace_dir (we_files e) = false) walk ->
   run_analysis os_chdir subprocess_run json_loads walk self w
   = (w, Analyzer (base_path self) [] (summary_data self), Ok false))
  /\ (forall w' self',
        run_analysis os_chdir subprocess_run json_loads walk self w = (w', self', Ok false) ->
        Forall (fun e => is_workspace_dir (we_files e) = false) walk).
Proof.
  split.
  - intros Hnone%find_nothing_iff. by apply run_analysis_nothing.
  - intros w' self' Hrun. eapply find_nothing_iff, run_analysis_false, Hrun.
Qed.

(** A loading loop that runs to its end is in the scan root as soon as
    one workspace has local state, and where it started otherwise. *)
Lemma load_all_cwd os_chdir subprocess_run json_loads (base : string)
    (wss : list (string * TerraformWorkspace)) :
  forall n w w' wss' r,
    load_all os_chdir subprocess_run json_loads base wss n w = (w', wss', r) ->
    (Forall (fun kv => Workspace.has_state kv.2 = false) wss -> w' = w)
    /\ (forall m, r = Ok m -> cwd w = base -> cwd w' = base)
    /\ (forall m, r = Ok m ->
          Exists (fun kv => Workspace.has_state kv.2 = true) wss -> cwd w' = base).
Proof.
  induction wss as [|[k0 ws0] wss IH]; intros n w w' wss' r; simpl.
  - intros [= <- <- <-]. split; [done|]. split; [done|].
    intros m _ H. by apply Exists_nil in H.
  - pose proof (load_without_state os_chdir subprocess_run json_loads base ws0 w) as Hskip.
    pose proof (load_with_state_world os_chdir subprocess_run json_loads base ws0 w) as Hwith.
    destruct (load_terraform_state _ _ _ _ _) as [s1 [loaded|e]] eqn:Hload; simpl in Hwith.
    + destruct (load_all _ _ _ _ _ _ _) as [[w2 rest'] r'] eqn:Hrest.
      intros [= <- <- <-].
      destruct (IH _ _ _ _ _ Hrest) as (Hsame & Hbase & Hexists).
      assert (Workspace.has_state ws0 = true -> cwd (ls_world s1) = base) as Hloaded.
      { intros Hstate. destruct (Hwith Hstate) as (_ & Hok & _). by apply (Hok loaded). }
      assert (cwd w = base -> cwd (ls_world s1) = base) as Hstep.
      { intros Hw. destruct (Workspace.has_state ws0) eqn:Hstate.
        - by apply Hloaded.
        - specialize (Hskip eq_refl). by simplify_eq. }
      split; [|split].
      * intros [Hstate Hrest']%Forall_cons. simpl in Hstate.
        specialize (Hskip Hstate). simplify_eq. simpl in Hsame. by apply Hsame.
      * intros m -> Hw. by apply (Hbase m), Hstep.
      * intros m -> [Hstate | Hlater]%Exists_cons.
        -- simpl in Hstate. apply (Hbase m); [done|]. by apply Hloaded.
        -- by apply (Hexists m).
    + intros [= <- <- <-]. split; [|split; done].
      intros [Hstate _]%Forall_cons. simpl in Hstate. specialize (Hskip Hstate). done.
Qed.

(** X10.  Where a completed run leaves the process: in the scan root when
    at least one discovered workspace has local state, and in the directory
    it started in, with no command run, when none has. *)
Theorem run_analysis_working_directory os_chdir subprocess_run json_loads
    (walk : list walk_entry) (self : analyzer) (w w' : world) (self' : analyzer) :
  run_analysis os_chdir subprocess_run json_loads walk self w = (w', self', Ok true) ->
  (Exists (fun kv => Workspace.has_state kv.2 = true) (find_terraform_workspaces walk) ->
   cwd w' = base_path self)
  /\ (Forall (fun kv => Workspace.has_state kv.2 = false) (find_terraform_workspaces walk) ->
      w' = w).
Proof.
  intros Hrun. destruct (run_analysis_loads _ _ _ _ _ _ _ _ Hrun) as [n Hload].
  destruct (load_all_cwd _ _ _ _ _ _ _ _ _ _ Hload) as (Hsame & _ & Hexists).
  split; [by apply (Hexists n) | done].
Qed.

(** ** The summary mapping *)

Lemma summarize_all_invariant (wss : list TerraformWorkspace) :
  forall d0 data r,
    summarize_all wss d0 = (data, r) ->
    NoDup d0.*1 ->
    NoDup data.*1
    /\ (forall k s, (k, s) ∈ data ->
          (k, s) ∈ d0
          \/ exists ws, ws ∈ wss /\ Workspace.name ws = k
                        /\ generate_workspace_summary ws = Ok s)
    /\ (forall k, k ∈ d0.*1 -> k ∈ data.*1)
    /\ (r = Ok tt -> forall ws, ws ∈ wss -> Workspace.name ws ∈ data.*1).
Proof.
  induction wss as [|ws wss IH]; intros d0 data r; simpl.
  - intros [= <- <-] Hnd. split; [done|]. split; [by left|]. split; [done|].
    intros _ ws H. by apply elem_of_nil in H.
  - destruct (generate_workspace_summary ws) as [s|e] eqn:Hs.
    + intros Hrest Hnd.
      destruct (IH _ _ _ Hrest (od_set_NoDup _ s _ Hnd)) as (Hnd' & Hfrom & Hkeep & Hall).
      assert (forall k, k ∈ d0.*1 \/ k = Workspace.name ws ->
                        k ∈ (od_set (Workspace.name ws) s d0).*1) as Hset.
      { intros k Hk. rewrite od_set_keys. case_decide as Hin.
        - destruct Hk as [?| ->]; done.
        - apply elem_of_app. destruct Hk as [?| ->]; [by left|].
          right. by apply list_elem_of_singleton. }
      split; [done|]. split; [|split].
      * intros k s' [[Hold | [-> ->]]%elem_of_od_set_key | (ws' & Hin & Hk & Hgen)]%Hfrom.
        -- by left.
        -- right. exists ws. split; [apply elem_of_cons; by left | done].
        -- right. exists ws'. split; [apply elem_of_cons; by right | done].
      * intros k Hk. apply Hkeep, Hset. by left.
      * intros Hr ws' [-> | Hin]%elem_of_cons; [|by apply Hall].
        apply Hkeep, Hset. by right.
    + intros [= <- <-] Hnd. split; [done|]. split; [by left|]. split; [done|]. done.
Qed.

Lemma summarize_all_distinct (wss : list TerraformWorkspace) :
  forall d0 data,
    summarize_all wss d0 = (data, Ok tt) ->
    NoDup (d0.*1 ++ (Workspace.name <$> wss)) ->
    exists ss,
      Forall2 (fun ws s => generate_workspace_summary ws = Ok s) wss ss
      /\ data = d0 ++ zip (Workspace.name <$> wss) ss.
Proof.
  induction wss as [|ws wss IH]; intros d0 data; csimpl.
  - intros [= <-] _. exists []. split; [constructor | by rewrite app_nil_r].
  - destruct (generate_workspace_summary ws) as [s|e] eqn:Hs; [|done].
    intros Hrest Hnd.
    assert (Workspace.name ws ∉ d0.*1) as Hfresh.
    { rewrite <- Permutation_middle in Hnd. apply NoDup_cons in Hnd as [Hnot _].
      intros Hin. apply Hnot, elem_of_app. by left. }
    rewrite od_set_fresh in Hrest by done.
    destruct (IH _ _ Hrest) as (ss & Hss & ->).
    { rewrite fmap_app, <- app_assoc. done. }
    exists (s :: ss). split; [by constructor|]. by rewrite <- app_assoc.
Qed.

Lemma summarize_all_keys (wss : list TerraformWorkspace)
    (data : list (string * Summary.t)) :
  summarize_all wss [] = (data, Ok tt) ->
  NoDup data.*1 /\ (forall k, k ∈ data.*1 <-> k ∈ Workspace.name <$> wss).
Proof.
  intros Hsum.
  destruct (summarize_all_invariant wss [] data (Ok tt) Hsum) as (Hnd & Hfrom & _ & Hall).
  { constructor. }
  split; [done|]. intros k. split.
  - intros ([k' s] & -> & Hin)%list_elem_of_fmap.
    destruct (Hfrom _ _ Hin) as [H | (ws & Hws & Hk & _)]; [by apply elem_of_nil in H|].
    apply list_elem_of_fmap. by exists ws.
  - intros (ws & -> & Hin)%list_elem_of_fmap. by apply Hall.
Qed.

Lemma summarize_all_in_order (wss : list TerraformWorkspace)
    (data : list (string * Summary.t)) :
  summarize_all wss [] = (data, Ok tt) ->
  NoDup (Workspace.name <$> wss) ->
  data.*1 = Workspace.name <$> wss
  /\ Forall2 (fun ws kv => generate_workspace_summary ws = Ok kv.2) wss data.
Proof.
  intros Hsum Hnames.
  destruct (summarize_all_distinct wss [] data Hsum Hnames) as (ss & Hss & ->). simpl.
  assert (length (Workspace.name <$> wss) = length ss) as Hlen
    by (rewrite length_fmap; by eapply Forall2_length).
  split; [by apply fst_zip; lia|].
  clear -Hss. induction Hss as [|ws s wss ss Hs _ IH]; csimpl; by constructor.
Qed.

(** X11.  The summary mapping after a summary loop that started from an
    empty mapping and ran to its end: its keys are pairwise distinct and
    are exactly the workspace names; every entry is the summary of a
    workspace of that name; and when no two workspaces share a name, the
    entries are the summaries of the workspaces, one each, in workspace
    order. *)
Theorem summary_mapping_spec (wss : list TerraformWorkspace)
    (data : list (string * Summary.t)) :
  summarize_all wss [] = (data, Ok tt) ->
  NoDup data.*1
  /\ (forall k, k ∈ data.*1 <-> k ∈ Workspace.name <$> wss)
  /\ (forall k s, (k, s) ∈ data ->
        exists ws, ws ∈ wss /\ Workspace.name ws = k
                   /\ generate_workspace_summary ws = Ok s)
  /\ length data <= length wss
  /\ (NoDup (Workspace.name <$> wss) ->
      data.*1 = Workspace.name <$> wss
      /\ Forall2 (fun ws kv => generate_workspace_summary ws = Ok kv.2) wss data).
Proof.
  intros Hsum.
  destruct (summarize_all_invariant wss [] data (Ok tt) Hsum) as (_ & Hfrom & _).
  { constructor. }
  destruct (summarize_all_keys wss data Hsum) as [Hnd Hkeys].
  split; [done|]. split; [done|]. split; [|split].
  - intros k s [H | H]%Hfrom; [by apply elem_of_nil in H | done].
  - rewrite <- (length_fmap fst data), <- (length_fmap Workspace.name wss).
    apply submseteq_length, NoDup_submseteq; [done|]. intros k. apply Hkeys.
  - by apply summarize_all_in_order.
Qed.

(** ** Summaries and totals *)

Lemma od_get_cons {V} (k k0 : string) (v0 : V) (d : list (string * V)) :
  od_get k ((k0, v0) :: d) = if String.eqb k0 k then Some v0 else od_get k d.
Proof. unfold od_get. simpl. by destruct (String.eqb k0 k). Qed.

Lemma od_get_None {V} (k : string) (d : list (string * V)) :
  k ∉ d.*1 -> od_get k d = None.
Proof.
  induction d as [|[k' v'] d IH]; csimpl; [done|].
  intros [Hne Hk]%not_elem_of_cons. apply not_eq_sym, String.eqb_neq in Hne.
  rewrite od_get_cons, Hne. by apply IH.
Qed.

(** Reading a count back from the sparse mapping of non-empty lists. *)
Lemma od_get_counts {K} (k : string) (items : list (string * list K)) :
  NoDup items.*1 ->
  od_get k ((fun kv : string * list K => (kv.1, length kv.2)) <$>
            filter (fun kv => nonempty kv.2 = true) items)
  = match od_get k items with
    | Some l => if nonempty l then Some (length l) else None
    | None => None
    end.
Proof.
  induction items as [|[k0 l0] items IH]; csimpl; [done|].
  intros [Hfresh Hnd]%NoDup_cons. specialize (IH Hnd).
  rewrite od_get_cons. destruct l0 as [|x l0].
  - rewrite filter_cons_False by done. rewrite IH.
    destruct (String.eqb k0 k) eqn:E; [|done]. apply String.eqb_eq in E as ->.
    by rewrite (od_get_None k items Hfresh).
  - rewrite filter_cons_True by done. csimpl. rewrite od_get_cons. simpl.
    destruct (String.eqb k0 k); [done | apply IH].
Qed.

Lemma cat_items_keys (c : categories) :
  (cat_items c).*1 = category_key <$> all_categories.
Proof. done. Qed.

Lemma od_get_cat_items (c : categories) (k : category) :
  od_get (category_key k) (cat_items c) = Some (cat_get c k).
Proof. by destruct k. Qed.

Lemma count_of_length (c : categories) (k : category) :
  count_of (category_key k) (category_counts c) = length (cat_get c k).
Proof.
  unfold count_of, category_counts. rewrite od_get_counts.
  - rewrite od_get_cat_items. by destruct (cat_get c k).
  - rewrite cat_items_keys. by apply (bool_decide_unpack _).
Qed.

(** X12.  The sparse [categories] mapping of a summary loses nothing: for
    each of the ten categories, [categories.get(key, 0)] is the length of
    the classifier's list for that key, a missing key standing for an empty
    list. *)
Theorem count_of_category_counts (c : categories) (k : category) :
  count_of (category_key k) (category_counts c) = length (cat_get c k)
  /\ (od_get (category_key k) (category_counts c) = None <-> cat_get c k = []).
Proof.
  unfold count_of, category_counts. rewrite od_get_counts.
  - rewrite od_get_cat_items. destruct (cat_get c k) as [|x l]; simpl; by split.
  - rewrite cat_items_keys. by apply (bool_decide_unpack _).
Qed.

Lemma categorize_rejects_str (k : string) (rs : list json) :
  categorize_keycloak_resources (JStr k :: rs) = Raise AttributeError.
Proof. done. Qed.

(** The two shapes of a returned summary. *)
Lemma generate_inversion (ws : TerraformWorkspace) (s : Summary.t) :
  generate_workspace_summary ws = Ok s ->
  (py_truthy (Workspace.resources ws) = false /\ s = no_resources_summary ws)
  \/ (exists r rs cats us re cl ip,
        Workspace.resources ws = JList (r :: rs)
        /\ categorize_keycloak_resources (r :: rs) = Ok cats
        /\ when_nonempty (users cats) analyze_user_security = Ok us
        /\ when_nonempty (realms cats) (comprehension realm_projection) = Ok re
        /\ when_nonempty (clients cats) (comprehension client_projection) = Ok cl
        /\ when_nonempty (identity_providers cats) (comprehension idp_projection) = Ok ip
        /\ s = Summary.Make (Workspace.name ws) (Workspace.path ws)
                 (Workspace.has_state ws) (S (length rs)) (category_counts cats) None
                 (Some (DetailedAnalysis us re cl ip)) (Some (Workspace.outputs ws))).
Proof.
  unfold generate_workspace_summary, generate_workspace_summary_with.
  destruct (py_truthy (Workspace.resources ws)) eqn:Htruthy; simpl.
  - intros H. right.
    apply bind_Ok in H as (l & Hl & H). apply bind_Ok in H as (cats & Hc & H).
    apply bind_Ok in H as (n & Hn & H). apply bind_Ok in H as (us & Hus & H).
    apply bind_Ok in H as (re & Hre & H). apply bind_Ok in H as (cl & Hcl & H).
    apply bind_Ok in H as (ip & Hip & H). injection H as <-.
    destruct (Workspace.resources ws) as [| | | |str|l'|m]; try done; simpl in *.
    + injection Hl as <-. destruct str as [|a str]; [done|]. simpl in Hc.
      by rewrite categorize_rejects_str in Hc.
    + injection Hl as <-. injection Hn as <-. destruct l' as [|r rs]; [done|].
      by exists r, rs, cats, us, re, cl, ip.
    + injection Hl as <-. destruct (map_to_list m) as [|[k v] kvs] eqn:Hm.
      * apply map_to_list_empty_iff in Hm as ->. done.
      * csimpl in Hc. by rewrite categorize_rejects_str in Hc.
  - intros [= <-]. by left.
Qed.

Lemma when_nonempty_Some {A B} (l : list A) (f : list A -> result B) (o : option B) :
  when_nonempty l f = Ok o -> (is_Some o <-> 0 < length l).
Proof.
  unfold when_nonempty. destruct l as [|x l]; simpl.
  - intros [= <-]. split; [by intros [? ?] | lia].
  - intros (v & _ & [= <-])%bind_Ok. split; [lia | eauto].
Qed.

Lemma category_counts_positive (c : categories) :
  Forall (fun kv => 0 < kv.2) (category_counts c).
Proof.
  unfold category_counts. apply Forall_fmap, Forall_forall.
  intros [k l] [Hne _]%list_elem_of_filter. simpl in *. destruct l; [done | simpl; lia].
Qed.

Lemma category_counts_keys (c : categories) :
  (category_counts c).*1 `sublist_of` (category_key <$> all_categories).
Proof.
  unfold category_counts. rewrite <- list_fmap_compose, <- (cat_items_keys c).
  apply (fmap_sublist fst), sublist_filter.
Qed.

Lemma summary_has_state (ws : TerraformWorkspace) (s : Summary.t) :
  generate_workspace_summary ws = Ok s ->
  Summary.has_state s = Workspace.has_state ws.
Proof.
  intros Hs. apply generate_inversion in Hs
    as [[_ ->] | (r & rs & cats & us & re & cl & ip & _ & _ & _ & _ & _ & _ & ->)]; done.
Qed.

(** X13.  What every returned summary satisfies.  It carries the name,
    path and state flag of its workspace.  It is the no-resources record
    exactly when its [resource_count] is zero: then, and only then, it has
    the [error] key and no categories, and lacks [detailed_analysis] and
    [outputs].  Every count it records is positive (so the [count > 0] test
    of the complete view filters nothing), and the keys come in the order
    of the classifier's dict.  A detail section is present exactly when the
    count of its category is positive. *)
Theorem summary_invariants (ws : TerraformWorkspace) (s : Summary.t) :
  generate_workspace_summary ws = Ok s ->
  (Summary.name s = Workspace.name ws
   /\ Summary.path s = Workspace.path ws
   /\ Summary.has_state s = Workspace.has_state ws)
  /\ (Summary.resource_count s = 0 <-> s = no_resources_summary ws)
  /\ (Summary.resource_count s = 0 <-> Summary.categories s = [])
  /\ (Summary.resource_count s = 0 <-> is_Some (Summary.error s))
  /\ (0 < Summary.resource_count s <->
      is_Some (Summary.detailed_analysis s)
      /\ Summary.outputs s = Some (Workspace.outputs ws))
  /\ Forall (fun kv => 0 < kv.2) (Summary.categories s)
  /\ (Summary.categories s).*1 `sublist_of` (category_key <$> all_categories)
  /\ (forall da,
        Summary.detailed_analysis s = Some da ->
        (is_Some (user_security da) <-> 0 < count_of "users" (Summary.categories s))
        /\ (is_Some (realm_details da) <-> 0 < count_of "realms" (Summary.categories s))
        /\ (is_Some (client_details da) <-> 0 < count_of "clients" (Summary.categories s))
        /\ (is_Some (identity_provider_details da)
            <-> 0 < count_of "identity_providers" (Summary.categories s))).
Proof.
  intros Hs. pose proof (summary_counts_sum ws s Hs) as Hsum.
  apply generate_inversion in Hs
    as [[_ ->] | (r & rs & cats & us & re & cl & ip & _ & _ & Hus & Hre & Hcl & Hip & ->)].
  - simpl. split; [done|]. split; [done|]. split; [done|].
    split; [split; eauto|].
    split; [split; [lia | by intros [[? ?] _]]|].
    split; [constructor|]. split; [apply sublist_nil_l | done].
  - cbn -[category_counts count_of] in *.
    split; [done|]. split; [split; [lia | by intros [=]]|].
    split.
    { split; [lia|]. intros Hnil. rewrite Hnil in Hsum. done. }
    split; [split; [lia | by intros [? ?]]|].
    split; [split; [eauto | lia]|].
    split; [apply category_counts_positive|].
    split; [apply category_counts_keys|].
    intros da [= <-]. cbn -[category_counts count_of].
    pose proof (count_of_length cats Users) as HU.
    pose proof (count_of_length cats Realms) as HR.
    pose proof (count_of_length cats Clients) as HC.
    pose proof (count_of_length cats IdentityProviders) as HI.
    cbn [category_key cat_get] in HU, HR, HC, HI. rewrite HU, HR, HC, HI.
    split; [by eapply when_nonempty_Some|]. split; [by eapply when_nonempty_Some|].
    split; by eapply when_nonempty_Some.
Qed.

Lemma summary_detail_counts_le (ws : TerraformWorkspace) (s : Summary.t) :
  generate_workspace_summary ws = Ok s ->
  count_of "realms" (Summary.categories s) + count_of "users" (Summary.categories s)
  + count_of "clients" (Summary.categories s)
  + count_of "identity_providers" (Summary.categories s)
  <= Summary.resource_count s.
Proof.
  intros Hs. apply generate_inversion in Hs
    as [[_ ->] | (r & rs & cats & us & re & cl & ip & _ & Hcats & _ & _ & _ & _ & ->)].
  - done.
  - cbn -[category_counts count_of].
    pose proof (count_of_length cats Users) as HU.
    pose proof (count_of_length cats Realms) as HR.
    pose proof (count_of_length cats Clients) as HC.
    pose proof (count_of_length cats IdentityProviders) as HI.
    cbn [category_key cat_get] in HU, HR, HC, HI. rewrite HU, HR, HC, HI.
    pose proof (category_lengths_sum _ _ Hcats) as Hsum. simpl in Hsum. lia.
Qed.

Lemma overview_fold (summaries : list Summary.t) : forall t,
  let t' := fold_left add_to_overview summaries t in
  Overview.total_resources t'
  = Overview.total_resources t + sum_list (Summary.resource_count <$> summaries)
  /\ (Forall (fun s => exists ws, generate_workspace_summary ws = Ok s) summaries ->
      Overview.total_realms t + Overview.total_users t + Overview.total_clients t
      + Overview.total_idps t <= Overview.total_resources t ->
      Overview.total_realms t' + Overview.total_users t' + Overview.total_clients t'
      + Overview.total_idps t' <= Overview.total_resources t').
Proof.
  induction summaries as [|s summaries IH]; intros t; csimpl.
  - split; [lia | done].
  - destruct (IH (add_to_overview t s)) as [Hres Hle]. split.
    + rewrite Hres. simpl. lia.
    + intros [[ws Hs] Hrest]%Forall_cons Ht. apply Hle; [done|].
      pose proof (summary_detail_counts_le ws s Hs). cbn -[count_of]. lia.
Qed.

(** X14.  The totals of the overview and of the export agree with each
    other and with the summaries: the overview's resource total is the
    exported [total_resources]; the four category totals together never
    exceed it when every entry is a summary that
    [generate_workspace_summary] returned; and the number of workspaces
    with state never exceeds the number of workspaces. *)
Theorem totals_consistent (data : list (string * Summary.t)) :
  Forall (fun kv => exists ws, generate_workspace_summary ws = Ok kv.2) data ->
  let t := overview_totals data in
  let x := analysis_summary data in
  Overview.total_resources t = AnalysisSummary.total_resources x
  /\ Overview.total_realms t + Overview.total_users t + Overview.total_clients t
     + Overview.total_idps t <= Overview.total_resources t
  /\ AnalysisSummary.workspaces_with_state x <= AnalysisSummary.total_workspaces x.
Proof.
  intros Hgen t x. subst t x. unfold overview_totals.
  destruct (overview_fold data.*2 (Overview.Make 0 0 0 0 0)) as [Hres Hle].
  split; [by rewrite Hres|]. split.
  - apply Hle; [|simpl; lia]. by apply Forall_fmap.
  - simpl. rewrite sum_list_fmap_const, Nat.mul_1_r.
    rewrite <- (length_fmap snd data). apply length_filter.
Qed.

(** ** The user security analysis, in closed form *)

Lemma analyze_loop_closed (users : list json) : forall sa sa',
  for_each analyze_user_body sa users = Ok sa' ->
  exists vs,
    Forall2 (fun u v => values_of u = Some v /\ password_ok v = true) users vs
    /\ user_details sa' = user_details sa ++ (user_record <$> vs)
    /\ users_with_passwords sa'
       = users_with_passwords sa + length (filter (fun v => user_has_initial v = true) vs)
    /\ users_without_passwords sa'
       = users_without_passwords sa + length (filter (fun v => user_has_initial v = false) vs)
    /\ temporary_passwords sa'
       = temporary_passwords sa + length (filter (fun v => user_temporary v = true) vs)
    /\ enabled_users sa'
       = enabled_users sa + length (filter (fun v => user_enabled v = true) vs)
    /\ disabled_users sa'
       = disabled_users sa + length (filter (fun v => user_enabled v = false) vs).
Proof.
  induction users as [|u users IH]; intros sa sa' H; simpl in H.
  - injection H as <-. exists []. rewrite app_nil_r. simpl.
    repeat split; try lia. constructor.
  - apply bind_Ok in H as (sa1 & Hbody & Hrest).
    apply analyze_user_body_Ok in Hbody as (v & Hv & Hp & ->).
    destruct (IH _ _ Hrest) as (vs & Hvs & Hd & Hw & Hwo & Ht & He & Hdis).
    exists (v :: vs). split; [by constructor|].
    rewrite Hd, Hw, Hwo, Ht, He, Hdis. rewrite !filter_cons. simpl.
    rewrite <- app_assoc. split; [done|].
    destruct (user_has_initial v), (user_temporary v), (user_enabled v); simpl;
      repeat split; lia.
Qed.

(** X15.  [analyze_user_security] in closed form.  When it returns, every
    user is a record with analysable [values]; the detail list holds the
    record of each user, in input order, and each counter is the number of
    users with the corresponding property. *)
Theorem analyze_user_security_closed_form (users : list json) (sa : security_analysis) :
  analyze_user_security users = Ok sa ->
  exists vs,
    Forall2 (fun u v => values_of u = Some v /\ password_ok v = true) users vs
    /\ sa = {| total_users := length users;
               users_with_passwords :=
                 length (filter (fun v => user_has_initial v = true) vs);
               users_without_passwords :=
                 length (filter (fun v => user_has_initial v = false) vs);
               temporary_passwords :=
                 length (filter (fun v => user_temporary v = true) vs);
               enabled_users := length (filter (fun v => user_enabled v = true) vs);
               disabled_users := length (filter (fun v => user_enabled v = false) vs);
               users_requiring_password_change := 0;
               user_details := user_record <$> vs |}.
Proof.
  intros H. unfold analyze_user_security in H.
  destruct (analyze_loop_frame _ _ _ H) as (Ht & Hr & _).
  destruct (analyze_loop_closed _ _ _ H) as (vs & Hvs & Hd & Hw & Hwo & Htmp & He & Hdis).
  exists vs. split; [done|]. destruct sa. simpl in *. by subst.
Qed.

Lemma length_filter_split {A} (f : A -> bool) (l : list A) :
  length (filter (fun x => f x = true) l) + length (filter (fun x => f x = false) l)
  = length l.
Proof.
  induction l as [|x l IH]; [done|]. rewrite !filter_cons.
  destruct (f x); simpl; lia.
Qed.

Lemma length_filter_le {A} (f g : A -> bool) (l : list A) :
  (forall x, f x = true -> g x = true) ->
  length (filter (fun x => f x = true) l) <= length (filter (fun x => g x = true) l).
Proof.
  intros Hfg. induction l as [|x l IH]; [done|]. rewrite !filter_cons.
  destruct (f x) eqn:Hf; simpl.
  - rewrite (Hfg x Hf). simpl. lia.
  - destruct (g x); simpl; lia.
Qed.

Lemma analyze_user_security_lengths (users : list json) (sa : security_analysis) :
  analyze_user_security users = Ok sa ->
  total_users sa = length users /\ length (user_details sa) = length users.
Proof.
  intros H. unfold analyze_user_security in H.
  destruct (analyze_loop_frame _ _ _ H) as (Ht & _ & infos & Hd & Hl & _).
  simpl in *. by rewrite Ht, Hd.
Qed.

(** X16.  The counters of a returned aggregate are consistent:
    [total_users] is the number of users and of detail records; every user
    is counted once as with or without password and once as enabled or
    disabled; and no more temporary passwords are counted than passwords. *)
Theorem security_analysis_counts (users : list json) (sa : security_analysis) :
  analyze_user_security users = Ok sa ->
  total_users sa = length users
  /\ length (user_details sa) = total_users sa
  /\ users_with_passwords sa + users_without_passwords sa = total_users sa
  /\ enabled_users sa + disabled_users sa = total_users sa
  /\ temporary_passwords sa <= users_with_passwords sa.
Proof.
  intros H. unfold analyze_user_security in H.
  destruct (analyze_loop_frame _ _ _ H) as (Ht & _).
  destruct (analyze_loop_closed _ _ _ H) as (vs & Hvs & Hd & Hw & Hwo & Htmp & He & Hdis).
  simpl in *. apply Forall2_length in Hvs.
  rewrite Ht, Hd, Hw, Hwo, Htmp, He, Hdis.
  rewrite length_fmap, !length_filter_split.
  repeat split; try done.
  apply length_filter_le. intros v. unfold user_temporary, user_has_initial.
  destruct (v !! "initial_password"); [|done]. intros _. apply bool_decide_eq_true_2. eauto.
Qed.

(** ** The command line *)


Section main_properties.
Context (os_chdir : world -> string -> result unit)
        (subprocess_run : world -> list string -> result string)
        (json_loads : string -> result json)
        (rich_available : bool)
        (resolve : string -> string -> string).

Abbreviation main_of := (main os_chdir subprocess_run json_loads rich_available resolve).
Abbreviation fresh_analyzer args w := (Analyzer (resolve (cwd w) (arg_path args)) [] []).

(** X17.  The [--filter] choices after a completed analysis (without
    [--detailed]): ["users"] and ["realms"] reach their views and ["all"]
    the complete view, while ["clients"], ["idp"] and ["auth"] end in
    [AttributeError], because the class has no method for them; then
    nothing is displayed and no export is written, although the analysis
    has run. *)
Theorem main_filter_choices (args : cli_args) (walk : list walk_entry)
    (w w1 : world) (self1 : analyzer) (f : string) :
  run_analysis os_chdir subprocess_run json_loads walk (fresh_analyzer args w) w
  = (w1, self1, Ok true) ->
  arg_detailed args = false ->
  arg_filter args = Some f ->
  (f = "users"%string ->
   exists res, main_of args walk w = (w1, self1, Ok res)
               /\ displayed res = Some UserAnalysis)
  /\ (f = "realms"%string ->
      exists res, main_of args walk w = (w1, self1, Ok res)
                  /\ displayed res = Some RealmAnalysis)
  /\ (f = "all"%string ->
      exists res, main_of args walk w = (w1, self1, Ok res)
                  /\ displayed res = Some CompleteAnalysis)
  /\ (f = "clients"%string \/ f = "idp"%string \/ f = "auth"%string ->
      main_of args walk w = (w1, self1, Raise AttributeError)).
Proof.
  intros Hrun Hdet Hf. unfold main. rewrite Hrun, Hdet, Hf.
  repeat split.
  - intros ->. simpl. eauto.
  - intros ->. simpl. eauto.
  - intros ->. simpl. eauto.
  - by intros [-> | [-> | ->]].
Qed.

(** X18.  [--detailed] overrides [--filter]: with it, [main] does the same
    whatever the filter is, and after a completed analysis it shows the
    complete view, also for the filters that have no view of their own. *)
Theorem main_detailed_overrides_filter (path : string) (f f' : option string)
    (export : option string) (no_color : bool) (walk : list walk_entry) (w : world) :
  main_of (CliArgs path f true export no_color) walk w
  = main_of (CliArgs path f' true export no_color) walk w
  /\ (forall w1 self1 res,
        main_of (CliArgs path f true export no_color) walk w = (w1, self1, Ok res) ->
        exit_status res = 0 -> displayed res = Some CompleteAnalysis).
Proof.
  split; [done|]. unfold main. simpl.
  destruct (run_analysis _ _ _ _ _ _) as [[w1 self1] [[|]|e]]; intros w1' self1' res;
    [|by intros [= _ _ <-] | done].
  by intros [= _ _ <-].
Qed.

(** X19.  [--no-color] changes nothing: [main] has the same outcome with
    and without it, and the analyzer's console is a console made by
    [Console()] whenever [rich] is available and [None] otherwise. *)
Theorem main_ignores_no_color (path : string) (f : option string) (detailed : bool)
    (export : option string) (walk : list walk_entry) (w : world) :
  main_of (CliArgs path f detailed export true) walk w
  = main_of (CliArgs path f detailed export false) walk w
  /\ (forall no_color w1 self1 res,
        main_of (CliArgs path f detailed export no_color) walk w = (w1, self1, Ok res) ->
        used_console res = if rich_available then Some NewConsole else None).
Proof.
  split.
  - unfold main. simpl. by destruct rich_available.
  - intros no_color w1 self1 res. unfold main. simpl.
    assert (init_console rich_available
              (if rich_available && negb no_color then Some NewConsole else None)
            = if rich_available then Some NewConsole else None) as ->
      by (by destruct rich_available, no_color).
    destruct (run_analysis _ _ _ _ _ _) as [[w1' self1'] [[|]|e]]; [| |done].
    + destruct (if detailed then _ else _) as [v|e]; [|done]. by intros [= _ _ <-].
    + by intros [= _ _ <-].
Qed.

End main_properties.

(** * Instances of the further properties on the sample data *)

Lemma find_terraform_workspaces_spec_witness :
  find_terraform_workspaces demo_walk
  = [("prod"%string, prod_fresh); ("staging"%string, staging)].
Proof.
  destruct (find_terraform_workspaces_spec demo_walk) as (_ & _ & _ & Hdistinct).
  rewrite Hdistinct; [done|]. by apply (bool_decide_unpack _).
Defined.

Lemma load_success_witness :
  load_terraform_state demo_chdir demo_terraform demo_json_loads "/infra"
    (LoaderState (World "/infra" []) prod_fresh)
  = (LoaderState
       (World "/infra" [("/infra/prod", ["terraform"; "show"; "-json"]);
                        ("/infra/prod", ["terraform"; "output"; "-json"])]%string)
       prod_loaded,
     Ok true).
Proof.
  apply (load_success demo_chdir demo_terraform demo_json_loads "/infra" prod_fresh
           (World "/infra" []) "state" demo_snapshot demo_snapshot_values demo_root
           (JDict ∅)); by vm_compute.
Defined.

Lemma load_without_root_module_witness :
  load_terraform_state demo_chdir demo_terraform empty_object_loads "/infra"
    (LoaderState (World "/infra" []) prod_fresh)
  = (LoaderState
       (World "/infra" [("/infra/prod", ["terraform"; "show"; "-json"]);
                        ("/infra/prod", ["terraform"; "output"; "-json"])]%string)
       prod_fresh,
     Ok true).
Proof.
  apply (load_without_root_module demo_chdir demo_terraform empty_object_loads "/infra" prod_fresh
           (World "/infra" []) "state" ∅ (JDict ∅)); try (by vm_compute).
  by left.
Defined.

Lemma load_fails_after_resources_witness :
  load_terraform_state demo_chdir vanishing_terraform demo_json_loads "/infra"
    (LoaderState (World "/infra" []) prod_fresh)
  = (LoaderState
       (World "/infra" [("/infra/prod", ["terraform"; "show"; "-json"]);
                        ("/infra/prod", ["terraform"; "output"; "-json"])]%string)
       prod_loaded,
     Ok false).
Proof.
  apply (load_fails_after_resources demo_chdir vanishing_terraform demo_json_loads "/infra"
           prod_fresh (World "/infra" []) "state" demo_snapshot demo_snapshot_values
           demo_root); by vm_compute.
Defined.

Lemma load_raises_on_scalar_snapshot_witness :
  load_terraform_state demo_chdir demo_terraform null_loads "/infra"
    (LoaderState (World "/home/operator" []) prod_fresh)
  = (LoaderState (World "/infra" [("/infra/prod", ["terraform"; "show"; "-json"])]%string)
       prod_fresh,
     Raise TypeError).
Proof.
  apply (load_raises_on_scalar_snapshot demo_chdir demo_terraform null_loads "/infra" prod_fresh
           (World "/home/operator" []) "state" JNull); by vm_compute.
Defined.

Lemma load_commands_and_identity_witness :
  let out := load_terraform_state prod_removed_chdir demo_terraform demo_json_loads
               "/infra" (LoaderState (World "/infra" []) prod_fresh) in
  out.2 = Ok false /\ invoked (ls_world out.1) = [].
Proof.
  intros out.
  destruct (load_commands_and_identity prod_removed_chdir demo_terraform demo_json_loads
              "/infra" prod_fresh (World "/infra" []))
    as (_ & argvs & Hinv & Hcase & _).
  fold out in Hinv. vm_compute in Hcase.
  split; [by vm_compute|]. rewrite Hinv, Hcase. done.
Defined.

Lemma load_all_shape_witness :
  (load_all demo_chdir demo_terraform demo_json_loads "/infra"
     (find_terraform_workspaces demo_walk) 0 (World "/infra" [])).1.2.*1
  = ["prod"; "staging"]%string.
Proof.
  destruct (load_all demo_chdir demo_terraform demo_json_loads "/infra"
              (find_terraform_workspaces demo_walk) 0 (World "/infra" []))
    as [[w' wss'] r] eqn:Hload.
  destruct (load_all_shape _ _ _ _ _ _ _ _ _ _ Hload) as (Hkeys & _).
  simpl. by rewrite Hkeys.
Defined.

Lemma run_analysis_working_directory_witness :
  cwd (run_analysis demo_chdir demo_terraform demo_json_loads demo_walk
         (Analyzer "/infra" [] []) (World "/home/operator" [])).1.1
  = "/infra"%string.
Proof.
  destruct (run_analysis demo_chdir demo_terraform demo_json_loads demo_walk
              (Analyzer "/infra" [] []) (World "/home/operator" []))
    as [[w' self'] r] eqn:Hrun.
  assert (r = Ok true) as -> by (vm_compute in Hrun; congruence).
  destruct (run_analysis_working_directory _ _ _ _ _ _ _ _ Hrun) as [Hbase _].
  simpl. apply Hbase. apply Exists_cons. left. by vm_compute.
Defined.

Lemma summary_mapping_spec_witness :
  (summarize_all [prod_loaded; staging] []).1.*1 = ["prod"; "staging"]%string.
Proof.
  destruct (summarize_all [prod_loaded; staging] []) as [data r] eqn:Hsum.
  assert (r = Ok tt) as -> by (vm_compute in Hsum; congruence).
  destruct (summary_mapping_spec _ _ Hsum) as (_ & _ & _ & _ & Hdistinct).
  simpl. apply Hdistinct. by apply (bool_decide_unpack _).
Defined.

Lemma summary_invariants_witness :
  exists s,
    generate_workspace_summary prod_loaded = Ok s
    /\ Forall (fun kv => 0 < kv.2) (Summary.categories s)
    /\ 0 < Summary.resource_count s.
Proof.
  destruct (generate_workspace_summary prod_loaded) as [s|e] eqn:Hs;
    [|by vm_compute in Hs].
  exists s. split; [done|].
  destruct (summary_invariants prod_loaded s Hs) as (_ & _ & _ & _ & _ & Hpos & _).
  split; [done|]. vm_compute in Hs. injection Hs as <-. simpl. lia.
Defined.

Lemma totals_consistent_witness :
  Overview.total_resources
    (overview_totals [("staging"%string, no_resources_summary staging)])
  = AnalysisSummary.total_resources
      (analysis_summary [("staging"%string, no_resources_summary staging)]).
Proof.
  apply (totals_consistent [("staging"%string, no_resources_summary staging)]).
  constructor; [|constructor]. by exists staging.
Defined.

Lemma analyze_user_security_closed_form_witness :
  exists sa, analyze_user_security [alice; bob] = Ok sa
             /\ user_details sa = [user_record alice_values; user_record bob_values].
Proof.
  destruct (analyze_user_security [alice; bob]) as [sa|e] eqn:Hsa; [|by vm_compute in Hsa].
  exists sa. split; [done|].
  destruct (analyze_user_security_closed_form _ _ Hsa) as (vs & Hvs & ->). simpl.
  apply Forall2_cons_inv_l in Hvs as (v1 & vs1 & [Hv1 _] & Hvs & ->).
  apply Forall2_cons_inv_l in Hvs as (v2 & vs2 & [Hv2 _] & Hvs & ->).
  apply Forall2_nil_inv_l in Hvs as ->.
  injection Hv1 as <-. by injection Hv2 as <-.
Defined.

Lemma security_analysis_counts_witness :
  exists sa, analyze_user_security [alice; bob] = Ok sa
             /\ users_with_passwords sa + users_without_passwords sa = 2.
Proof.
  destruct (analyze_user_security [alice; bob]) as [sa|e] eqn:Hsa; [|by vm_compute in Hsa].
  exists sa. split; [done|].
  destruct (security_analysis_counts _ _ Hsa) as (Ht & _ & Hsum & _).
  by rewrite Hsum, Ht.
Defined.

Lemma main_filter_choices_witness :
  (main demo_chdir demo_terraform demo_json_loads true demo_resolve
     (demo_args (Some "clients"%string)) demo_walk (World "/infra" [])).2
  = Raise AttributeError.
Proof.
  destruct (run_analysis demo_chdir demo_terraform demo_json_loads demo_walk
              (Analyzer (demo_resolve "/infra" ".") [] []) (World "/infra" []))
    as [[w1 self1] r] eqn:Hrun.
  assert (r = Ok true) as -> by (vm_compute in Hrun; congruence).
  destruct (main_filter_choices demo_chdir demo_terraform demo_json_loads true demo_resolve
              (demo_args (Some "clients"%string)) demo_walk (World "/infra" [])
              w1 self1 "clients" Hrun eq_refl eq_refl) as (_ & _ & _ & Hraise).
  rewrite Hraise; [done | by left].
Defined.


(** * Further properties of the classifier, the projections and the detail sections *)

Lemma categories_ext (c c' : categories) :
  (forall k, cat_get c k = cat_get c' k) -> c = c'.
Proof.
  intros H. destruct c, c'.
  pose proof (H Realms). pose proof (H Users). pose proof (H Clients).
  pose proof (H Roles). pose proof (H Groups). pose proof (H IdentityProviders).
  pose proof (H AuthenticationFlows). pose proof (H Scopes). pose proof (H Mappers).
  pose proof (H Other). simpl in *. congruence.
Qed.

(** X21.  The classifier keeps input order and works piecewise: every
    category list is a sublist of the input, and classifying a
    concatenation gives, per category, the concatenation of the lists of the
    two parts (and raises when one of the parts does). *)
Theorem categorize_app (l1 l2 : list json) :
  (forall c k, categorize_keycloak_resources l1 = Ok c -> cat_get c k `sublist_of` l1)
  /\ (forall c1 c2,
        categorize_keycloak_resources l1 = Ok c1 ->
        categorize_keycloak_resources l2 = Ok c2 ->
        categorize_keycloak_resources (l1 ++ l2)
        = Ok (cat_map (fun k l => l ++ cat_get c2 k) c1))
  /\ (forall c,
        categorize_keycloak_resources (l1 ++ l2) = Ok c ->
        (exists c1, categorize_keycloak_resources l1 = Ok c1)
        /\ (exists c2, categorize_keycloak_resources l2 = Ok c2)).
Proof.
  split; [|split].
  - intros c k Hc. rewrite (categorize_filters _ _ Hc). apply sublist_filter.
  - intros c1 c2 H1 H2.
    assert (exists c, categorize_keycloak_resources (l1 ++ l2) = Ok c) as [c Hc].
    { apply categorize_defined, Forall_app. split; apply categorize_defined; eauto. }
    rewrite Hc. f_equal. apply categories_ext. intros k.
    rewrite cat_get_map, (categorize_filters _ _ Hc), (categorize_filters _ _ H1),
      (categorize_filters _ _ H2). apply filter_app.
  - intros c Hc.
    assert (Forall (fun r => classifiable r = true) (l1 ++ l2)) as [H1 H2]%Forall_app
      by (apply categorize_defined; eauto).
    split; by apply categorize_defined.
Qed.

(** X22.  A resource lands in [other] exactly when its type string
    contains none of the eleven keywords of the chain; in particular a
    record without a [type] key does. *)
Theorem classified_other_iff_no_keyword (r : json) (s : string) :
  has_type r s ->
  (resource_category r = Ok Other <->
   Forall (fun keyword => str_contains keyword s = false)
          ["realm"; "user"; "client"; "role"; "group"; "identity_provider"; "idp";
           "authentication"; "flow"; "scope"; "mapper"]%string)
  /\ (forall m, m !! "type" = None -> resource_category (JDict m) = Ok Other).
Proof.
  intros Hty. split.
  - rewrite (resource_category_typed r s Hty). unfold classify, py_ne_str. simpl.
    assert (str_contains "realm" s && negb (s =? "keycloak_user")%string
            = str_contains "realm" s) as ->.
    { destruct (s =? "keycloak_user")%string eqn:E; [|apply andb_true_r].
      apply String.eqb_eq in E as ->. done. }
    rewrite !Forall_cons, Forall_nil.
    destruct (str_contains "realm" s); simpl; [by split; [|intros [? _]]|].
    destruct (str_contains "user" s); simpl; [by split; [|intros (_ & ? & _)]|].
    destruct (str_contains "client" s); simpl; [by split; [|intros (_ & _ & ? & _)]|].
    destruct (str_contains "role" s); simpl; [by split; [|intros (_ & _ & _ & ? & _)]|].
    destruct (str_contains "group" s); simpl;
      [by split; [|intros (_ & _ & _ & _ & ? & _)]|].
    destruct (str_contains "identity_provider" s); simpl;
      [by split; [|intros (_ & _ & _ & _ & _ & ? & _)]|].
    destruct (str_contains "idp" s); simpl;
      [by split; [|intros (_ & _ & _ & _ & _ & _ & ? & _)]|].
    destruct (str_contains "authentication" s); simpl;
      [by split; [|intros (_ & _ & _ & _ & _ & _ & _ & ? & _)]|].
    destruct (str_contains "flow" s); simpl;
      [by split; [|intros (_ & _ & _ & _ & _ & _ & _ & _ & ? & _)]|].
    destruct (str_contains "scope" s); simpl;
      [by split; [|intros (_ & _ & _ & _ & _ & _ & _ & _ & _ & ? & _)]|].
    destruct (str_contains "mapper" s); simpl;
      [by split; [|intros (_ & _ & _ & _ & _ & _ & _ & _ & _ & _ & ? & _)]|].
    done.
  - intros m Hm. unfold resource_category, py_get. by rewrite Hm.
Qed.

(** ** Projections and detail sections *)

Lemma values_get_raises (r : json) (key : string) (dflt : json) :
  values_of r = None -> values_get r key dflt = Raise AttributeError.
Proof.
  unfold values_of, values_get. destruct r as [| | | | |l|m]; try done. simpl.
  by destruct (default (JDict ∅) (m !! "values")).
Qed.

(** A comprehension over resources whose body reads [values]. *)
Lemma comprehension_values {B} (f : json -> result B)
    (g : json -> gmap string json -> B) :
  (forall r, f r = match values_of r with
                   | Some v => Ok (g r v)
                   | None => Raise AttributeError
                   end) ->
  forall rs, comprehension f rs
             = match mapM values_of rs with
               | Some vs => Ok (zip_with g rs vs)
               | None => Raise AttributeError
               end.
Proof.
  intros Hf. induction rs as [|r rs IH]; csimpl; [done|].
  rewrite Hf. destruct (values_of r) as [v|]; csimpl; [|done].
  rewrite IH. by destruct (mapM values_of rs).
Qed.

(** X23.  The projections in closed form.  Each one returns, for a list of
    records whose [values] is missing or a record, one entry per resource
    in input order, holding the fields it reads with their defaults
    (['unknown'] for the identifying name, [''] for descriptive text and the
    address, [True] for [enabled]); it raises [AttributeError] as soon as a
    resource is not such a record. *)
Theorem projections_closed_form (rs : list json) :
  comprehension realm_projection rs
  = match mapM values_of rs with
    | Some vs =>
        Ok (zip_with (fun r v =>
                        RealmInfo (default (JStr "unknown") (v !! "realm"))
                                  (default (JBool true) (v !! "enabled"))
                                  (default (JStr "") (v !! "display_name"))
                                  (address_of r)) rs vs)
    | None => Raise AttributeError
    end
  /\ comprehension client_projection rs
     = match mapM values_of rs with
       | Some vs =>
           Ok (zip_with (fun r v =>
                           ClientInfo (default (JStr "unknown") (v !! "client_id"))
                                      (default (JStr "") (v !! "name"))
                                      (default (JBool true) (v !! "enabled"))
                                      (default (JStr "") (v !! "protocol"))
                                      (address_of r)) rs vs)
       | None => Raise AttributeError
       end
  /\ comprehension idp_projection rs
     = match mapM values_of rs with
       | Some vs =>
           Ok (zip_with (fun r v =>
                           IdpInfo (default (JStr "unknown") (v !! "alias"))
                                   (default (JStr "") (v !! "provider_id"))
                                   (default (JBool true) (v !! "enabled"))
                                   (address_of r)) rs vs)
       | None => Raise AttributeError
       end.
Proof.
  split; [|split]; apply comprehension_values; intros r;
    destruct (values_of r) as [v|] eqn:Hv.
  - by apply realm_projection_spec.
  - unfold realm_projection. by rewrite values_get_raises.
  - by apply client_projection_spec.
  - unfold client_projection. by rewrite values_get_raises.
  - by apply idp_projection_spec.
  - unfold idp_projection. by rewrite values_get_raises.
Qed.

Lemma comprehension_length {A B} (f : A -> result B) (l : list A) : forall ys,
  comprehension f l = Ok ys -> length ys = length l.
Proof.
  induction l as [|x l IH]; intros ys; simpl.
  - by intros [= <-].
  - intros (y & _ & (ys' & Hys & [= <-])%bind_Ok)%bind_Ok. simpl. by rewrite (IH ys').
Qed.

Lemma when_nonempty_Ok {A B} (l : list A) (f : list A -> result B) (o : option B) (b : B) :
  when_nonempty l f = Ok o -> o = Some b -> f l = Ok b.
Proof.
  unfold when_nonempty. destruct (nonempty l); [|by intros [= <-]].
  intros (v & Hv & [= <-])%bind_Ok [= <-]. done.
Qed.

(** X24.  The detail sections of a summary have the sizes that its
    categories announce: the user analysis counts as many users, and the
    realm, client and identity-provider lists have as many entries, as the
    [categories] mapping gives for the category. *)
Theorem detail_sections_match_counts (ws : TerraformWorkspace) (s : Summary.t)
    (da : detailed_analysis) :
  generate_workspace_summary ws = Ok s ->
  Summary.detailed_analysis s = Some da ->
  (forall sa, user_security da = Some sa ->
              total_users sa = count_of "users" (Summary.categories s)
              /\ length (user_details sa) = count_of "users" (Summary.categories s))
  /\ (forall l, realm_details da = Some l ->
                length l = count_of "realms" (Summary.categories s))
  /\ (forall l, client_details da = Some l ->
                length l = count_of "clients" (Summary.categories s))
  /\ (forall l, identity_provider_details da = Some l ->
                length l = count_of "identity_providers" (Summary.categories s)).
Proof.
  intros Hs. apply generate_inversion in Hs
    as [[_ ->] | (r & rs & cats & us & re & cl & ip & _ & _ & Hus & Hre & Hcl & Hip & ->)];
    [done|].
  cbn -[category_counts count_of]. intros [= <-]. cbn -[category_counts count_of].
  pose proof (count_of_length cats Users) as HU.
  pose proof (count_of_length cats Realms) as HR.
  pose proof (count_of_length cats Clients) as HC.
  pose proof (count_of_length cats IdentityProviders) as HI.
  cbn [category_key cat_get] in HU, HR, HC, HI. rewrite HU, HR, HC, HI.
  split; [|split; [|split]].
  - intros sa Hsa. pose proof (when_nonempty_Ok _ _ _ _ Hus Hsa) as Han.
    by destruct (analyze_user_security_lengths _ _ Han) as [-> ->].
  - intros l Hl. by apply (comprehension_length realm_projection), (when_nonempty_Ok _ _ re).
  - intros l Hl. by apply (comprehension_length client_projection), (when_nonempty_Ok _ _ cl).
  - intros l Hl. by apply (comprehension_length idp_projection), (when_nonempty_Ok _ _ ip).
Qed.

(** X25.  Entries are lost from the summary mapping exactly when two
    workspaces share a name: after a completed summary loop from an empty
    mapping there are as many entries as workspaces if and only if the
    names are pairwise distinct.  Distinct directories can share a name:
    the scan root and a subdirectory [root] are both named ["root"]. *)
Theorem summary_entries_lost_iff_names_clash (wss : list TerraformWorkspace)
    (data : list (string * Summary.t)) :
  summarize_all wss [] = (data, Ok tt) ->
  (length data = length wss <-> NoDup (Workspace.name <$> wss))
  /\ (forall e1 e2,
        we_relative e1 = "."%string -> we_relative e2 = "root"%string ->
        Workspace.name (new_workspace e1) = Workspace.name (new_workspace e2)).
Proof.
  intros Hsum. destruct (summarize_all_keys wss data Hsum) as [Hnd Hkeys].
  pose proof (summarize_all_in_order wss data Hsum) as Hdistinct.
  split.
  - split.
    + intros Hlen.
      assert (data.*1 ⊆+ Workspace.name <$> wss) as Hsub
        by (apply NoDup_submseteq; [done | intros k; apply Hkeys]).
      apply submseteq_length_Permutation in Hsub; [by rewrite <- Hsub|].
      rewrite !length_fmap. lia.
    + intros Hnames. destruct (Hdistinct Hnames) as [Heq _].
      by rewrite <- (length_fmap fst data), Heq, length_fmap.
  - intros e1 e2 H1 H2. unfold new_workspace. simpl. by rewrite H1, H2.
Qed.

Lemma classified_other_iff_no_keyword_witness :
  resource_category (JDict {[ "type" := JStr "keycloak_openid" ]}) = Ok Other.
Proof.
  assert (has_type (JDict {[ "type" := JStr "keycloak_openid" ]}) "keycloak_openid")
    as Hty by (by vm_compute).
  apply (proj1 (classified_other_iff_no_keyword _ _ Hty)).
  repeat (constructor; [by vm_compute|]). constructor.
Defined.

Lemma detail_sections_match_counts_witness :
  exists s da sa,
    generate_workspace_summary prod_loaded = Ok s
    /\ Summary.detailed_analysis s = Some da
    /\ user_security da = Some sa
    /\ total_users sa = count_of "users" (Summary.categories s).
Proof.
  destruct (generate_workspace_summary prod_loaded) as [s|e] eqn:Hs;
    [|by vm_compute in Hs].
  destruct (Summary.detailed_analysis s) as [da|] eqn:Hda;
    [|vm_compute in Hs; injection Hs as <-; by vm_compute in Hda].
  destruct (user_security da) as [sa|] eqn:Hsa;
    [|vm_compute in Hs; injection Hs as <-; vm_compute in Hda;
      injection Hda as <-; by vm_compute in Hsa].
  exists s, da, sa. repeat split; try done.
  by apply (detail_sections_match_counts prod_loaded s da Hs Hda).
Defined.

Lemma summary_entries_lost_iff_names_clash_witness :
  length (summarize_all [prod_loaded; staging] []).1 = 2.
Proof.
  destruct (summarize_all [prod_loaded; staging] []) as [data r] eqn:Hsum.
  assert (r = Ok tt) as -> by (vm_compute in Hsum; congruence).
  destruct (summary_entries_lost_iff_names_clash _ _ Hsum) as [Hiff _].
  simpl. apply Hiff. by apply (bool_decide_unpack _).
Defined.

(** ** The exported counts *)

Lemma length_filter_Forall2 {A B} (f : A -> bool) (g : B -> bool) (l1 : list A) (l2 : list B) :
  Forall2 (fun a b => f a = g b) l1 l2 ->
  length (filter (fun a => f a = true) l1) = length (filter (fun b => g b = true) l2).
Proof.
  induction 1 as [|a b l1 l2 Hab _ IH]; [done|]. rewrite !filter_cons, Hab.
  destruct (g b); simpl; by rewrite IH.
Qed.

Lemma Forall2_compose {A B C} (P : A -> B -> Prop) (Q : B -> C -> Prop) l1 l2 l3 :
  Forall2 P l1 l2 -> Forall2 Q l2 l3 ->
  Forall2 (fun a c => exists b, P a b /\ Q b c) l1 l3.
Proof.
  intros H. revert l3. induction H as [|a b l1 l2 Hab _ IH]; intros l3 HQ.
  - apply Forall2_nil_inv_l in HQ as ->. constructor.
  - apply Forall2_cons_inv_l in HQ as (c & l3' & Hbc & HQ & ->).
    constructor; [by exists b | by apply IH].
Qed.

(** X26.  What the export counts as a workspace with state.  After a
    completed run that started with an empty summary mapping, over
    workspaces with pairwise distinct names, [total_workspaces] is the
    number of discovered workspaces and [workspaces_with_state] is the
    number of those that have a state file, whether or not their state
    could be loaded. *)
Theorem exported_workspace_counts os_chdir subprocess_run json_loads (walk : list walk_entry)
    (self : analyzer) (w w' : world) (self' : analyzer) :
  run_analysis os_chdir subprocess_run json_loads walk self w = (w', self', Ok true) ->
  summary_data self = [] ->
  NoDup (Workspace.name <$> (find_terraform_workspaces walk).*2) ->
  (summary_data self').*1 = Workspace.name <$> (find_terraform_workspaces walk).*2
  /\ AnalysisSummary.total_workspaces (analysis_summary (summary_data self'))
     = length (find_terraform_workspaces walk)
  /\ AnalysisSummary.workspaces_with_state (analysis_summary (summary_data self'))
     = length (filter (fun kv => Workspace.has_state kv.2 = true)
                      (find_terraform_workspaces walk)).
Proof.
  intros Hrun Hempty Hnames.
  destruct (run_analysis_loads _ _ _ _ _ _ _ _ Hrun) as [n Hload].
  pose proof (load_all_identity _ _ _ _ _ _ _ _ _ _ Hload) as Hids.
  apply run_analysis_summaries in Hrun. rewrite Hempty in Hrun.
  set (found := find_terraform_workspaces walk) in *.
  assert (Workspace.name <$> (workspaces self').*2 = Workspace.name <$> found.*2) as Hsame.
  { clear -Hids. induction Hids as [|a b l1 l2 (_ & Hn & _) _ IH]; csimpl; [done|].
    by rewrite Hn, IH. }
  destruct (summarize_all_in_order _ _ Hrun) as [Hkeys Hgen]; [by rewrite Hsame|].
  split; [by rewrite Hkeys|].
  assert (Forall2 (fun kv s => Workspace.has_state kv.2 = Summary.has_state s.2)
                  found (summary_data self')) as Hstates.
  { apply Forall2_fmap_l in Hgen.
    assert (Forall2 (fun kv kv' => Workspace.has_state kv.2 = Workspace.has_state kv'.2)
                    found (workspaces self')) as Hflag
      by (eapply Forall2_impl; [done | by intros a b (_ & _ & ->)]).
    eapply Forall2_impl; [apply (Forall2_compose _ _ _ _ _ Hflag Hgen)|].
    intros a c (b & -> & Hs). simpl in Hs.
    by rewrite (summary_has_state _ _ Hs). }
  split.
  - simpl. apply Forall2_length in Hstates. done.
  - simpl. rewrite sum_list_fmap_const, Nat.mul_1_r.
    rewrite (length_filter_Forall2 (fun kv => Workspace.has_state kv.2)
               (fun kv : string * Summary.t => Summary.has_state kv.2) _ _ Hstates).
    clear. induction (summary_data self') as [|[k s] d IH]; [done|].
    csimpl. rewrite !filter_cons. simpl. destruct (Summary.has_state s); simpl; by rewrite IH.
Qed.

Lemma exported_workspace_counts_witness :
  AnalysisSummary.workspaces_with_state
    (analysis_summary
       (summary_data
          (run_analysis demo_chdir vanishing_terraform demo_json_loads demo_walk
             (Analyzer "/infra" [] []) (World "/infra" [])).1.2))
  = 1.
Proof.
  destruct (run_analysis demo_chdir vanishing_terraform demo_json_loads demo_walk
              (Analyzer "/infra" [] []) (World "/infra" []))
    as [[w' self'] r] eqn:Hrun.
  assert (r = Ok true) as -> by (vm_compute in Hrun; congruence).
  destruct (exported_workspace_counts _ _ _ _ _ _ _ _ Hrun eq_refl) as (_ & _ & Hstate).
  { by apply (bool_decide_unpack _). }
  cbn [fst snd]. rewrite Hstate. by vm_compute.
Defined.
